(** * Jobs service: deadlines, reminders and escalations

    A shallow embedding of the scheduling and decision core of the jobs
    service (job identities, queue producers, the three processors, the
    policy gate and the webhook intake), with the properties its
    specification states about them.

    Conventions of the embedding.
    - JavaScript numbers that the schemas constrain to integers (unix
      seconds, milliseconds, nonces, minute offsets) are [Z]; a template
      literal renders them in decimal, with a leading minus sign (as
      JavaScript does for integers below 10^21).
    - JavaScript strings are [string]: sequences of code units.
    - An optional field [x?: number] is an [option Z]; the test
      [typeof x === "number"] is the match on [Some].
    - A call through a port (API, notifier, queue, clock) is an entry of
      an interaction log; what the port answers is given by an oracle that
      sees the log so far, so an answer may depend on everything that
      happened before. A thrown error is the [Throw] outcome. *)

From Stdlib Require Import ZArith List String Ascii Bool Lia.
From Stdlib Require Import DecimalString DecimalZ.
From Stdlib Require Import Sorted OrderedTypeEx.
Import ListNotations.

Local Open Scope string_scope.
Local Open Scope Z_scope.

(* ------------------------------------------------------------------ *)
(** ** Strings *)

Module Str.

(** Number of occurrences of the code unit [c] in [s]. *)
Fixpoint count (c : ascii) (s : string) : nat :=
  match s with
  | EmptyString => 0%nat
  | String a r => if Ascii.eqb a c then S (count c r) else count c r
  end.

(** [String(n)] and [`${n}`] for an integer [n]. *)
Definition ofZ (n : Z) : string := NilEmpty.string_of_int (Z.to_int n).

(** ASCII lower-casing of one code unit, as [toLowerCase] acts on the
    header names that HTTP allows. *)
Definition lowerAscii (a : ascii) : ascii :=
  let n := nat_of_ascii a in
  if (Nat.leb 65 n && Nat.leb n 90)%bool then ascii_of_nat (n + 32) else a.

Fixpoint toLowerCase (s : string) : string :=
  match s with
  | EmptyString => EmptyString
  | String a r => String (lowerAscii a) (toLowerCase r)
  end.

(** JavaScript truthiness of a string: non-empty. *)
Definition truthy (s : string) : bool :=
  match s with EmptyString => false | String _ _ => true end.

(** The code units of a decimal rendering: the digits and the minus sign. *)
Definition isDecimalChar (a : ascii) : bool :=
  let n := nat_of_ascii a in
  (Nat.leb 48 n && Nat.leb n 57)%bool || Nat.eqb n 45.

End Str.

(* ------------------------------------------------------------------ *)
(** ** Job payloads and identities ([src/types/jobs.ts]) *)

Inductive DeadlineKind := delivery | dispute.

Record DeadlineJob := mkDeadlineJob {
  dj_dealId : string;
  dj_deadlineAt : Z;
  dj_kind : DeadlineKind;
  dj_nonce : Z
}.

Inductive ReminderAudience := buyer | seller | both.
Inductive ReminderReason := deadline_upcoming | dispute_window_closing.

Record ReminderJob := mkReminderJob {
  rj_dealId : string;
  rj_notifyAt : Z;
  rj_for : ReminderAudience;
  rj_reason : ReminderReason
}.

Inductive EscalationReason := deadline_expired | no_ack | no_delivery.
Inductive EscalationSuggestion := RELEASE | REFUND | REVIEW.

Record EscalationJob := mkEscalationJob {
  ej_dealId : string;
  ej_reason : EscalationReason;
  ej_suggested : EscalationSuggestion
}.

(** The string values of the enums. *)
Definition DeadlineKind_str (k : DeadlineKind) : string :=
  match k with delivery => "delivery" | dispute => "dispute" end.

Definition ReminderAudience_str (a : ReminderAudience) : string :=
  match a with buyer => "buyer" | seller => "seller" | both => "both" end.

Definition ReminderReason_str (r : ReminderReason) : string :=
  match r with
  | deadline_upcoming => "deadline-upcoming"
  | dispute_window_closing => "dispute-window-closing"
  end.

Definition EscalationReason_str (r : EscalationReason) : string :=
  match r with
  | deadline_expired => "deadline-expired"
  | no_ack => "no-ack"
  | no_delivery => "no-delivery"
  end.

Definition EscalationSuggestion_str (s : EscalationSuggestion) : string :=
  match s with RELEASE => "RELEASE" | REFUND => "REFUND" | REVIEW => "REVIEW" end.

(** [`deadline:${j.dealId}:${j.deadlineAt}:${j.kind}:${j.nonce}`] *)
Definition jobIdForDeadline (j : DeadlineJob) : string :=
  "deadline:" ++ dj_dealId j ++ ":" ++ Str.ofZ (dj_deadlineAt j) ++ ":"
    ++ DeadlineKind_str (dj_kind j) ++ ":" ++ Str.ofZ (dj_nonce j).

(** [`reminder:${j.dealId}:${j.notifyAt}:${j.for}:${j.reason}`] *)
Definition jobIdForReminder (j : ReminderJob) : string :=
  "reminder:" ++ rj_dealId j ++ ":" ++ Str.ofZ (rj_notifyAt j) ++ ":"
    ++ ReminderAudience_str (rj_for j) ++ ":" ++ ReminderReason_str (rj_reason j).

(** [`escalation:${j.dealId}:${j.reason}:${j.suggested}`] *)
Definition jobIdForEscalation (j : EscalationJob) : string :=
  "escalation:" ++ ej_dealId j ++ ":" ++ EscalationReason_str (ej_reason j) ++ ":"
    ++ EscalationSuggestion_str (ej_suggested j).

(* ------------------------------------------------------------------ *)
(** ** Node's [crypto]: SHA-256 and HMAC-SHA256 over byte strings

    [createHash("sha256")] and [createHmac("sha256", key)] are library
    calls; they are modelled by the functions of FIPS 180-4 and RFC 2104,
    on bytes as [Z] in [0, 255] and 32-bit words as [Z] in [0, 2^32). *)

Module Crypto.

Definition w32 (x : Z) : Z := x mod 4294967296.
Definition add32 (x y : Z) : Z := w32 (x + y).
Definition rotr (n x : Z) : Z := w32 (Z.lor (Z.shiftr x n) (Z.shiftl x (32 - n))).
Definition not32 (x : Z) : Z := Z.lxor x 4294967295.

Definition Ch (x y z : Z) : Z := Z.lxor (Z.land x y) (Z.land (not32 x) z).
Definition Maj (x y z : Z) : Z :=
  Z.lxor (Z.lxor (Z.land x y) (Z.land x z)) (Z.land y z).
Definition bigSigma0 (x : Z) : Z := Z.lxor (Z.lxor (rotr 2 x) (rotr 13 x)) (rotr 22 x).
Definition bigSigma1 (x : Z) : Z := Z.lxor (Z.lxor (rotr 6 x) (rotr 11 x)) (rotr 25 x).
Definition smallSigma0 (x : Z) : Z := Z.lxor (Z.lxor (rotr 7 x) (rotr 18 x)) (Z.shiftr x 3).
Definition smallSigma1 (x : Z) : Z := Z.lxor (Z.lxor (rotr 17 x) (rotr 19 x)) (Z.shiftr x 10).

(** The round constants: the first 32 bits of the fractional parts of the
    cube roots of the first 64 primes. *)
Definition roundConstants : list Z :=
  [ 1116352408; 1899447441; 3049323471; 3921009573; 961987163; 1508970993;
    2453635748; 2870763221; 3624381080; 310598401; 607225278; 1426881987;
    1925078388; 2162078206; 2614888103; 3248222580; 3835390401; 4022224774;
    264347078; 604807628; 770255983; 1249150122; 1555081692; 1996064986;
    2554220882; 2821834349; 2952996808; 3210313671; 3336571891; 3584528711;
    113926993; 338241895; 666307205; 773529912; 1294757372; 1396182291;
    1695183700; 1986661051; 2177026350; 2456956037; 2730485921; 2820302411;
    3259730800; 3345764771; 3516065817; 3600352804; 4094571909; 275423344;
    430227734; 506948616; 659060556; 883997877; 958139571; 1322822218;
    1537002063; 1747873779; 1955562222; 2024104815; 2227730452; 2361852424;
    2428436474; 2756734187; 3204031479; 3329325298 ].

(** The eight working words. *)
Record Words8 := mkWords8 {
  wa : Z; wb : Z; wc : Z; wd : Z; we : Z; wf : Z; wg : Z; wh : Z
}.

Definition initialHash : Words8 :=
  mkWords8 1779033703 3144134277 1013904242 2773480762
           1359893119 2600822924 528734635 1541459225.

(** Big-endian word of four bytes. *)
Definition wordOfBytes (b : list Z) : Z :=
  fold_left (fun acc x => acc * 256 + x) b 0.

Fixpoint wordsOfBytes (n : nat) (b : list Z) : list Z :=
  match n with
  | O => []
  | S n' => wordOfBytes (firstn 4 b) :: wordsOfBytes n' (skipn 4 b)
  end.

(** The message schedule: [win] holds the last sixteen words, oldest first. *)
Fixpoint extendSchedule (n : nat) (win : list Z) : list Z :=
  match n with
  | O => []
  | S n' =>
      let w := add32 (add32 (smallSigma1 (nth 14 win 0)) (nth 9 win 0))
                     (add32 (smallSigma0 (nth 1 win 0)) (nth 0 win 0)) in
      w :: extendSchedule n' (skipn 1 win ++ [w])
  end.

Definition schedule (block : list Z) : list Z :=
  let w16 := wordsOfBytes 16 block in
  w16 ++ extendSchedule 48 w16.

Definition round (s : Words8) (kw : Z * Z) : Words8 :=
  let t1 := add32 (add32 (add32 (wh s) (bigSigma1 (we s)))
                         (add32 (Ch (we s) (wf s) (wg s)) (fst kw))) (snd kw) in
  let t2 := add32 (bigSigma0 (wa s)) (Maj (wa s) (wb s) (wc s)) in
  mkWords8 (add32 t1 t2) (wa s) (wb s) (wc s) (add32 (wd s) t1) (we s) (wf s) (wg s).

Definition compress (h : Words8) (block : list Z) : Words8 :=
  let s := fold_left round (combine roundConstants (schedule block)) h in
  mkWords8 (add32 (wa h) (wa s)) (add32 (wb h) (wb s)) (add32 (wc h) (wc s))
           (add32 (wd h) (wd s)) (add32 (we h) (we s)) (add32 (wf h) (wf s))
           (add32 (wg h) (wg s)) (add32 (wh h) (wh s)).

(** Big-endian bytes of [x], [n] of them. *)
Fixpoint bytesOf (n : nat) (x : Z) : list Z :=
  match n with
  | O => []
  | S n' => (Z.shiftr x (8 * Z.of_nat n')) mod 256 :: bytesOf n' x
  end.

(** Padding: a one bit, zeros up to 56 modulo 64, the bit length on 64 bits. *)
Definition pad (msg : list Z) : list Z :=
  let len := Z.of_nat (List.length msg) in
  let zeros := Z.to_nat ((55 - len) mod 64) in
  msg ++ 128 :: repeat 0 zeros ++ bytesOf 8 (8 * len).

Fixpoint hashBlocks (n : nat) (h : Words8) (b : list Z) : Words8 :=
  match n with
  | O => h
  | S n' => hashBlocks n' (compress h (firstn 64 b)) (skipn 64 b)
  end.

Definition sha256 (msg : list Z) : Words8 :=
  let p := pad msg in
  hashBlocks (Nat.div (List.length p) 64) initialHash p.

Definition digestBytes (h : Words8) : list Z :=
  bytesOf 4 (wa h) ++ bytesOf 4 (wb h) ++ bytesOf 4 (wc h) ++ bytesOf 4 (wd h)
    ++ bytesOf 4 (we h) ++ bytesOf 4 (wf h) ++ bytesOf 4 (wg h) ++ bytesOf 4 (wh h).

(** [digest("hex")]: lower-case hexadecimal, eight digits per word. *)
Definition hexDigit (x : Z) : ascii :=
  nth (Z.to_nat (x mod 16))
      ["0"; "1"; "2"; "3"; "4"; "5"; "6"; "7"; "8"; "9"; "a"; "b"; "c"; "d"; "e"; "f"]%char
      "0"%char.

Definition hexWord (w : Z) (rest : string) : string :=
  String (hexDigit (Z.shiftr w 28)) (String (hexDigit (Z.shiftr w 24))
 (String (hexDigit (Z.shiftr w 20)) (String (hexDigit (Z.shiftr w 16))
 (String (hexDigit (Z.shiftr w 12)) (String (hexDigit (Z.shiftr w 8))
 (String (hexDigit (Z.shiftr w 4)) (String (hexDigit w) rest))))))).

Definition digestHex (h : Words8) : string :=
  hexWord (wa h) (hexWord (wb h) (hexWord (wc h) (hexWord (wd h)
 (hexWord (we h) (hexWord (wf h) (hexWord (wg h) (hexWord (wh h) ""))))))).

(** [Buffer.from(s)]: the bytes of a string. *)
Definition bytesOfString (s : string) : list Z :=
  map (fun a => Z.of_nat (nat_of_ascii a)) (list_ascii_of_string s).

(** HMAC (RFC 2104) with SHA-256: block size 64. *)
Definition hmacKeyBlock (key : list Z) : list Z :=
  let k := if Nat.ltb 64 (List.length key) then digestBytes (sha256 key) else key in
  k ++ repeat 0 (64 - List.length k)%nat.

Definition hmacSha256 (key msg : list Z) : Words8 :=
  let k := hmacKeyBlock key in
  let inner := sha256 (map (Z.lxor 54) k ++ msg) in
  sha256 (map (Z.lxor 92) k ++ digestBytes inner).

(** [createHash("sha256").update(s).digest("hex")] *)
Definition sha256Hex (s : string) : string :=
  digestHex (sha256 (bytesOfString s)).

(** [createHmac("sha256", Buffer.from(secret)).update(body).digest("hex")] *)
Definition hmacSha256Hex (secret body : string) : string :=
  digestHex (hmacSha256 (bytesOfString secret) (bytesOfString body)).

End Crypto.

(* ------------------------------------------------------------------ *)
(** ** Deal snapshots and the ports' data ([src/ports]) *)

Inductive DealState := INIT | FUNDED | DELIVERED | DISPUTED | RESOLVED | RELEASED | REFUNDED.

Definition DealState_eqb (a b : DealState) : bool :=
  match a, b with
  | INIT, INIT | FUNDED, FUNDED | DELIVERED, DELIVERED | DISPUTED, DISPUTED
  | RESOLVED, RESOLVED | RELEASED, RELEASED | REFUNDED, REFUNDED => true
  | _, _ => false
  end.

Record DealSnapshot := mkDealSnapshot {
  snap_id : string;
  snap_state : DealState;
  snap_deliveryBy : option Z;    (* unix seconds *)
  snap_disputeUntil : option Z   (* unix seconds *)
}.

(** [{ approvalUrl?: string; blinkUrl?: string }]: a field that is not a
    string reads as absent. *)
Record PrepareFinalizeResult := mkPrepareFinalizeResult {
  pf_approvalUrl : option string;
  pf_blinkUrl : option string
}.

(** The [context] objects the processors pass to the notifier. *)
Inductive NotifyContext :=
| CtxKind (kind : DeadlineKind)
| CtxSuggested (suggested : EscalationSuggestion)
| CtxPrepared (suggested : EscalationSuggestion) (approvalUrl blinkUrl : option string)
| CtxDeadlines (deliveryBy disputeUntil : option Z).

Record NotifyReviewerInput := mkNotifyReviewerInput {
  nr_dealId : string;
  nr_reason : EscalationReason;
  nr_when : Z;
  nr_context : NotifyContext
}.

Record NotifyPartiesInput := mkNotifyPartiesInput {
  np_dealId : string;
  np_event : string;
  np_when : Z;
  np_context : NotifyContext
}.

Record SendReminderInput := mkSendReminderInput {
  sr_dealId : string;
  sr_when : Z;
  sr_audience : ReminderAudience;
  sr_reason : ReminderReason;
  sr_context : NotifyContext
}.

(** What a producer hands to [queue.add(name, data, { jobId, delay })]. *)
Inductive JobData :=
| JDeadline (j : DeadlineJob)
| JReminder (j : ReminderJob)
| JEscalation (j : EscalationJob)
| JEscrowDeadline (escrowPubkey : string) (deliveryAtMs : Z)
| JEscrowReminder (escrowPubkey : string) (deliveryAtMs minutesBefore : Z)
| JEscrowEscalation (escrowPubkey : string) (deliveryAtMs disputeWindowSeconds : Z).

Record AddRequest := mkAddRequest {
  add_queue : string;        (* the queue the job goes to *)
  add_name : string;         (* the job name *)
  add_data : JobData;
  add_jobId : string;
  add_delay : option Z       (* milliseconds; absent when the producer sets none *)
}.

(* ------------------------------------------------------------------ *)
(** ** Effects: the interaction log, thrown errors, the environment *)

Inductive Event :=
| GetDealSnapshot (dealId : string)
| PrepareFinalize (dealId : string) (action : EscalationSuggestion)
| NotifyReviewer (input : NotifyReviewerInput)
| NotifyParties (input : NotifyPartiesInput)
| SendReminder (input : SendReminderInput)
| QueueAdd (request : AddRequest)
| QueueClose (queue : string).

Definition Log := list Event.

Inductive Error :=
| ZodError (schema : string)
| SyntaxError
| ConfigError (message : string)
| PortError (message : string).

Inductive Outcome (A : Type) :=
| Ok (a : A)
| Throw (e : Error).

Arguments Ok {A} a.
Arguments Throw {A} e.

(** The world outside the service. Each oracle is asked with the log whose
    last entry is the request being answered. *)
Record Env := mkEnv {
  processEnv : string -> option string;          (* process.env *)
  clock : Log -> Z;                              (* Date.now(), milliseconds *)
  api_getDealSnapshot : Log -> Outcome DealSnapshot;
  api_prepareFinalize : Log -> Outcome PrepareFinalizeResult;
  notify_notifyReviewer : Log -> Outcome unit;
  notify_notifyParties : Log -> Outcome unit;
  notify_sendReminder : Log -> Outcome unit;
  queue_add : Log -> Outcome unit;
  queue_close : Log -> Outcome unit
}.

(** Computations that read and extend the log and may throw. *)
Definition M (A : Type) : Type := Log -> Outcome A * Log.

Definition ret {A} (a : A) : M A := fun log => (Ok a, log).

Definition throw {A} (e : Error) : M A := fun log => (Throw e, log).

Definition bind {A B} (m : M A) (k : A -> M B) : M B :=
  fun log =>
    match m log with
    | (Ok a, log') => k a log'
    | (Throw e, log') => (Throw e, log')
    end.

(** [try { m } catch { h }] *)
Definition tryCatch {A} (m : M A) (h : Error -> M A) : M A :=
  fun log =>
    match m log with
    | (Ok a, log') => (Ok a, log')
    | (Throw e, log') => h e log'
    end.

(** [try { m } finally { f }]: [f] runs on both exits; an error of [f]
    replaces the outcome of [m]. *)
Definition tryFinally {A} (m : M A) (f : M unit) : M A :=
  fun log =>
    match m log with
    | (r, log') =>
        match f log' with
        | (Ok _, log'') => (r, log'')
        | (Throw e, log'') => (Throw e, log'')
        end
    end.

(** A port call: the request enters the log, the oracle answers. *)
Definition call {A} (request : Event) (oracle : Log -> Outcome A) : M A :=
  fun log => let log' := (log ++ [request])%list in (oracle log', log').

(** [Date.now()] *)
Definition dateNow (env : Env) : M Z := fun log => (Ok (clock env log), log).

(** [Math.floor(Date.now() / 1000)] *)
Definition nowSeconds (env : Env) : M Z := bind (dateNow env) (fun ms => ret (ms / 1000)).

Declare Scope m_scope.
Delimit Scope m_scope with m.
Notation "x <- c1 ;; c2" := (bind c1 (fun x => c2))
  (at level 61, c1 at next level, right associativity) : m_scope.
Notation "c1 ;;; c2" := (bind c1 (fun _ => c2))
  (at level 61, right associativity) : m_scope.
Local Open Scope m_scope.

(* ------------------------------------------------------------------ *)
(** ** Runtime validators ([src/types/jobs.ts])

    A payload arrives as a record whose fields have the right types; what
    the Zod schemas still check are the constraints on the values. *)

(** [z.string().min(1)], [UnixSeconds], [NonNegativeInt] *)
Definition DeadlineJobSchema (j : DeadlineJob) : bool :=
  Str.truthy (dj_dealId j) && (0 <? dj_deadlineAt j) && (0 <=? dj_nonce j).

Definition ReminderJobSchema (j : ReminderJob) : bool :=
  Str.truthy (rj_dealId j) && (0 <? rj_notifyAt j).

Definition EscalationJobSchema (j : EscalationJob) : bool :=
  Str.truthy (ej_dealId j).

Definition parse {A} (schema : A -> bool) (name : string) (input : A) : M A :=
  if schema input then ret input else throw (ZodError name).

Definition assertDeadlineJob : DeadlineJob -> M DeadlineJob :=
  parse DeadlineJobSchema "DeadlineJobSchema".

Definition assertReminderJob : ReminderJob -> M ReminderJob :=
  parse ReminderJobSchema "ReminderJobSchema".

Definition assertEscalationJob : EscalationJob -> M EscalationJob :=
  parse EscalationJobSchema "EscalationJobSchema".

(** A BullMQ job as the processors see it. *)
Record Job (A : Type) := mkJob {
  job_id : option string;
  job_data : A
}.

Arguments mkJob {A} job_id job_data.
Arguments job_id {A} j.
Arguments job_data {A} j.

(* ------------------------------------------------------------------ *)
(** ** Policy gate ([src/ports/ChainPort.ts]) *)

Definition isSpace (a : ascii) : bool :=
  match nat_of_ascii a with
  | 9%nat | 10%nat | 11%nat | 12%nat | 13%nat | 32%nat => true
  | _ => false
  end.

Fixpoint trimStart (s : string) : string :=
  match s with
  | EmptyString => EmptyString
  | String a r => if isSpace a then trimStart r else s
  end.

Definition reverse (s : string) : string :=
  string_of_list_ascii (rev (list_ascii_of_string s)).

(** [s.trim()], on values whose white space is ASCII. *)
Definition trim (s : string) : string := reverse (trimStart (reverse (trimStart s))).

Definition readBoolEnv (env : Env) (name : string) (fallback : bool) : bool :=
  match processEnv env name with
  | None => fallback
  | Some raw =>
      let v := Str.toLowerCase (trim raw) in
      if (v =? "true")%string || (v =? "1")%string || (v =? "yes")%string || (v =? "on")%string
      then true
      else if (v =? "false")%string || (v =? "0")%string || (v =? "no")%string
              || (v =? "off")%string
      then false
      else fallback
  end.

Record ChainPolicy := mkChainPolicy {
  allowsAutoFinalize : EscalationSuggestion -> bool
}.

Definition getChainPolicy (env : Env) : ChainPolicy :=
  let allowRelease := readBoolEnv env "AUTO_FINALIZE_RELEASE" false in
  let allowRefund := readBoolEnv env "AUTO_FINALIZE_REFUND" false in
  mkChainPolicy (fun action =>
    match action with
    | RELEASE => allowRelease
    | REFUND => allowRefund
    | REVIEW => false
    end).

(* ------------------------------------------------------------------ *)
(** ** Deadline processor ([src/processors/handleDeadline.ts]) *)

Inductive Decision :=
| DNoop
| DEscalate (reason : EscalationReason) (suggested : EscalationSuggestion).

(** [typeof t === "number" && nowSec >= t] *)
Definition reached (nowSec : Z) (t : option Z) : bool :=
  match t with
  | Some d => nowSec >=? d
  | None => false
  end.

Definition decide (kind : DeadlineKind) (snap : DealSnapshot) (nowSec : Z) : Decision :=
  match kind with
  | delivery =>
      if DealState_eqb (snap_state snap) DELIVERED || DealState_eqb (snap_state snap) RELEASED
         || DealState_eqb (snap_state snap) REFUNDED || DealState_eqb (snap_state snap) RESOLVED
      then DNoop
      else
        let overdue := reached nowSec (snap_deliveryBy snap) in
        if overdue then DEscalate no_delivery REVIEW else DNoop
  | dispute =>
      if DealState_eqb (snap_state snap) RESOLVED || DealState_eqb (snap_state snap) RELEASED
         || DealState_eqb (snap_state snap) REFUNDED
      then DNoop
      else
        let windowEnded := reached nowSec (snap_disputeUntil snap) in
        if negb windowEnded then DNoop
        else if DealState_eqb (snap_state snap) FUNDED || DealState_eqb (snap_state snap) DELIVERED
        then DEscalate deadline_expired RELEASE
        else DEscalate deadline_expired REVIEW
  end.

Definition EscalationSuggestion_eqb (a b : EscalationSuggestion) : bool :=
  match a, b with
  | RELEASE, RELEASE | REFUND, REFUND | REVIEW, REVIEW => true
  | _, _ => false
  end.

Definition Q_ESCALATION : string := "escalation".

Inductive DeadlineResult :=
| DeadlineNoop (dealId : string) (kind : DeadlineKind)
| DeadlineEscalate (dealId : string) (reason : EscalationReason)
    (suggested : EscalationSuggestion).

(** The suggestion after the policy check of [handleDeadline]. *)
Definition finalSuggestion (policy : ChainPolicy) (suggested : EscalationSuggestion)
  : EscalationSuggestion :=
  if negb (EscalationSuggestion_eqb suggested REVIEW) && negb (allowsAutoFinalize policy suggested)
  then REVIEW
  else suggested.

Definition handleDeadline (env : Env) (job : Job DeadlineJob) : M DeadlineResult :=
  payload <- assertDeadlineJob (job_data job) ;;
  let policy := getChainPolicy env in
  snap <- call (GetDealSnapshot (dj_dealId payload)) (api_getDealSnapshot env) ;;
  nowSec <- nowSeconds env ;;
  match decide (dj_kind payload) snap nowSec with
  | DNoop => ret (DeadlineNoop (dj_dealId payload) (dj_kind payload))
  | DEscalate reason suggested0 =>
      let suggested := finalSuggestion policy suggested0 in
      let esc := mkEscalationJob (dj_dealId payload) reason suggested in
      let jobId := jobIdForEscalation esc in
      tryFinally
        (call (QueueAdd (mkAddRequest Q_ESCALATION Q_ESCALATION (JEscalation esc) jobId None))
              (queue_add env))
        (call (QueueClose Q_ESCALATION) (queue_close env)) ;;;
      (if EscalationSuggestion_eqb suggested REVIEW
       then call (NotifyReviewer (mkNotifyReviewerInput (dj_dealId payload) reason nowSec
                                    (CtxKind (dj_kind payload))))
                 (notify_notifyReviewer env)
       else ret tt) ;;;
      ret (DeadlineEscalate (dj_dealId payload) reason suggested)
  end.

(* ------------------------------------------------------------------ *)
(** ** Reminder processor ([src/processors/handleReminder.ts]) *)

Definition ReminderReason_eqb (a b : ReminderReason) : bool :=
  match a, b with
  | deadline_upcoming, deadline_upcoming
  | dispute_window_closing, dispute_window_closing => true
  | _, _ => false
  end.

Definition isReminderStillUseful (reason : ReminderReason) (snap : DealSnapshot)
    (nowSec notifyAt : Z) : bool :=
  if DealState_eqb (snap_state snap) RESOLVED || DealState_eqb (snap_state snap) RELEASED
     || DealState_eqb (snap_state snap) REFUNDED
  then false
  else if ReminderReason_eqb reason deadline_upcoming
          && reached nowSec (snap_deliveryBy snap)
  then false
  else if ReminderReason_eqb reason dispute_window_closing
          && reached nowSec (snap_disputeUntil snap)
  then false
  else true.

Inductive ReminderResult :=
| ReminderNoop (dealId : string) (audience : ReminderAudience) (reason : ReminderReason)
| ReminderNotified (dealId : string) (audience : ReminderAudience) (reason : ReminderReason)
    (id : string).

Definition handleReminder (env : Env) (job : Job ReminderJob) : M ReminderResult :=
  payload <- assertReminderJob (job_data job) ;;
  let expectedId := jobIdForReminder payload in
  snap <- call (GetDealSnapshot (rj_dealId payload)) (api_getDealSnapshot env) ;;
  nowSec <- nowSeconds env ;;
  if negb (isReminderStillUseful (rj_reason payload) snap nowSec (rj_notifyAt payload))
  then ret (ReminderNoop (rj_dealId payload) (rj_for payload) (rj_reason payload))
  else
    call (SendReminder (mkSendReminderInput (rj_dealId payload) nowSec (rj_for payload)
                          (rj_reason payload)
                          (CtxDeadlines (snap_deliveryBy snap) (snap_disputeUntil snap))))
         (notify_sendReminder env) ;;;
    ret (ReminderNotified (rj_dealId payload) (rj_for payload) (rj_reason payload)
           (match job_id job with Some id => id | None => expectedId end)).

(* ------------------------------------------------------------------ *)
(** ** Escalation processor ([src/processors/handleEscalation.ts]) *)

(** The prepare step: an error of the port is caught and becomes [null]. *)
Definition tryPrepareFinalize (env : Env) (dealId : string) (action : EscalationSuggestion)
  : M (option PrepareFinalizeResult) :=
  tryCatch
    (prepared <- call (PrepareFinalize dealId action) (api_prepareFinalize env) ;;
     ret (Some (mkPrepareFinalizeResult (pf_approvalUrl prepared) (pf_blinkUrl prepared))))
    (fun _ => ret None).

Inductive EscalationResult :=
| EscalationPrepared (dealId : string) (reason : EscalationReason)
    (suggested : EscalationSuggestion) (approvalUrl blinkUrl : option string)
| EscalationReview (dealId : string) (reason : EscalationReason)
    (suggested : EscalationSuggestion).

Definition handleEscalation (env : Env) (job : Job EscalationJob) : M EscalationResult :=
  payload <- assertEscalationJob (job_data job) ;;
  let policy := getChainPolicy env in
  nowSec <- nowSeconds env ;;
  (* route = "prepared" is [Some], route = "review" is [None] *)
  route <-
    (if EscalationSuggestion_eqb (ej_suggested payload) RELEASE
        || EscalationSuggestion_eqb (ej_suggested payload) REFUND
     then
       let allowed := allowsAutoFinalize policy (ej_suggested payload) in
       if allowed
       then tryPrepareFinalize env (ej_dealId payload) (ej_suggested payload)
       else ret None
     else ret None) ;;
  match route with
  | Some prepared =>
      call (NotifyReviewer (mkNotifyReviewerInput (ej_dealId payload) (ej_reason payload) nowSec
                              (CtxPrepared (ej_suggested payload) (pf_approvalUrl prepared)
                                           (pf_blinkUrl prepared))))
           (notify_notifyReviewer env) ;;;
      call (NotifyParties (mkNotifyPartiesInput (ej_dealId payload) "finalize-prepared" nowSec
                             (CtxSuggested (ej_suggested payload))))
           (notify_notifyParties env) ;;;
      ret (EscalationPrepared (ej_dealId payload) (ej_reason payload) (ej_suggested payload)
             (pf_approvalUrl prepared) (pf_blinkUrl prepared))
  | None =>
      call (NotifyReviewer (mkNotifyReviewerInput (ej_dealId payload) (ej_reason payload) nowSec
                              (CtxSuggested REVIEW)))
           (notify_notifyReviewer env) ;;;
      ret (EscalationReview (ej_dealId payload) (ej_reason payload) REVIEW)
  end.

(* ------------------------------------------------------------------ *)
(** ** Queue producers ([src/queues]) *)

Definition Q_DEADLINES : string := "deadlines".
Definition Q_REMINDERS : string := "reminders".

(** The lazily built queue handle: building it needs [REDIS_URL]. *)
Definition getQueue (env : Env) (name : string) : M string :=
  match processEnv env "REDIS_URL" with
  | Some url =>
      if Str.truthy url then ret name
      else throw (ConfigError ("REDIS_URL is required to initialize " ++ name ++ " queue"))
  | None => throw (ConfigError ("REDIS_URL is required to initialize " ++ name ++ " queue"))
  end.

Definition getDeadlinesQueue (env : Env) : M string := getQueue env Q_DEADLINES.
Definition getRemindersQueue (env : Env) : M string := getQueue env Q_REMINDERS.
Definition getEscalationQueue (env : Env) : M string := getQueue env Q_ESCALATION.

Definition scheduleDeadline (env : Env) (input : DeadlineJob) : M unit :=
  payload <- parse DeadlineJobSchema "DeadlineJobSchema" input ;;
  let runMs := dj_deadlineAt payload * 1000 in
  now <- dateNow env ;;
  let delay := Z.max 0 (runMs - now) in
  let jobId := jobIdForDeadline payload in
  q <- getDeadlinesQueue env ;;
  call (QueueAdd (mkAddRequest q Q_DEADLINES (JDeadline payload) jobId (Some delay)))
       (queue_add env).

Definition scheduleReminder (env : Env) (input : ReminderJob) : M unit :=
  payload <- parse ReminderJobSchema "ReminderJobSchema" input ;;
  let runMs := rj_notifyAt payload * 1000 in
  now <- dateNow env ;;
  let delay := Z.max 0 (runMs - now) in
  let jobId := jobIdForReminder payload in
  q <- getRemindersQueue env ;;
  call (QueueAdd (mkAddRequest q Q_REMINDERS (JReminder payload) jobId (Some delay)))
       (queue_add env).

Definition enqueueEscalation (env : Env) (input : EscalationJob) : M unit :=
  payload <- parse EscalationJobSchema "EscalationJobSchema" input ;;
  let jobId := jobIdForEscalation payload in
  q <- getEscalationQueue env ;;
  call (QueueAdd (mkAddRequest q Q_ESCALATION (JEscalation payload) jobId None))
       (queue_add env).

(* ------------------------------------------------------------------ *)
(** ** Full-plan scheduling ([src/queues/scheduleEscrowJobs.ts])

    The [console] lines of the function are not part of the log. Of the
    job options only [jobId] and [delay] are kept: both are set after the
    spread of [baseJobOptions], which therefore cannot change them. *)

Record EscrowSchedule := mkEscrowSchedule {
  es_escrowPubkey : string;
  es_deliveryAtMs : Z;
  es_reminderMinutesBefore : list Z;
  es_disputeWindowSeconds : Z
}.

(** The three queue handles a caller passes in, by queue name. *)
Record EscrowQueues := mkEscrowQueues {
  eq_deadlineQueue : string;
  eq_reminderQueue : string;
  eq_escalationQueue : string
}.

(** [`escrow:${escrowPubkey}`] and the identities built on it. *)
Definition escrowBaseId (pubkey : string) : string := "escrow:" ++ pubkey.
Definition escrowDeadlineJobId (pubkey : string) : string :=
  escrowBaseId pubkey ++ ":deadline".
Definition escrowReminderJobId (pubkey : string) (minutesBefore : Z) : string :=
  escrowBaseId pubkey ++ ":reminder:" ++ Str.ofZ minutesBefore ++ "m".
Definition escrowEscalationJobId (pubkey : string) : string :=
  escrowBaseId pubkey ++ ":escalation".

(** The loop over [reminderMinutesBefore]. *)
Fixpoint scheduleEscrowReminders (env : Env) (queues : EscrowQueues) (pubkey : string)
    (deliveryAt now : Z) (offsets : list Z) : M unit :=
  match offsets with
  | [] => ret tt
  | minutesBefore :: rest =>
      let offsetMs := minutesBefore * 60 * 1000 in
      let reminderDelay := deliveryAt - now - offsetMs in
      if reminderDelay <=? 0
      then scheduleEscrowReminders env queues pubkey deliveryAt now rest
      else
        call (QueueAdd (mkAddRequest (eq_reminderQueue queues) "reminder"
                          (JEscrowReminder pubkey deliveryAt minutesBefore)
                          (escrowReminderJobId pubkey minutesBefore) (Some reminderDelay)))
             (queue_add env) ;;;
        scheduleEscrowReminders env queues pubkey deliveryAt now rest
  end.

Definition scheduleEscrowJobs (env : Env) (queues : EscrowQueues) (schedule : EscrowSchedule)
  : M unit :=
  now <- dateNow env ;;
  if es_deliveryAtMs schedule <=? now
  then ret tt
  else
    let deadlineDelay := es_deliveryAtMs schedule - now in
    call (QueueAdd (mkAddRequest (eq_deadlineQueue queues) "deadline"
                      (JEscrowDeadline (es_escrowPubkey schedule) (es_deliveryAtMs schedule))
                      (escrowDeadlineJobId (es_escrowPubkey schedule)) (Some deadlineDelay)))
         (queue_add env) ;;;
    scheduleEscrowReminders env queues (es_escrowPubkey schedule) (es_deliveryAtMs schedule) now
      (es_reminderMinutesBefore schedule) ;;;
    let escalationDelay := deadlineDelay + es_disputeWindowSeconds schedule * 1000 in
    call (QueueAdd (mkAddRequest (eq_escalationQueue queues) "escalation"
                      (JEscrowEscalation (es_escrowPubkey schedule) (es_deliveryAtMs schedule)
                                         (es_disputeWindowSeconds schedule))
                      (escrowEscalationJobId (es_escrowPubkey schedule)) (Some escalationDelay)))
         (queue_add env).

(* ------------------------------------------------------------------ *)
(** ** Webhook intake ([src/infra/helius.webhook.ts]) *)

Inductive WebhookEffect :=
| deal_funded (dealId : string)
| deal_delivered (dealId : string)
| deal_disputed (dealId : string)
| deal_released (dealId : string)
| deal_refunded (dealId : string).

Record WebhookEvent := mkWebhookEvent {
  ev_id : string;
  ev_sig : string;
  ev_slot : Z;
  ev_when : Z;
  ev_effect : WebhookEffect
}.

(** [computeWebhookId]: what is hashed, and its digest. *)
Record WebhookIdParams := mkWebhookIdParams {
  wp_webhookId : option string;
  wp_txSignature : string;
  wp_index : option Z
}.

Definition webhookIdInput (params : WebhookIdParams) : string :=
  let w := match wp_webhookId params with Some w => w | None => "" end in
  let i := match wp_index params with Some i => i | None => 0 end in
  w ++ "|" ++ wp_txSignature params ++ "|" ++ Str.ofZ i.

Definition computeWebhookId (params : WebhookIdParams) : string :=
  Crypto.sha256Hex (webhookIdInput params).

(** A header value: a string, [null] or [undefined], or anything else,
    given by what [String(v)] makes of it. *)
Inductive HeaderValue :=
| HString (s : string)
| HNullish
| HOther (rendered : string).

Definition Headers := list (string * HeaderValue).

(** Case-insensitive lookup; the first entry that matches wins. *)
Fixpoint getHeader (headers : Headers) (name : string) : option string :=
  match headers with
  | [] => None
  | (k, v) :: rest =>
      if (Str.toLowerCase k =? Str.toLowerCase name)%string
      then Some (match v with
                 | HString s => s
                 | HNullish => ""
                 | HOther rendered => rendered
                 end)
      else getHeader rest name
  end.

Record VerifyOptions := mkVerifyOptions {
  opt_headerName : option string;
  opt_secret : option string
}.

Definition charCode (a : ascii) : Z := Z.of_nat (nat_of_ascii a).

(** The comparison loop: [ok |= expected.charCodeAt(i) ^ provided.charCodeAt(i)]
    for every index of [expected]; past the end of [provided] the code
    unit is [NaN], which the bit operation reads as 0. *)
Fixpoint xorFold (expected provided : string) (ok : Z) : Z :=
  match expected with
  | EmptyString => ok
  | String a e =>
      match provided with
      | String b p => xorFold e p (Z.lor ok (Z.lxor (charCode a) (charCode b)))
      | EmptyString => xorFold e EmptyString (Z.lor ok (Z.lxor (charCode a) 0))
      end
  end.

Definition verifyHeliusSignature (env : Env) (headers : Headers) (rawBody : string)
    (opts : option VerifyOptions) : bool :=
  let headerName :=
    match opts with
    | Some (mkVerifyOptions (Some h) _) => h
    | _ => "x-helius-signature"
    end in
  let secret :=
    match opts with
    | Some (mkVerifyOptions _ (Some s)) => Some s
    | _ => processEnv env "HELIUS_WEBHOOK_SECRET"
    end in
  let provided := getHeader headers headerName in
  match secret, provided with
  | Some secret, Some provided =>
      if negb (Str.truthy secret) || negb (Str.truthy provided) then false
      else
        let expected := Crypto.hmacSha256Hex secret rawBody in
        if negb (Nat.eqb (String.length expected) (String.length provided)) then false
        else xorFold expected provided 0 =? 0
  | _, _ => false
  end.

(** *** Normalization

    [JSON.parse] is a library call, and of the helpers of
    [normalizeHeliusWebhook] the sources at hand hold [extractEntries] but
    neither the end of [coerceEntry] nor [mapEffect]; the three are taken
    as given. Numbers of a parsed value are the integer ones. *)

#[local] Set Warnings "-register-all".

Inductive Json :=
| JNull
| JBool (b : bool)
| JNumber (n : Z)
| JString (s : string)
| JArray (items : list Json)
| JObject (fields : list (string * Json)).

Record RawEntry := mkRawEntry {
  re_type : option string;
  re_sig : string;
  re_slot : option Z;
  re_when : option Z;
  re_dealId : option string;
  re_index : option Z
}.

Record Intake := mkIntake {
  JSON_parse : string -> option Json;          (* [None]: a SyntaxError *)
  coerceEntry : Json -> option RawEntry;
  mapEffect : RawEntry -> option WebhookEffect
}.

Definition withIndex (e : RawEntry) (i : Z) : RawEntry :=
  mkRawEntry (re_type e) (re_sig e) (re_slot e) (re_when e) (re_dealId e)
             (Some (match re_index e with Some k => k | None => i end)).

(** The loop [for (let i = 0; i < items.length; i++)] from index [i] on. *)
Fixpoint coerceAll (intake : Intake) (items : list Json) (i : Z) : list RawEntry :=
  match items with
  | [] => []
  | v :: rest =>
      match coerceEntry intake v with
      | Some e => withIndex e i :: coerceAll intake rest (i + 1)
      | None => coerceAll intake rest (i + 1)
      end
  end.

Fixpoint lookupField (fields : list (string * Json)) (key : string) : option Json :=
  match fields with
  | [] => None
  | (k, v) :: rest => if (k =? key)%string then Some v else lookupField rest key
  end.

Definition extractEntries (intake : Intake) (json : Json) : list RawEntry :=
  match json with
  | JArray items => coerceAll intake items 0
  | JObject fields =>
      match lookupField fields "events" with
      | Some (JArray events) => coerceAll intake events 0
      | _ =>
          match coerceEntry intake json with
          | Some single => [withIndex single 0]
          | None => []
          end
      end
  | _ => []
  end.

Definition effectDealId (e : WebhookEffect) : string :=
  match e with
  | deal_funded d | deal_delivered d | deal_disputed d | deal_released d | deal_refunded d => d
  end.

Definition WebhookEventSchema (e : WebhookEvent) : bool :=
  (8 <=? String.length (ev_id e))%nat && (8 <=? String.length (ev_sig e))%nat
  && (0 <=? ev_slot e) && (0 <? ev_when e) && Str.truthy (effectDealId (ev_effect e)).

Definition normalizeHeliusWebhook (env : Env) (intake : Intake) (rawBody : string)
    (headers : Headers) : M (list WebhookEvent) :=
  match JSON_parse intake rawBody with
  | None => throw SyntaxError
  | Some json =>
      let entries := extractEntries intake json in
      let webhookId := getHeader headers "x-webhook-id" in
      now <- nowSeconds env ;;
      ret (flat_map
             (fun e =>
                match mapEffect intake e with
                | None => []
                | Some effect =>
                    let id := computeWebhookId
                                (mkWebhookIdParams webhookId (re_sig e)
                                   (Some (match re_index e with Some k => k | None => 0 end))) in
                    let candidate :=
                      mkWebhookEvent id (re_sig e)
                        (match re_slot e with Some k => k | None => 0 end)
                        (match re_when e with Some k => k | None => now end)
                        effect in
                    if WebhookEventSchema candidate then [candidate] else []
                end)
             entries)
  end.

(* ------------------------------------------------------------------ *)
(** ** Webhook router ([src/http/helius.handler.ts]) *)

Record WebhookRequest := mkWebhookRequest {
  req_headers : Headers;
  req_rawBody : string
}.

Record ResponseBody := mkResponseBody {
  body_ok : bool;
  body_accepted : option Z;
  body_ignored : option Z;
  body_reason : option string
}.

Record WebhookResponse := mkWebhookResponse {
  statusCode : Z;
  body : ResponseBody
}.

Definition REMINDER_BEFORE_DELIVERY_SEC : Z := 24 * 60 * 60.
Definition REMINDER_BEFORE_DISPUTE_SEC : Z := 2 * 60 * 60.

(** The counters [accepted] and [ignored] of the handler. *)
Record Counts := mkCounts {
  accepted : Z;
  ignored : Z
}.

(** The body of the [try] block for one event: the [switch] on the effect. *)
Definition routeEvent (env : Env) (nowSec : Z) (e : WebhookEvent) (c : Counts) : M Counts :=
  match ev_effect e with
  | deal_funded dealId =>
      snap <- call (GetDealSnapshot dealId) (api_getDealSnapshot env) ;;
      match snap_deliveryBy snap with
      | Some deliveryBy =>
          if deliveryBy >? nowSec
          then
            scheduleDeadline env (mkDeadlineJob (snap_id snap) deliveryBy delivery 0) ;;;
            let remindAt := deliveryBy - REMINDER_BEFORE_DELIVERY_SEC in
            if remindAt >? nowSec
            then scheduleReminder env
                   (mkReminderJob (snap_id snap) remindAt both deadline_upcoming)
            else ret tt
          else ret tt
      | None => ret tt
      end ;;;
      ret (mkCounts (accepted c + 1) (ignored c))
  | deal_delivered dealId =>
      snap <- call (GetDealSnapshot dealId) (api_getDealSnapshot env) ;;
      match snap_disputeUntil snap with
      | Some disputeUntil =>
          if disputeUntil >? nowSec
          then
            scheduleDeadline env (mkDeadlineJob (snap_id snap) disputeUntil dispute 0) ;;;
            let remindAt := disputeUntil - REMINDER_BEFORE_DISPUTE_SEC in
            if remindAt >? nowSec
            then scheduleReminder env
                   (mkReminderJob (snap_id snap) remindAt both dispute_window_closing)
            else ret tt
          else ret tt
      | None => ret tt
      end ;;;
      ret (mkCounts (accepted c + 1) (ignored c))
  | deal_disputed _ | deal_released _ | deal_refunded _ =>
      ret (mkCounts (accepted c) (ignored c + 1))
  end.

(** One turn of the loop: [try { ... } catch { ignored++ }]. *)
Definition routeEventIsolated (env : Env) (nowSec : Z) (e : WebhookEvent) (c : Counts)
  : M Counts :=
  tryCatch (routeEvent env nowSec e c)
           (fun _ => ret (mkCounts (accepted c) (ignored c + 1))).

(** [for (const e of events)] *)
Fixpoint routeEvents (env : Env) (nowSec : Z) (events : list WebhookEvent) (c : Counts)
  : M Counts :=
  match events with
  | [] => ret c
  | e :: rest =>
      c' <- routeEventIsolated env nowSec e c ;;
      routeEvents env nowSec rest c'
  end.

Definition handleHeliusWebhookRequest (env : Env) (intake : Intake) (req : WebhookRequest)
  : M WebhookResponse :=
  let ok := verifyHeliusSignature env (req_headers req) (req_rawBody req) None in
  if negb ok
  then ret (mkWebhookResponse 401
              (mkResponseBody false None None (Some "signature verification failed")))
  else
    parsed <- tryCatch
                (events <- normalizeHeliusWebhook env intake (req_rawBody req)
                             (req_headers req) ;;
                 ret (Some events))
                (fun _ => ret None) ;;
    match parsed with
    | None => ret (mkWebhookResponse 400 (mkResponseBody false None None (Some "malformed json")))
    | Some [] => ret (mkWebhookResponse 200 (mkResponseBody true (Some 0) (Some 0) None))
    | Some events =>
        nowSec <- nowSeconds env ;;
        c <- routeEvents env nowSec events (mkCounts 0 0) ;;
        ret (mkWebhookResponse 200
               (mkResponseBody true (Some (accepted c)) (Some (ignored c)) None))
    end.

(* ------------------------------------------------------------------ *)
(** ** Test doubles ([test/processors/handleDeadline.test.ts])

    The mocks of the test suite, as an environment: the API answers with
    the configured [SNAPSHOT] under the requested deal id (and throws when
    none is set), [prepareFinalize] throws, the notifier and the queue
    accept every call, and the clock stands at [nowMs]. *)

Record MockSnapshot := mkMockSnapshot {
  mock_state : DealState;
  mock_deliveryBy : option Z;
  mock_disputeUntil : option Z
}.

Definition mockGetDealSnapshot (SNAPSHOT : option MockSnapshot) (log : Log)
  : Outcome DealSnapshot :=
  match last log (QueueClose "") with
  | GetDealSnapshot dealId =>
      match SNAPSHOT with
      | None => Throw (PortError "SNAPSHOT not set")
      | Some s =>
          Ok (mkDealSnapshot dealId (mock_state s) (mock_deliveryBy s) (mock_disputeUntil s))
      end
  | _ => Throw (PortError "not a snapshot request")
  end.

Definition mockEnv (vars : string -> option string) (nowMs : Z)
    (SNAPSHOT : option MockSnapshot) : Env :=
  mkEnv vars (fun _ => nowMs)
        (mockGetDealSnapshot SNAPSHOT)
        (fun _ => Throw (PortError "not used in handleDeadline tests"))
        (fun _ => Ok tt) (fun _ => Ok tt) (fun _ => Ok tt)
        (fun _ => Ok tt) (fun _ => Ok tt).

(** [process.env] of the test suite, and one that also enables both
    auto-finalize actions and holds a webhook secret. *)
Definition testVars (name : string) : option string :=
  if (name =? "REDIS_URL")%string then Some "redis://localhost:6379" else None.

Definition permissiveVars (name : string) : option string :=
  if (name =? "REDIS_URL")%string then Some "redis://localhost:6379"
  else if (name =? "AUTO_FINALIZE_RELEASE")%string then Some "true"
  else if (name =? "AUTO_FINALIZE_REFUND")%string then Some " Yes "
  else if (name =? "HELIUS_WEBHOOK_SECRET")%string then Some "Jefe"
  else None.

(** *** A stand-in intake

    An intake for the examples: its [JSON.parse] knows the one document
    [fundedBody] and rejects every other text; its two helpers stand for
    the ones that the sources do not hold. *)

Definition dq : string := String (ascii_of_nat 34) "".
Definition quoted (s : string) : string := dq ++ s ++ dq.

Definition fundedBody : string :=
  "[{" ++ quoted "type" ++ ":" ++ quoted "DEAL_FUNDED" ++ ","
       ++ quoted "signature" ++ ":" ++ quoted "5sigsigsig" ++ ","
       ++ quoted "dealId" ++ ":" ++ quoted "D-1" ++ "}]".

Definition fundedJson : Json :=
  JArray [JObject [("type", JString "DEAL_FUNDED"); ("signature", JString "5sigsigsig");
                   ("dealId", JString "D-1")]].

Definition standInParse (raw : string) : option Json :=
  if (raw =? fundedBody)%string then Some fundedJson else None.

Definition stringField (o : list (string * Json)) (key : string) : option string :=
  match lookupField o key with Some (JString s) => Some s | _ => None end.

Definition numberField (o : list (string * Json)) (key : string) : option Z :=
  match lookupField o key with Some (JNumber n) => Some n | _ => None end.

(** Modelled from the spec: [coerceEntry], whose last lines are not in the
    sources, probes the keys [signature|sig|txSignature],
    [timestamp|blockTime] and [slot], and drops an entry that lacks a
    transaction signature (section 4.5); the keys [dealId] and [index] are
    this stand-in's own. *)
Definition standInCoerceEntry (v : Json) : option RawEntry :=
  match v with
  | JObject o =>
      let sig :=
        match stringField o "signature" with
        | Some s => Some s
        | None =>
            match stringField o "sig" with
            | Some s => Some s
            | None => stringField o "txSignature"
            end
        end in
      match sig with
      | Some s =>
          if Str.truthy s
          then Some (mkRawEntry (stringField o "type") s (numberField o "slot")
                       (match numberField o "timestamp" with
                        | Some t => Some t
                        | None => numberField o "blockTime"
                        end)
                       (stringField o "dealId") (numberField o "index"))
          else None
      | None => None
      end
  | _ => None
  end.

(** Modelled from the spec: [mapEffect], which is not in the sources, maps
    the provider's type codes to the five effects and drops unknown types
    (section 4.5); the type codes are this stand-in's own. *)
Definition standInMapEffect (e : RawEntry) : option WebhookEffect :=
  match re_type e, re_dealId e with
  | Some t, Some d =>
      if (t =? "DEAL_FUNDED")%string then Some (deal_funded d)
      else if (t =? "DEAL_DELIVERED")%string then Some (deal_delivered d)
      else if (t =? "DEAL_DISPUTED")%string then Some (deal_disputed d)
      else if (t =? "DEAL_RELEASED")%string then Some (deal_released d)
      else if (t =? "DEAL_REFUNDED")%string then Some (deal_refunded d)
      else None
  | _, _ => None
  end.

Definition standInIntake : Intake :=
  mkIntake standInParse standInCoerceEntry standInMapEffect.

(* ------------------------------------------------------------------ *)
(** ** Reading the log *)

(** A computation's final log, and the requests of each kind in a log. *)
Definition logAfter {A} (m : M A) (log : Log) : Log := snd (m log).

Fixpoint addRequests (log : Log) : list AddRequest :=
  match log with
  | [] => []
  | QueueAdd r :: rest => r :: addRequests rest
  | _ :: rest => addRequests rest
  end.

Fixpoint reviewerNotices (log : Log) : list NotifyReviewerInput :=
  match log with
  | [] => []
  | NotifyReviewer i :: rest => i :: reviewerNotices rest
  | _ :: rest => reviewerNotices rest
  end.

Fixpoint remindersSent (log : Log) : list SendReminderInput :=
  match log with
  | [] => []
  | SendReminder i :: rest => i :: remindersSent rest
  | _ :: rest => remindersSent rest
  end.

(** [REDIS_URL] is set, so the queue handles can be built. *)
Definition queueAvailable (env : Env) : Prop :=
  exists url, processEnv env "REDIS_URL" = Some url /\ url <> "".

(** A request of the full-plan producer for a deadline or a reminder
    carries a strictly positive delay. *)
Definition positiveTimerDelay (r : AddRequest) : Prop :=
  match add_data r with
  | JEscrowDeadline _ _ | JEscrowReminder _ _ _ => exists d, add_delay r = Some d /\ 0 < d
  | _ => True
  end.

(** The identity of a request is one of those the full-plan producer
    derives from the schedule. *)
Definition planIdentity (schedule : EscrowSchedule) (r : AddRequest) : Prop :=
  add_jobId r = escrowDeadlineJobId (es_escrowPubkey schedule)
  \/ add_jobId r = escrowEscalationJobId (es_escrowPubkey schedule)
  \/ exists m, In m (es_reminderMinutesBefore schedule)
               /\ add_jobId r = escrowReminderJobId (es_escrowPubkey schedule) m.

(** The queues of the car-escrow server ([src/carEscrowServer.ts]). *)
Definition carEscrowQueues : EscrowQueues :=
  mkEscrowQueues "escrow:deadline" "escrow:reminder" "escrow:escalation".

(** The ports that the service only sends to never fail. *)
Definition reliable (env : Env) : Prop :=
  (forall log, queue_add env log = Ok tt) /\
  (forall log, queue_close env log = Ok tt) /\
  (forall log, notify_notifyReviewer env log = Ok tt) /\
  (forall log, notify_notifyParties env log = Ok tt) /\
  (forall log, notify_sendReminder env log = Ok tt).

(* ------------------------------------------------------------------ *)
(** ** Vocabulary of the specification *)

(** The deadline of a snapshot has elapsed: the field is present and
    [now >= t]. *)
Definition elapsed (now : Z) (t : option Z) : Prop :=
  exists d, t = Some d /\ now >= d.

(** RESOLVED, RELEASED and REFUNDED are terminal. *)
Definition terminal (st : DealState) : Prop :=
  st = RESOLVED \/ st = RELEASED \/ st = REFUNDED.

(** The three reasons of the specification to suppress a reminder. *)
Definition suppressed (reason : ReminderReason) (snap : DealSnapshot) (now : Z) : Prop :=
  terminal (snap_state snap)
  \/ (reason = deadline_upcoming /\ elapsed now (snap_deliveryBy snap))
  \/ (reason = dispute_window_closing /\ elapsed now (snap_disputeUntil snap)).

(* ------------------------------------------------------------------ *)
(** ** Reading the log: preparations and party notices *)

Fixpoint prepareRequests (log : Log) : list (string * EscalationSuggestion) :=
  match log with
  | [] => []
  | PrepareFinalize dealId action :: rest => (dealId, action) :: prepareRequests rest
  | _ :: rest => prepareRequests rest
  end.

Fixpoint partiesNotices (log : Log) : list NotifyPartiesInput :=
  match log with
  | [] => []
  | NotifyParties i :: rest => i :: partiesNotices rest
  | _ :: rest => partiesNotices rest
  end.


(** An environment like [mockEnv] whose queue refuses every [add]. *)
Definition brokenQueueEnv (vars : string -> option string) (nowMs : Z)
    (SNAPSHOT : option MockSnapshot) : Env :=
  mkEnv vars (fun _ => nowMs)
        (mockGetDealSnapshot SNAPSHOT)
        (fun _ => Throw (PortError "not used in handleDeadline tests"))
        (fun _ => Ok tt) (fun _ => Ok tt) (fun _ => Ok tt)
        (fun _ => Throw (PortError "redis unavailable")) (fun _ => Ok tt).

(** An environment like [mockEnv] whose [prepareFinalize] answers with
    the two links. *)
Definition preparingEnv (vars : string -> option string) (nowMs : Z)
    (SNAPSHOT : option MockSnapshot) : Env :=
  mkEnv vars (fun _ => nowMs)
        (mockGetDealSnapshot SNAPSHOT)
        (fun _ => Ok (mkPrepareFinalizeResult (Some "https://approve.example/D-7")
                                              (Some "https://blink.example/D-7")))
        (fun _ => Ok tt) (fun _ => Ok tt) (fun _ => Ok tt)
        (fun _ => Ok tt) (fun _ => Ok tt).

(* ------------------------------------------------------------------ *)
(** ** Reading the log: the router's timers *)

(** The two requests the router can build from a deadline [t] of the
    snapshot [id]: the deadline job itself, and the reminder that runs
    [lead] seconds before it. *)
Definition routerDeadline (id : string) (t : Z) (kind : DeadlineKind) (delay : Z)
  : AddRequest :=
  let j := mkDeadlineJob id t kind 0 in
  mkAddRequest "deadlines" "deadlines" (JDeadline j) (jobIdForDeadline j) (Some delay).

Definition routerReminder (id : string) (t lead : Z) (reason : ReminderReason) (delay : Z)
  : AddRequest :=
  let j := mkReminderJob id (t - lead) both reason in
  mkAddRequest "reminders" "reminders" (JReminder j) (jobIdForReminder j) (Some delay).

(** What one routed event may leave in the queues: nothing, a deadline
    job, or a deadline job followed by its reminder. Every target time
    lies after [nowSec] and no delay is negative. *)
Definition routedTimers (nowSec : Z) (kind : DeadlineKind) (lead : Z)
    (reason : ReminderReason) (requests : list AddRequest) : Prop :=
  requests = []
  \/ exists id t delay,
       nowSec < t /\ 0 <= delay
       /\ (requests = [routerDeadline id t kind delay]
           \/ exists delay',
                nowSec < t - lead /\ 0 <= delay'
                /\ requests = [routerDeadline id t kind delay;
                               routerReminder id t lead reason delay']).

(** A header with its name in lower case, as Node's HTTP server stores it. *)
Definition lowerKey (kv : string * HeaderValue) : string * HeaderValue :=
  (Str.toLowerCase (fst kv), snd kv).

(* ------------------------------------------------------------------ *)
(** ** Reminder planner ([src/services/reminderPlanner.ts],
       [src/types/reminders.ts])

    Hours and milliseconds are the integer ones. *)

Module Planner.

Inductive ReminderKind := pre_deadline | deadline | overdue | escalation.

Inductive ReminderChannel := email | sms | push | webhook.

Definition ReminderChannel_eqb (a b : ReminderChannel) : bool :=
  match a, b with
  | email, email | sms, sms | push, push | webhook, webhook => true
  | _, _ => false
  end.

Record EscrowReminderConfig := mkEscrowReminderConfig {
  rc_dealId : string;
  rc_buyerId : string;
  rc_sellerId : string;
  rc_deadlineAtMs : Z;
  rc_preDeadlineHours : option Z;
  rc_overdueAfterHours : option Z;
  rc_escalateAfterHours : option Z;
  rc_channels : option (list ReminderChannel)
}.

Record ReminderJob := mkReminderJob {
  pj_kind : ReminderKind;
  pj_dealId : string;
  pj_targetUserId : string;
  pj_channels : list ReminderChannel;
  pj_runAtMs : Z
}.

Definition DEFAULT_PRE_DEADLINE_HOURS : Z := 24.
Definition DEFAULT_OVERDUE_AFTER_HOURS : Z := 24.
Definition DEFAULT_ESCALATE_AFTER_HOURS : Z := 72.

Definition hoursToMs (h : Z) : Z := h * 60 * 60 * 1000.

(** [new Set(channels)]: the elements are added one by one, and adding an
    element that the set holds changes nothing. [Array.from] lists the set
    in insertion order. *)
Fixpoint setFrom (set : list ReminderChannel) (channels : list ReminderChannel)
  : list ReminderChannel :=
  match channels with
  | [] => set
  | c :: rest =>
      if existsb (ReminderChannel_eqb c) set
      then setFrom set rest
      else setFrom (set ++ [c])%list rest
  end.

Definition dedupeChannels (channels : option (list ReminderChannel))
  : list ReminderChannel :=
  match channels with
  | None | Some [] => [email]
  | Some cs => setFrom [] cs
  end.

(** [x ?? d] *)
Definition orDefault (x : option Z) (d : Z) : Z :=
  match x with Some v => v | None => d end.

Definition planReminderJobs (config : EscrowReminderConfig) : list ReminderJob :=
  let channels := dedupeChannels (rc_channels config) in
  let preDeadlineAtMs :=
    rc_deadlineAtMs config
    - hoursToMs (orDefault (rc_preDeadlineHours config) DEFAULT_PRE_DEADLINE_HOURS) in
  let overdueAtMs :=
    rc_deadlineAtMs config
    + hoursToMs (orDefault (rc_overdueAfterHours config) DEFAULT_OVERDUE_AFTER_HOURS) in
  let escalationAtMs :=
    overdueAtMs
    + hoursToMs (orDefault (rc_escalateAfterHours config) DEFAULT_ESCALATE_AFTER_HOURS) in
  let base kind targetUserId runAtMs :=
    mkReminderJob kind (rc_dealId config) targetUserId channels runAtMs in
  [ base pre_deadline (rc_buyerId config) preDeadlineAtMs;
    base deadline (rc_buyerId config) (rc_deadlineAtMs config);
    base deadline (rc_sellerId config) (rc_deadlineAtMs config);
    base overdue (rc_buyerId config) overdueAtMs;
    base overdue (rc_sellerId config) overdueAtMs;
    base escalation (rc_sellerId config) escalationAtMs ].

Definition getDueReminderJobs (jobs : list ReminderJob) (nowMs : Z) : list ReminderJob :=
  filter (fun job => pj_runAtMs job <=? nowMs) jobs.

End Planner.

(* ------------------------------------------------------------------ *)
(** ** Car-escrow planning ([src/carEscrowServer.ts])

    Prices, miles, years and times are the integer ones. The two reads of
    the system clock, [new Date().getFullYear()] and [Date.now()], are
    arguments. *)

Module CarEscrow.

(** *** [Date.prototype.toISOString] (ECMA-262, 21.4.4.36)

    The proleptic Gregorian calendar in UTC; years outside 0..9999 are
    written with a sign and six digits; a time value outside the range of
    [Date] throws a [RangeError], which is [None] here. *)

Fixpoint zeros (n : nat) : string :=
  match n with
  | O => ""
  | S k => String "0" (zeros k)
  end.

(** [String(n).padStart(width, "0")], for [0 <= n]. *)
Definition pad (width : nat) (n : Z) : string :=
  let s := Str.ofZ n in
  zeros (width - String.length s) ++ s.

(** Year, month and day of the day number [z] (days since 1970-01-01). *)
Definition civilFromDays (z : Z) : Z * Z * Z :=
  let shifted := z + 719468 in
  let era := shifted / 146097 in
  let dayOfEra := shifted - era * 146097 in
  let yearOfEra :=
    (dayOfEra - dayOfEra / 1460 + dayOfEra / 36524 - dayOfEra / 146096) / 365 in
  let dayOfYear := dayOfEra - (365 * yearOfEra + yearOfEra / 4 - yearOfEra / 100) in
  let monthFromMarch := (5 * dayOfYear + 2) / 153 in
  let day := dayOfYear - (153 * monthFromMarch + 2) / 5 + 1 in
  let month := if monthFromMarch <? 10 then monthFromMarch + 3 else monthFromMarch - 9 in
  let year := yearOfEra + era * 400 + (if month <=? 2 then 1 else 0) in
  (year, month, day).

Definition toISOString (ms : Z) : option string :=
  if (ms <? -8640000000000000) || (8640000000000000 <? ms) then None
  else
    let '(year, month, day) := civilFromDays (ms / 86400000) in
    let t := ms mod 86400000 in
    let yyyy :=
      if (0 <=? year) && (year <=? 9999) then pad 4 year
      else (if year <? 0 then "-" else "+") ++ pad 6 (Z.abs year) in
    Some (yyyy ++ "-" ++ pad 2 month ++ "-" ++ pad 2 day
          ++ "T" ++ pad 2 (t / 3600000) ++ ":" ++ pad 2 (t / 60000 mod 60)
          ++ ":" ++ pad 2 (t / 1000 mod 60) ++ "." ++ pad 3 (t mod 1000) ++ "Z").

(** *** The risk score and the timing plan *)

Inductive DeliveryType := local_pickup | same_city_carrier | cross_country_carrier.

Record CarSaleInput := mkCarSaleInput {
  priceUsd : Z;
  deliveryType : DeliveryType;
  hasTitleInHand : bool;
  odometerMiles : Z;
  year : Z;
  isSalvageTitle : option bool
}.

Inductive RiskLevel := low | medium | high.

Record CarRisk := mkCarRisk {
  score : Z;
  level : RiskLevel;
  reasons : list string
}.

Definition computeCarRisk (nowYear : Z) (input : CarSaleInput) : CarRisk :=
  let reasons : list string := [] in
  let score := 1 in
  let ageYears := Z.max 0 (nowYear - year input) in
  let '(score, reasons) :=
    if priceUsd input >=? 20000
    then (score + 3, reasons ++ ["High-value vehicle (>= $20k)"])%list
    else if priceUsd input >=? 10000
    then (score + 2, reasons ++ ["Mid-value vehicle (>= $10k)"])%list
    else (score, reasons) in
  let '(score, reasons) :=
    match deliveryType input with
    | cross_country_carrier =>
        (score + 3, reasons ++ ["Cross-country / remote delivery"])%list
    | same_city_carrier =>
        (score + 2, reasons ++ ["Same-city carrier (no in-person hand-off)"])%list
    | local_pickup => (score, reasons ++ ["Local pickup (in-person)"])%list
    end in
  let '(score, reasons) :=
    if negb (hasTitleInHand input)
    then (score + 2, reasons ++ ["Seller does not have clear title in hand"])%list
    else (score, reasons) in
  let '(score, reasons) :=
    match isSalvageTitle input with
    | Some true => (score + 2, reasons ++ ["Salvage / rebuilt title"])%list
    | _ => (score, reasons)
    end in
  let '(score, reasons) :=
    if ageYears >=? 15
    then (score + 1, reasons ++ ["Older vehicle (>= 15 years)"])%list
    else (score, reasons) in
  let '(score, reasons) :=
    if odometerMiles input >=? 150000
    then (score + 1, reasons ++ ["High mileage (>= 150k miles)"])%list
    else (score, reasons) in
  let score := Z.max 1 (Z.min score 10) in
  let level :=
    if score <=? 3 then low
    else if score <=? 6 then medium
    else high in
  mkCarRisk score level reasons.

Record CarEscrowPlan := mkCarEscrowPlan {
  riskScore : Z;
  riskLevel : RiskLevel;
  plan_reasons : list string;
  deliveryDeadlineHoursFromNow : Z;
  disputeWindowHours : Z;
  reminderMinutesBefore : list Z;
  deliveryDeadlineAtIso : string;
  disputeWindowEndsAtIso : string
}.

Definition computeCarEscrowPlan (nowYear now : Z) (input : CarSaleInput)
  : option CarEscrowPlan :=
  let risk := computeCarRisk nowYear input in
  let deliveryDeadlineHours :=
    match deliveryType input with
    | same_city_carrier => 72
    | cross_country_carrier => 7 * 24
    | local_pickup => 24
    end in
  let disputeWindowHours :=
    if score risk >=? 7 then 7 * 24
    else if score risk >=? 4 then 3 * 24
    else 48 in
  let reminderMinutesBefore : list Z := [] in
  let reminderMinutesBefore :=
    if deliveryDeadlineHours >=? 48
    then (reminderMinutesBefore ++ [24 * 60])%list
    else reminderMinutesBefore in
  let reminderMinutesBefore :=
    if deliveryDeadlineHours >=? 24
    then (reminderMinutesBefore ++ [6 * 60])%list
    else reminderMinutesBefore in
  let reminderMinutesBefore := (reminderMinutesBefore ++ [60])%list in
  let deliveryDeadlineMs := now + deliveryDeadlineHours * 60 * 60 * 1000 in
  let disputeEndMs := deliveryDeadlineMs + disputeWindowHours * 60 * 60 * 1000 in
  match toISOString deliveryDeadlineMs, toISOString disputeEndMs with
  | Some deliveryDeadlineAtIso, Some disputeWindowEndsAtIso =>
      Some (mkCarEscrowPlan (score risk) (level risk) (reasons risk)
              deliveryDeadlineHours disputeWindowHours reminderMinutesBefore
              deliveryDeadlineAtIso disputeWindowEndsAtIso)
  | _, _ => None
  end.

(** The schedule that the route [/car-escrow/manual-schedule] builds from
    a plan and its own reading [now] of the clock, and hands to
    [scheduleEscrowJobs]. *)
Definition manualSchedule (escrowPubkey : string) (plan : CarEscrowPlan) (now : Z)
  : EscrowSchedule :=
  let deliveryAtMs := now + deliveryDeadlineHoursFromNow plan * 60 * 60 * 1000 in
  let disputeWindowSeconds := disputeWindowHours plan * 60 * 60 in
  mkEscrowSchedule escrowPubkey deliveryAtMs (reminderMinutesBefore plan) disputeWindowSeconds.

End CarEscrow.

(* ------------------------------------------------------------------ *)
(** ** Account-update webhooks ([src/infra/heliusWebhookHandler.ts])

    The handler of the car-escrow server. Of [cancelEscrowJobs] the
    sources hold the first lines only, so the handler takes it as given;
    the chain port answers as an oracle that is asked with the current
    log, and its reads leave no entry there. The [console] lines are not
    part of the log. *)

Module AccountUpdates.

(** [string | string[] | undefined] *)
Inductive HeliusHeaderValue :=
| HVString (s : string)
| HVArray (values : list string)
| HVUndefined.

Definition HeliusHeaders := list (string * HeliusHeaderValue).

Record HeliusAccountUpdate := mkHeliusAccountUpdate {
  account : string;
  slot : Z;
  timestamp : option Z
}.


Inductive EscrowStatus :=
| PENDING | FUNDED | SHIPPED | DISPUTED | RELEASED | CANCELLED | REFUNDED.

Record EscrowState := mkEscrowState {
  status : EscrowStatus;
  deliveryAtMs : Z;
  disputeWindowSeconds : Z
}.

Record HeliusHandlerDeps := mkHeliusHandlerDeps {
  queues : EscrowQueues;
  (* [chainPort.getEscrowState?.(escrowPubkey)]; a missing method answers [undefined] *)
  chainPort_getEscrowState : Log -> string -> Outcome (option EscrowState);
  reminderMinutesBefore : option (list Z)
}.


Definition getHeader (headers : HeliusHeaders) (name : string) : option string :=
  match find (fun kv => (Str.toLowerCase (fst kv) =? Str.toLowerCase name)%string) headers with
  | None => None
  | Some (key, val) =>
      if negb (Str.truthy key) then None
      else
        match val with
        | HVArray values => hd_error values
        | HVString s => Some s
        | HVUndefined => None
        end
  end.

Definition fetchEscrowState (deps : HeliusHandlerDeps) (escrowPubkey : string)
  : M (option EscrowState) :=
  fun log => (chainPort_getEscrowState deps log escrowPubkey, log).

Definition isTerminalStatus (s : EscrowStatus) : bool :=
  match s with
  | RELEASED | CANCELLED | REFUNDED => true
  | _ => false
  end.

(** The counters [processed], [skipped] and [errors] of the handler. *)
Record Tally := mkTally {
  t_processed : Z;
  t_skipped : Z;
  t_errors : Z
}.

Section Handler.

Variable cancelEscrowJobs : EscrowQueues -> string -> M unit.

(** One turn of the loop over [body.data]. *)
Definition processUpdate (env : Env) (deps : HeliusHandlerDeps) (reminders : list Z)
    (update : HeliusAccountUpdate) (t : Tally) : M Tally :=
  let escrowPubkey := account update in
  tryCatch
    (escrow <- fetchEscrowState deps escrowPubkey ;;
     match escrow with
     | None => ret (mkTally (t_processed t) (t_skipped t + 1) (t_errors t))
     | Some escrow =>
         (if isTerminalStatus (status escrow)
          then cancelEscrowJobs (queues deps) escrowPubkey
          else scheduleEscrowJobs env (queues deps)
                 (mkEscrowSchedule escrowPubkey (deliveryAtMs escrow) reminders
                    (disputeWindowSeconds escrow))) ;;;
         ret (mkTally (t_processed t + 1) (t_skipped t) (t_errors t))
     end)
    (fun _ => ret (mkTally (t_processed t) (t_skipped t) (t_errors t + 1))).



End Handler.

(** A stand-in for the examples: the cancellation that the sources do not
    hold is given no effect on the log, which has no entry for a
    removal. *)
Definition standInCancel (_ : EscrowQueues) (_ : string) : M unit := ret tt.

(** A chain port for the examples: it knows three escrows. *)
Definition standInChain (_ : Log) (escrowPubkey : string) : Outcome (option EscrowState) :=
  if (escrowPubkey =? "ESCROW-ACTIVE")%string
  then Ok (Some (mkEscrowState FUNDED 1700007200000 172800))
  else if (escrowPubkey =? "ESCROW-DONE")%string
  then Ok (Some (mkEscrowState RELEASED 1700007200000 172800))
  else if (escrowPubkey =? "ESCROW-DOWN")%string
  then Throw (PortError "rpc unavailable")
  else Ok None.

Definition standInDeps : HeliusHandlerDeps :=
  mkHeliusHandlerDeps carEscrowQueues standInChain None.


End AccountUpdates.

(* ------------------------------------------------------------------ *)
(** ** The notifier and its log ([src/ports/NotifyPort.ts],
       [src/infra/notify.dialect.ts])

    Objects are lists of fields in insertion order, with distinct keys;
    keys and configuration values are ASCII. What [console.log] prints is
    what [log] returns. *)

Module Notifier.

(** [s.includes(sub)] *)
Fixpoint includes (s sub : string) : bool :=
  if String.prefix sub s then true
  else
    match s with
    | EmptyString => false
    | String _ rest => includes rest sub
    end.

(** [obj[key] = v]: an existing key keeps its place. *)
Fixpoint setField (fields : list (string * Json)) (key : string) (v : Json)
  : list (string * Json) :=
  match fields with
  | [] => [(key, v)]
  | (k, x) :: rest =>
      if (k =? key)%string then (k, v) :: rest else (k, x) :: setField rest key v
  end.

(** [{ ...target, ...source }] *)
Definition spread (target source : list (string * Json)) : list (string * Json) :=
  fold_left (fun acc kv => setField acc (fst kv) (snd kv)) source target.

(** [{ ...array }]: the elements under their indices. *)
Definition spreadArray (items : list Json) : list (string * Json) :=
  combine (map (fun i => Str.ofZ (Z.of_nat i)) (seq 0 (List.length items))) items.

(** The tests of the loop of [redact] on one key: is its value replaced? *)
Definition redactsKey (k : string) : bool :=
  if includes (Str.toLowerCase k) "url" then false
  else if includes (Str.toLowerCase k) "cid" then false
  else includes (Str.toLowerCase k) "token" || includes (Str.toLowerCase k) "key".

(** The loop [for (const k of Object.keys(ctx))]. *)
Definition redactContext (ctx : list (string * Json)) : list (string * Json) :=
  map (fun kv => if redactsKey (fst kv) then (fst kv, JString "<redacted>") else kv) ctx.

Definition redact (obj : list (string * Json)) : list (string * Json) :=
  match lookupField obj "context" with
  | Some (JObject ctx) => setField obj "context" (JObject (redactContext ctx))
  | Some (JArray items) =>
      setField obj "context" (JObject (redactContext (spreadArray items)))
  | _ => obj
  end.

(** The keys of the contexts that the processors build. *)
Definition contextKeys (c : NotifyContext) : list string :=
  match c with
  | CtxKind _ => ["kind"]
  | CtxSuggested _ => ["suggested"]
  | CtxPrepared _ _ _ => ["suggested"; "approvalUrl"; "blinkUrl"]
  | CtxDeadlines _ _ => ["deliveryBy"; "disputeUntil"]
  end.

Inductive Level := debug | info | warn | error.

Definition Level_str (l : Level) : string :=
  match l with
  | debug => "debug"
  | info => "info"
  | warn => "warn"
  | error => "error"
  end.

(** [order[name]] for any string: [undefined] off the four levels. *)
Definition order (name : string) : option Z :=
  if (name =? "debug")%string then Some 10
  else if (name =? "info")%string then Some 20
  else if (name =? "warn")%string then Some 30
  else if (name =? "error")%string then Some 40
  else None.

(** [(process.env.LOG_LEVEL as Level) || "info"] *)
Definition LOG_LEVEL (env : Env) : string :=
  match processEnv env "LOG_LEVEL" with
  | Some s => if Str.truthy s then s else "info"
  | None => "info"
  end.

(** [order[level] < order[LOG_LEVEL]]; a comparison with [undefined] is
    false. *)
Definition belowThreshold (env : Env) (level : Level) : bool :=
  match order (Level_str level), order (LOG_LEVEL env) with
  | Some a, Some b => a <? b
  | _, _ => false
  end.

(** [log(level, msg, meta)] with [ts] for [new Date().toISOString()]. *)
Definition log (env : Env) (ts : string) (level : Level) (msg : string)
    (meta : list (string * Json)) : option (list (string * Json)) :=
  if belowThreshold env level then None
  else Some (spread [("level", JString (Level_str level)); ("msg", JString msg);
                     ("ts", JString ts)] meta).

(** The three methods of the noop notifier, by the message they log. *)
Definition noopNotify (env : Env) (ts : string) (method : string)
    (input : list (string * Json)) : option (list (string * Json)) :=
  log env ts info (method ++ "(noop)") (redact input).

(** *** Choice of the driver *)

Inductive Notify :=
| NoopNotifier
| DialectNotifier (base key : string).

Definition isLineTerminator (a : ascii) : bool :=
  match nat_of_ascii a with
  | 10%nat | 13%nat => true
  | _ => false
  end.

(** [.+\/$] on the text after the scheme: at least one character that is
    no line terminator, then more of them, and a slash at the very end. *)
Fixpoint restMatches (rest : string) : bool :=
  match rest with
  | EmptyString => false
  | String a EmptyString => false
  | String a (String b EmptyString) =>
      negb (isLineTerminator a) && Ascii.eqb b "/"
  | String a tail => negb (isLineTerminator a) && restMatches tail
  end.

(** [/^https?:\/\/.+\/$/.test(raw)] *)
Definition baseUrlMatches (raw : string) : bool :=
  (String.prefix "https://" raw && restMatches (String.substring 8 (String.length raw - 8) raw))
  || (String.prefix "http://" raw && restMatches (String.substring 7 (String.length raw - 7) raw)).

Definition mustGetBaseUrl (env : Env) : Outcome string :=
  match processEnv env "NOTIFY_DIALECT_BASEURL" with
  | Some raw =>
      if negb (Str.truthy raw) || negb (baseUrlMatches raw)
      then Throw (ConfigError "NOTIFY_DIALECT_BASEURL is required and must end with a trailing slash, e.g., https://api.dialect.example.com/")
      else Ok raw
  | None =>
      Throw (ConfigError "NOTIFY_DIALECT_BASEURL is required and must end with a trailing slash, e.g., https://api.dialect.example.com/")
  end.

Definition mustGetKey (env : Env) : Outcome string :=
  match processEnv env "NOTIFY_DIALECT_KEY" with
  | Some key =>
      if negb (Str.truthy key) || (trim key =? "")%string
      then Throw (ConfigError "NOTIFY_DIALECT_KEY is required for dialect notifier")
      else Ok key
  | None => Throw (ConfigError "NOTIFY_DIALECT_KEY is required for dialect notifier")
  end.

Definition createDialectNotifier (env : Env) : Outcome Notify :=
  match mustGetBaseUrl env with
  | Throw e => Throw e
  | Ok base =>
      match mustGetKey env with
      | Throw e => Throw e
      | Ok key => Ok (DialectNotifier base key)
      end
  end.

(** The module [notify.dialect] is part of the build, so [require] finds
    it; what the [try] block can catch is an error of the factory. *)
Definition getNotifyPort (env : Env) : Notify :=
  let driver :=
    match processEnv env "NOTIFY_DRIVER" with
    | Some d => if Str.truthy d then d else "noop"
    | None => "noop"
    end in
  if (driver =? "dialect")%string
  then
    match createDialectNotifier env with
    | Ok port => port
    | Throw _ => NoopNotifier
    end
  else NoopNotifier.

(** The three endpoints of the dialect notifier. *)
Definition dialectUrl (base method : string) : string := base ++ "notify/" ++ method.

End Notifier.

(* ------------------------------------------------------------------ *)
(** ** Idempotency keys of the dialect notifier
       ([src/infra/notify.dialect.ts])

    [JSON.stringify] is a library call and is taken as given. *)

Module Idempotency.

(** [keys.sort()]: ascending by code units. The keys of an object are
    distinct, so the outcome does not depend on the sorting algorithm;
    this one inserts each key into the sorted rest. *)
Fixpoint insertSorted (k : string) (sorted : list string) : list string :=
  match sorted with
  | [] => [k]
  | x :: rest => if String.leb k x then k :: sorted else x :: insertSorted k rest
  end.

Definition sort (keys : list string) : list string := fold_right insertSorted [] keys.


(** [sortKeys]: arrays keep their order and have their elements
    normalized; an object is rebuilt key by key in sorted order, each value
    normalized ([acc[k] = sortKeys(obj[k])]); every other value is
    returned as it is. *)
Fixpoint sortKeys (v : Json) : Json :=
  match v with
  | JArray items => JArray (map sortKeys items)
  | JObject obj =>
      let normalized :=
        (fix each (fields : list (string * Json)) : list (string * Json) :=
           match fields with
           | [] => []
           | (k, x) :: rest => (k, sortKeys x) :: each rest
           end) obj in
      JObject (fold_left
                 (fun acc k =>
                    match lookupField normalized k with
                    | Some x => Notifier.setField acc k x
                    | None => acc
                    end)
                 (sort (map fst obj)) [])
  | _ => v
  end.

Section Stringify.

Variable JSON_stringify : Json -> string.

Definition stableStringify (v : Json) : string := JSON_stringify (sortKeys v).


End Stringify.


(** A stand-in for [JSON.stringify] in the examples: strings are rendered
    without escapes. *)
Fixpoint standInStringify (v : Json) : string :=
  match v with
  | JNull => "null"
  | JBool true => "true"
  | JBool false => "false"
  | JNumber n => Str.ofZ n
  | JString s => quoted s
  | JArray items =>
      "[" ++ String.concat ","
               ((fix each (l : list Json) : list string :=
                   match l with
                   | [] => []
                   | x :: rest => standInStringify x :: each rest
                   end) items) ++ "]"
  | JObject obj =>
      "{" ++ String.concat ","
               ((fix each (fields : list (string * Json)) : list string :=
                   match fields with
                   | [] => []
                   | (k, x) :: rest => (quoted k ++ ":" ++ standInStringify x) :: each rest
                   end) obj) ++ "}"
  end.

End Idempotency.

(* ------------------------------------------------------------------ *)
(** ** The plan route of the car-escrow server ([src/carEscrowServer.ts])

    [POST /car-escrow/plan]: the body is the parsed JSON of the request. *)

Module CarRoutes.

(** JavaScript truthiness of a parsed JSON value. *)
Definition truthyJson (v : Json) : bool :=
  match v with
  | JNull => false
  | JBool b => b
  | JNumber n => negb (n =? 0)
  | JString s => Str.truthy s
  | JArray _ | JObject _ => true
  end.

Definition deliveryTypeOf (s : string) : option CarEscrow.DeliveryType :=
  if (s =? "local_pickup")%string then Some CarEscrow.local_pickup
  else if (s =? "same_city_carrier")%string then Some CarEscrow.same_city_carrier
  else if (s =? "cross_country_carrier")%string then Some CarEscrow.cross_country_carrier
  else None.

(** [body.key] on a parsed body: [undefined] off objects. *)
Definition field (body : Json) (key : string) : option Json :=
  match body with
  | JObject fields => lookupField fields key
  | _ => None
  end.

Inductive PlanResponse :=
| BadRequest (error : string)                    (* status 400, [{ ok: false, error }] *)
| PlanComputed (plan : CarEscrow.CarEscrowPlan)  (* status 200, [{ ok: true, plan }] *)
| Uncaught.                                      (* the [RangeError] of a date out of range *)

Definition INVALID_PAYLOAD : string :=
  "Invalid payload. Required: priceUsd, deliveryType, hasTitleInHand, odometerMiles, year".

Definition INVALID_DELIVERY : string :=
  "deliveryType must be one of: local_pickup, same_city_carrier, cross_country_carrier".

(** The handler of the route. The body is used as a [CarSaleInput] as it
    is: [isSalvageTitle] is not checked, and is later read for its
    truthiness. *)
Definition planRoute (nowYear now : Z) (body : Json) : PlanResponse :=
  match field body "priceUsd", field body "deliveryType", field body "hasTitleInHand",
        field body "odometerMiles", field body "year" with
  | Some (JNumber priceUsd), Some (JString deliveryType), Some (JBool hasTitleInHand),
    Some (JNumber odometerMiles), Some (JNumber year) =>
      match deliveryTypeOf deliveryType with
      | None => BadRequest INVALID_DELIVERY
      | Some carrier =>
          let sale :=
            CarEscrow.mkCarSaleInput priceUsd carrier hasTitleInHand odometerMiles year
              (option_map truthyJson (field body "isSalvageTitle")) in
          match CarEscrow.computeCarEscrowPlan nowYear now sale with
          | Some plan => PlanComputed plan
          | None => Uncaught
          end
      end
  | _, _, _, _, _ => BadRequest INVALID_PAYLOAD
  end.

End CarRoutes.

(* ------------------------------------------------------------------ *)
(** ** Car-escrow notifications ([src/services/carEscrowNotifications.ts])

    Years, prices and minutes are the integer ones. *)

Module CarNotifications.



Record CarSummary := mkCarSummary {
  make : option string;
  model : option string;
  year : option Z;
  vinLast4 : option string;
  priceUsd : Z;
  city : option string
}.





(** A string option that is present and not empty. *)
Definition present (s : option string) : list string :=
  match s with
  | Some v => if Str.truthy v then [v] else []
  | None => []
  end.

(** The digits of a number in groups of three, from the right; the list
    holds the digits in reverse. *)
Fixpoint groupThousands (reversed : list ascii) : list ascii :=
  match reversed with
  | a :: b :: c :: rest =>
      match rest with
      | [] => [a; b; c]
      | _ :: _ => a :: b :: c :: ","%char :: groupThousands rest
      end
  | short => short
  end.

(** [n.toLocaleString("en-US", { style: "currency", currency: "USD",
    maximumFractionDigits: 0 })] *)
Definition formatUsd (n : Z) : string :=
  (if n <? 0 then "-" else "") ++ "$"
  ++ string_of_list_ascii
       (rev (groupThousands (rev (list_ascii_of_string (Str.ofZ (Z.abs n)))))).

Definition formatCarLabel (car : CarSummary) : string :=
  let parts :=
    ((match year car with
      | Some y => if y =? 0 then [] else [Str.ofZ y]
      | None => []
      end)
     ++ present (make car) ++ present (model car))%list in
  let label := String.concat " " parts in
  let label :=
    match present (vinLast4 car) with
    | [vin] => label ++ " (…" ++ vin ++ ")"
    | _ => label
    end in
  let label :=
    if priceUsd car =? 0 then label else label ++ ", " ++ formatUsd (priceUsd car) in
  let label :=
    match present (city car) with
    | [c] => label ++ " · " ++ c
    | _ => label
    end in
  if Str.truthy label then label else "Car sale".














End CarNotifications.

(* ================================================================== *)
(** * Properties *)

(* ------------------------------------------------------------------ *)
(** ** Test vectors of the hash functions (FIPS 180-4, RFC 4231) *)

Module CryptoVectors.

Example sha256_abc :
  Crypto.sha256Hex "abc"
  = "ba7816bf8f01cfea414140de5dae2223b00361a396177a9cb410ff61f20015ad".
Proof. vm_compute. reflexivity. Qed.

Example sha256_empty :
  Crypto.sha256Hex ""
  = "e3b0c44298fc1c149afbf4c8996fb92427ae41e4649b934ca495991b7852b855".
Proof. vm_compute. reflexivity. Qed.

Example sha256_two_blocks :
  Crypto.sha256Hex "abcdbcdecdefdefgefghfghighijhijkijkljklmklmnlmnomnopnopq"
  = "248d6a61d20638b8e5c026930c3e6039a33ce45964ff2167f6ecedd419db06c1".
Proof. vm_compute. reflexivity. Qed.

Example hmac_rfc4231_case2 :
  Crypto.hmacSha256Hex "Jefe" "what do ya want for nothing?"
  = "5bdcc146bf60754e6a042426089575c75a003f089d2739839dec58b964ec3843".
Proof. vm_compute. reflexivity. Qed.

(** A key longer than one block is hashed first. *)
Example hmac_long_key :
  Crypto.hmacSha256Hex
    "kkkkkkkkkkkkkkkkkkkkkkkkkkkkkkkkkkkkkkkkkkkkkkkkkkkkkkkkkkkkkkkkkkkkkk" "body"
  = "eea532da443715baf2fcf7b045e3273c9cd90ec4524c7e4471c8116eaa406e54".
Proof. vm_compute. reflexivity. Qed.

End CryptoVectors.


(* ------------------------------------------------------------------ *)
(** ** Facts about strings *)

Module StrFacts.

Lemma append_assoc (a b c : string) : (a ++ b) ++ c = a ++ (b ++ c).
Proof. induction a as [|x a IH]; simpl; [reflexivity | now rewrite IH]. Qed.

Lemma append_inv_head (a x y : string) : a ++ x = a ++ y -> x = y.
Proof.
  induction a as [|c a IH]; simpl; intros H; [exact H |].
  injection H as H. now apply IH.
Qed.

Lemma count_append (c : ascii) (a b : string) :
  Str.count c (a ++ b) = (Str.count c a + Str.count c b)%nat.
Proof.
  induction a as [|x a IH]; simpl; [reflexivity |].
  destruct (Ascii.eqb x c); simpl; now rewrite IH.
Qed.

(** Splitting at a separator is unambiguous once the number of separators
    to its right is known. *)
Lemma append_sep_inj (c : ascii) (a b x y : string) :
  Str.count c x = Str.count c y ->
  a ++ String c x = b ++ String c y ->
  a = b /\ x = y.
Proof.
  revert b. induction a as [|h a IH]; intros [|k b] Hc H; simpl in H.
  - injection H as H. now split.
  - injection H as Hk H. subst x k. exfalso.
    rewrite count_append in Hc. simpl in Hc. rewrite Ascii.eqb_refl in Hc. lia.
  - injection H as Hk H. subst y h. exfalso.
    rewrite count_append in Hc. simpl in Hc. rewrite Ascii.eqb_refl in Hc. lia.
  - injection H as Hk H. subst k.
    destruct (IH b Hc H) as [-> ->]. now split.
Qed.

Lemma ofZ_inj (m n : Z) : Str.ofZ m = Str.ofZ n -> m = n.
Proof.
  unfold Str.ofZ. intros H.
  apply DecimalZ.to_int_inj.
  assert (E : Some (Z.to_int m) = Some (Z.to_int n)).
  { rewrite <- (NilEmpty.isi (Z.to_int m)), <- (NilEmpty.isi (Z.to_int n)). now rewrite H. }
  now injection E.
Qed.

Lemma count_string_of_uint (c : ascii) (d : Decimal.uint) :
  Str.isDecimalChar c = false -> Str.count c (NilEmpty.string_of_uint d) = 0%nat.
Proof.
  intros Hc. induction d; cbn [NilEmpty.string_of_uint Str.count]; try reflexivity;
    (match goal with
     | |- context [Ascii.eqb ?x c] =>
         destruct (Ascii.eqb x c) eqn:E;
         [apply Ascii.eqb_eq in E; subst c; discriminate | exact IHd]
     end).
Qed.

Lemma count_ofZ (c : ascii) (n : Z) :
  Str.isDecimalChar c = false -> Str.count c (Str.ofZ n) = 0%nat.
Proof.
  intros Hc. unfold Str.ofZ.
  destruct (Z.to_int n) as [d|d]; cbn [NilEmpty.string_of_int Str.count].
  - now apply count_string_of_uint.
  - destruct (Ascii.eqb "-" c) eqn:E.
    + apply Ascii.eqb_eq in E. subst c. discriminate.
    + now apply count_string_of_uint.
Qed.

Lemma DeadlineKind_str_inj (a b : DeadlineKind) :
  DeadlineKind_str a = DeadlineKind_str b -> a = b.
Proof. destruct a, b; simpl; intros H; reflexivity || discriminate H. Qed.

Lemma ReminderAudience_str_inj (a b : ReminderAudience) :
  ReminderAudience_str a = ReminderAudience_str b -> a = b.
Proof. destruct a, b; simpl; intros H; reflexivity || discriminate H. Qed.

Lemma ReminderReason_str_inj (a b : ReminderReason) :
  ReminderReason_str a = ReminderReason_str b -> a = b.
Proof. destruct a, b; simpl; intros H; reflexivity || discriminate H. Qed.

Lemma EscalationReason_str_inj (a b : EscalationReason) :
  EscalationReason_str a = EscalationReason_str b -> a = b.
Proof. destruct a, b; simpl; intros H; reflexivity || discriminate H. Qed.

Lemma EscalationSuggestion_str_inj (a b : EscalationSuggestion) :
  EscalationSuggestion_str a = EscalationSuggestion_str b -> a = b.
Proof. destruct a, b; simpl; intros H; reflexivity || discriminate H. Qed.

End StrFacts.

(* ------------------------------------------------------------------ *)
(** ** Job identities *)

Module Identity.

Import StrFacts.

Example jobIdForDeadline_ex :
  jobIdForDeadline (mkDeadlineJob "D-123" 1700000000 delivery 1)
  = "deadline:D-123:1700000000:delivery:1".
Proof. reflexivity. Qed.

Example jobIdForReminder_ex :
  jobIdForReminder (mkReminderJob "D-1" 1700000000 both deadline_upcoming)
  = "reminder:D-1:1700000000:both:deadline-upcoming".
Proof. reflexivity. Qed.

Example jobIdForEscalation_ex :
  jobIdForEscalation (mkEscalationJob "D-123" no_delivery REVIEW)
  = "escalation:D-123:no-delivery:REVIEW".
Proof. reflexivity. Qed.

(** The colon count of the tail of a deadline identity does not depend on
    the payload. *)
Ltac colon_count :=
  rewrite ?count_append;
  repeat match goal with
         | |- context [Str.count ?c (Str.ofZ ?n)] => rewrite (count_ofZ c n) by reflexivity
         end;
  repeat match goal with
         | |- context [DeadlineKind_str ?k] => is_var k; destruct k
         | |- context [ReminderAudience_str ?k] => is_var k; destruct k
         | |- context [ReminderReason_str ?k] => is_var k; destruct k
         | |- context [EscalationReason_str ?k] => is_var k; destruct k
         | |- context [EscalationSuggestion_str ?k] => is_var k; destruct k
         end; reflexivity.

Lemma jobIdForDeadline_inj (j1 j2 : DeadlineJob) :
  jobIdForDeadline j1 = jobIdForDeadline j2 -> j1 = j2.
Proof.
  destruct j1 as [d1 t1 k1 n1], j2 as [d2 t2 k2 n2].
  unfold jobIdForDeadline. cbn [dj_dealId dj_deadlineAt dj_kind dj_nonce]. intros H.
  apply (append_inv_head "deadline:") in H.
  apply (append_sep_inj ":") in H; [| colon_count].
  destruct H as [-> H].
  apply (append_sep_inj ":") in H; [| colon_count].
  destruct H as [Ht H]. apply ofZ_inj in Ht. subst t2.
  apply (append_sep_inj ":") in H; [| colon_count].
  destruct H as [Hk Hn]. apply DeadlineKind_str_inj in Hk. apply ofZ_inj in Hn.
  now subst.
Qed.

Lemma jobIdForReminder_inj (j1 j2 : ReminderJob) :
  jobIdForReminder j1 = jobIdForReminder j2 -> j1 = j2.
Proof.
  destruct j1 as [d1 t1 a1 r1], j2 as [d2 t2 a2 r2].
  unfold jobIdForReminder. cbn [rj_dealId rj_notifyAt rj_for rj_reason]. intros H.
  apply (append_inv_head "reminder:") in H.
  apply (append_sep_inj ":") in H; [| colon_count].
  destruct H as [-> H].
  apply (append_sep_inj ":") in H; [| colon_count].
  destruct H as [Ht H]. apply ofZ_inj in Ht. subst t2.
  apply (append_sep_inj ":") in H; [| colon_count].
  destruct H as [Ha Hr]. apply ReminderAudience_str_inj in Ha.
  apply ReminderReason_str_inj in Hr. now subst.
Qed.

Lemma jobIdForEscalation_inj (j1 j2 : EscalationJob) :
  jobIdForEscalation j1 = jobIdForEscalation j2 -> j1 = j2.
Proof.
  destruct j1 as [d1 r1 s1], j2 as [d2 r2 s2].
  unfold jobIdForEscalation. cbn [ej_dealId ej_reason ej_suggested]. intros H.
  apply (append_inv_head "escalation:") in H.
  apply (append_sep_inj ":") in H; [| colon_count].
  destruct H as [-> H].
  apply (append_sep_inj ":") in H; [| colon_count].
  destruct H as [Hr Hs]. apply EscalationReason_str_inj in Hr.
  apply EscalationSuggestion_str_inj in Hs. now subst.
Qed.

End Identity.

(* ------------------------------------------------------------------ *)
(** ** Deadline processor *)

Module DeadlineProcessor.

Lemma reached_true_iff (now : Z) (t : option Z) : reached now t = true <-> elapsed now t.
Proof.
  unfold reached, elapsed. destruct t as [d|].
  - rewrite Z.geb_le. split.
    + intros H. exists d. split; [reflexivity | lia].
    + intros [d' [E H]]. injection E as ->. lia.
  - split; [discriminate | intros [d [E _]]; discriminate E].
Qed.

Lemma reached_false_iff (now : Z) (t : option Z) : reached now t = false <-> ~ elapsed now t.
Proof.
  rewrite <- reached_true_iff. destruct (reached now t); split; congruence.
Qed.

(** C1. The decision of the deadline processor follows the table of the
    specification. For kind delivery: no-op in the states DELIVERED,
    RELEASED, REFUNDED, RESOLVED; otherwise escalate with reason
    no-delivery and suggestion REVIEW when the delivery deadline has
    elapsed, and no-op when it has not. For kind dispute: no-op in the
    states RESOLVED, RELEASED, REFUNDED; otherwise no-op while the dispute
    window has not ended; once it has, escalate with reason
    deadline-expired, suggesting RELEASE in the states FUNDED and DELIVERED
    and REVIEW in every other state. *)
Theorem decide_follows_table (payload : DeadlineJob) (snap : DealSnapshot) (now : Z) :
  let st := snap_state snap in
  let decision := decide (dj_kind payload) snap now in
  (dj_kind payload = delivery ->
     (In st [DELIVERED; RELEASED; REFUNDED; RESOLVED] -> decision = DNoop) /\
     (~ In st [DELIVERED; RELEASED; REFUNDED; RESOLVED] ->
        (elapsed now (snap_deliveryBy snap) -> decision = DEscalate no_delivery REVIEW) /\
        (~ elapsed now (snap_deliveryBy snap) -> decision = DNoop))) /\
  (dj_kind payload = dispute ->
     (In st [RESOLVED; RELEASED; REFUNDED] -> decision = DNoop) /\
     (~ In st [RESOLVED; RELEASED; REFUNDED] ->
        (~ elapsed now (snap_disputeUntil snap) -> decision = DNoop) /\
        (elapsed now (snap_disputeUntil snap) ->
           (In st [FUNDED; DELIVERED] -> decision = DEscalate deadline_expired RELEASE) /\
           (~ In st [FUNDED; DELIVERED] -> decision = DEscalate deadline_expired REVIEW)))).
Proof.
  intros st decision. subst st decision.
  split; intros Hk; rewrite Hk; unfold decide.
  - split.
    + intros Hin. destruct (snap_state snap); simpl in *; try reflexivity;
        exfalso; intuition discriminate.
    + intros Hout. split; intros He.
      * apply reached_true_iff in He. rewrite He.
        destruct (snap_state snap); simpl in *; try reflexivity; exfalso; tauto.
      * apply reached_false_iff in He. rewrite He.
        destruct (snap_state snap); reflexivity.
  - split.
    + intros Hin. destruct (snap_state snap); simpl in *; try reflexivity;
        exfalso; intuition discriminate.
    + intros Hout. split; intros He.
      * apply reached_false_iff in He. rewrite He.
        destruct (snap_state snap); reflexivity.
      * apply reached_true_iff in He. rewrite He. split; intros Hs.
        -- destruct (snap_state snap); simpl in *; try reflexivity;
             exfalso; intuition discriminate.
        -- destruct (snap_state snap); simpl in *; try reflexivity; exfalso; tauto.
Qed.

(** The table at work on the scenarios of the specification. *)
Lemma decide_follows_table_witness :
  decide delivery (mkDealSnapshot "D-123" FUNDED (Some 1699999990) None) 1700000000
    = DEscalate no_delivery REVIEW
  /\ decide dispute (mkDealSnapshot "D-42" FUNDED None (Some 1699999995)) 1700000000
    = DEscalate deadline_expired RELEASE
  /\ decide dispute (mkDealSnapshot "D-7" DISPUTED None (Some 1699999995)) 1700000000
    = DEscalate deadline_expired REVIEW
  /\ decide delivery (mkDealSnapshot "D-999" RELEASED (Some 1699999900) None) 1700000000
    = DNoop.
Proof.
  split; [| split; [| split]].
  - destruct (decide_follows_table (mkDeadlineJob "D-123" 1699999990 delivery 1)
                (mkDealSnapshot "D-123" FUNDED (Some 1699999990) None) 1700000000)
      as [Hdelivery _].
    destruct (Hdelivery eq_refl) as [_ Hopen].
    destruct Hopen as [Hlate _].
    + simpl. intuition discriminate.
    + apply Hlate. exists 1699999990. split; [reflexivity | lia].
  - destruct (decide_follows_table (mkDeadlineJob "D-42" 1699999995 dispute 2)
                (mkDealSnapshot "D-42" FUNDED None (Some 1699999995)) 1700000000)
      as [_ Hdispute].
    destruct (Hdispute eq_refl) as [_ Hopen].
    destruct Hopen as [_ Hlate].
    + simpl. intuition discriminate.
    + destruct Hlate as [Hrelease _].
      * exists 1699999995. split; [reflexivity | lia].
      * apply Hrelease. left. reflexivity.
  - destruct (decide_follows_table (mkDeadlineJob "D-7" 1699999995 dispute 0)
                (mkDealSnapshot "D-7" DISPUTED None (Some 1699999995)) 1700000000)
      as [_ Hdispute].
    destruct (Hdispute eq_refl) as [_ Hopen].
    destruct Hopen as [_ Hlate].
    + simpl. intuition discriminate.
    + destruct Hlate as [_ Hreview].
      * exists 1699999995. split; [reflexivity | lia].
      * apply Hreview. simpl. intuition discriminate.
  - destruct (decide_follows_table (mkDeadlineJob "D-999" 1699999900 delivery 0)
                (mkDealSnapshot "D-999" RELEASED (Some 1699999900) None) 1700000000)
      as [Hdelivery _].
    destruct (Hdelivery eq_refl) as [Hterminal _].
    apply Hterminal. right. left. reflexivity.
Defined.

(** Unfolding of the monad's operations. *)
Ltac run_m :=
  cbv beta iota zeta delta [bind ret throw call tryCatch tryFinally nowSeconds dateNow parse].

(** The processor up to its decision: payload valid, snapshot fetched. *)
Lemma handleDeadline_decides (env : Env) (job : Job DeadlineJob) (log : Log)
    (snap : DealSnapshot) :
  let payload := job_data job in
  let log1 := (log ++ [GetDealSnapshot (dj_dealId payload)])%list in
  DeadlineJobSchema payload = true ->
  api_getDealSnapshot env log1 = Ok snap ->
  decide (dj_kind payload) snap (clock env log1 / 1000) = DNoop ->
  handleDeadline env job log = (Ok (DeadlineNoop (dj_dealId payload) (dj_kind payload)), log1).
Proof.
  intros payload log1 Hvalid Hsnap Hdec. subst payload log1.
  unfold handleDeadline, assertDeadlineJob. run_m.
  rewrite Hvalid. run_m. rewrite Hsnap. run_m. rewrite Hdec. reflexivity.
Qed.

(** C10. The elapsed-deadline check of the deadline processor reads the
    snapshot's own timestamp and never the payload's [deadlineAt]: for a
    delivery job whose snapshot has no [deliveryBy], and for a dispute job
    whose snapshot has no [disputeUntil], the processor decides no-op and
    does nothing beyond fetching the snapshot, whatever [deadlineAt] and
    the current time are. *)
Theorem missing_snapshot_deadline_is_noop (env : Env) (job : Job DeadlineJob) (log : Log)
    (snap : DealSnapshot) :
  let payload := job_data job in
  let log1 := (log ++ [GetDealSnapshot (dj_dealId payload)])%list in
  DeadlineJobSchema payload = true ->
  api_getDealSnapshot env log1 = Ok snap ->
  (dj_kind payload = delivery /\ snap_deliveryBy snap = None) \/
  (dj_kind payload = dispute /\ snap_disputeUntil snap = None) ->
  (forall now, decide (dj_kind payload) snap now = DNoop) /\
  handleDeadline env job log = (Ok (DeadlineNoop (dj_dealId payload) (dj_kind payload)), log1).
Proof.
  intros payload log1 Hvalid Hsnap Hmissing.
  assert (Hnoop : forall now, decide (dj_kind payload) snap now = DNoop).
  { intros now. unfold decide.
    destruct Hmissing as [[-> ->] | [-> ->]]; simpl;
      destruct (snap_state snap); reflexivity. }
  split; [exact Hnoop |].
  apply (handleDeadline_decides env job log snap); [exact Hvalid | exact Hsnap | apply Hnoop].
Qed.

(** A delivery job due a year ago, on a funded deal whose snapshot holds
    no [deliveryBy]. *)
Lemma missing_snapshot_deadline_is_noop_witness :
  (forall now,
     decide delivery (mkDealSnapshot "D-5" FUNDED None (Some 1700000500)) now = DNoop) /\
  handleDeadline
    (mockEnv testVars 1700000000000 (Some (mkMockSnapshot FUNDED None (Some 1700000500))))
    (mkJob None (mkDeadlineJob "D-5" 1668464000 delivery 0)) []
  = (Ok (DeadlineNoop "D-5" delivery), [GetDealSnapshot "D-5"]).
Proof.
  apply (missing_snapshot_deadline_is_noop
           (mockEnv testVars 1700000000000 (Some (mkMockSnapshot FUNDED None (Some 1700000500))))
           (mkJob None (mkDeadlineJob "D-5" 1668464000 delivery 0)) []
           (mkDealSnapshot "D-5" FUNDED None (Some 1700000500))).
  - reflexivity.
  - reflexivity.
  - left. split; reflexivity.
Defined.

(** The policy gate answers from the two configuration flags only. *)
Lemma finalSuggestion_cases (policy : ChainPolicy) (s : EscalationSuggestion) :
  finalSuggestion policy s
  = match s with
    | REVIEW => REVIEW
    | action => if allowsAutoFinalize policy action then action else REVIEW
    end.
Proof.
  unfold finalSuggestion.
  destruct s; simpl;
    match goal with
    | |- context [allowsAutoFinalize policy ?a] => destruct (allowsAutoFinalize policy a)
    | _ => idtac
    end; reflexivity.
Qed.

Lemma addRequests_app (l1 l2 : Log) :
  addRequests (l1 ++ l2)%list = (addRequests l1 ++ addRequests l2)%list.
Proof.
  induction l1 as [|ev l1 IH]; [reflexivity |].
  destruct ev; cbn [addRequests app]; rewrite ?IH; reflexivity.
Qed.

Lemma reviewerNotices_app (l1 l2 : Log) :
  reviewerNotices (l1 ++ l2)%list = (reviewerNotices l1 ++ reviewerNotices l2)%list.
Proof.
  induction l1 as [|ev l1 IH]; [reflexivity |].
  destruct ev; cbn [reviewerNotices app]; rewrite ?IH; reflexivity.
Qed.

(** C2. When the deadline processor decides to escalate, it consults the
    policy gate: a suggestion RELEASE or REFUND that [allowsAutoFinalize]
    refuses becomes REVIEW. It then enqueues exactly one escalation job,
    under the identity [escalation:<dealId>:<reason>:<suggested>]
    (whatever the ports answer), and, the queue and the notifier accepting
    the calls, it notifies the reviewer if and only if the final suggestion
    is REVIEW. *)
Theorem escalation_enqueued_once (env : Env) (job : Job DeadlineJob) (log : Log)
    (snap : DealSnapshot) (reason : EscalationReason) (suggested0 : EscalationSuggestion) :
  let payload := job_data job in
  let dealId := dj_dealId payload in
  let log1 := (log ++ [GetDealSnapshot dealId])%list in
  let nowSec := clock env log1 / 1000 in
  let suggested :=
    match suggested0 with
    | REVIEW => REVIEW
    | action => if allowsAutoFinalize (getChainPolicy env) action then action else REVIEW
    end in
  let jobId :=
    "escalation:" ++ dealId ++ ":" ++ EscalationReason_str reason ++ ":"
      ++ EscalationSuggestion_str suggested in
  let request :=
    mkAddRequest "escalation" "escalation"
      (JEscalation (mkEscalationJob dealId reason suggested)) jobId None in
  let notice := mkNotifyReviewerInput dealId reason nowSec (CtxKind (dj_kind payload)) in
  DeadlineJobSchema payload = true ->
  api_getDealSnapshot env log1 = Ok snap ->
  decide (dj_kind payload) snap nowSec = DEscalate reason suggested0 ->
  addRequests (logAfter (handleDeadline env job) log) = (addRequests log ++ [request])%list
  /\ (reliable env ->
      handleDeadline env job log
      = (Ok (DeadlineEscalate dealId reason suggested),
         (log1 ++ [QueueAdd request; QueueClose "escalation"]
               ++ match suggested with REVIEW => [NotifyReviewer notice] | _ => [] end)%list)
      /\ reviewerNotices (logAfter (handleDeadline env job) log)
         = (reviewerNotices log
              ++ match suggested with REVIEW => [notice] | _ => [] end)%list).
Proof.
  intros payload dealId log1 nowSec suggested jobId request notice Hvalid Hsnap Hdec.
  assert (Eid : jobIdForEscalation (mkEscalationJob dealId reason suggested) = jobId)
    by reflexivity.
  split.
  - unfold logAfter, handleDeadline, assertDeadlineJob. run_m.
    fold payload. rewrite Hvalid. run_m. fold dealId log1. rewrite Hsnap. run_m.
    fold nowSec. rewrite Hdec. run_m.
    rewrite finalSuggestion_cases. fold suggested. rewrite Eid. fold request.
    destruct (queue_close env _) as [[]|?]; [| cbn [snd]];
      [destruct (queue_add env _) as [[]|?]; [| cbn [snd]] |].
    + destruct (EscalationSuggestion_eqb suggested REVIEW);
        [destruct (notify_notifyReviewer env _) |]; cbn [snd];
        unfold log1; rewrite !addRequests_app; cbn [addRequests];
        rewrite ?app_nil_r; reflexivity.
    + unfold log1. rewrite !addRequests_app. cbn [addRequests].
      rewrite ?app_nil_r. reflexivity.
    + unfold log1. rewrite !addRequests_app. cbn [addRequests].
      rewrite ?app_nil_r. reflexivity.
  - intros (Hadd & Hclose & Hreviewer & _ & _).
    assert (Hrun : handleDeadline env job log
                   = (Ok (DeadlineEscalate dealId reason suggested),
                      (log1 ++ [QueueAdd request; QueueClose "escalation"]
                            ++ match suggested with
                               | REVIEW => [NotifyReviewer notice]
                               | _ => []
                               end)%list)).
    { unfold handleDeadline, assertDeadlineJob. run_m.
      fold payload. rewrite Hvalid. run_m. fold dealId log1. rewrite Hsnap. run_m.
      fold nowSec. rewrite Hdec. run_m.
      rewrite Hadd, Hclose.
      rewrite finalSuggestion_cases. fold suggested. rewrite Eid. fold request.
      destruct suggested; cbn [EscalationSuggestion_eqb].
      - rewrite <- app_assoc. reflexivity.
      - rewrite <- app_assoc. reflexivity.
      - rewrite Hreviewer. fold notice. rewrite <- !app_assoc. reflexivity. }
    split; [exact Hrun |].
    unfold logAfter. rewrite Hrun. cbn [snd].
    unfold log1. rewrite !reviewerNotices_app. cbn [reviewerNotices].
    destruct suggested; cbn [reviewerNotices app]; rewrite ?app_nil_r; reflexivity.
Qed.

(** The second scenario of the specification and of the test suite: a
    delivery job on a deal that is already released. No enqueue, no
    notification. *)
Example finalized_deal_scenario :
  handleDeadline
    (mockEnv testVars 1700000000000 (Some (mkMockSnapshot RELEASED (Some 1699999900) None)))
    (mkJob (Some "deadline:D-999:1699999900:delivery:0")
           (mkDeadlineJob "D-999" 1699999900 delivery 0)) []
  = (Ok (DeadlineNoop "D-999" delivery), [GetDealSnapshot "D-999"]).
Proof. reflexivity. Qed.

(** An invalid payload is rejected before any port is called. *)
Example invalid_payload_scenario :
  handleDeadline
    (mockEnv testVars 1700000000000 (Some (mkMockSnapshot FUNDED (Some 1699999900) None)))
    (mkJob None (mkDeadlineJob "" 1699999900 delivery 0)) []
  = (Throw (ZodError "DeadlineJobSchema"), []).
Proof. reflexivity. Qed.

(** The first and third scenarios of the specification (overdue delivery
    on a funded deal; closed dispute window with auto-finalize refused),
    and the third again under a policy that allows RELEASE. *)
Lemma escalation_enqueued_once_witness :
  handleDeadline
    (mockEnv testVars 1700000000000 (Some (mkMockSnapshot FUNDED (Some 1699999990) None)))
    (mkJob (Some "deadline:D-123:1699999990:delivery:1")
           (mkDeadlineJob "D-123" 1699999990 delivery 1)) []
  = (Ok (DeadlineEscalate "D-123" no_delivery REVIEW),
     [ GetDealSnapshot "D-123";
       QueueAdd (mkAddRequest "escalation" "escalation"
                   (JEscalation (mkEscalationJob "D-123" no_delivery REVIEW))
                   "escalation:D-123:no-delivery:REVIEW" None);
       QueueClose "escalation";
       NotifyReviewer (mkNotifyReviewerInput "D-123" no_delivery 1700000000
                         (CtxKind delivery)) ])
  /\ handleDeadline
       (mockEnv testVars 1700000000000 (Some (mkMockSnapshot FUNDED None (Some 1699999995))))
       (mkJob None (mkDeadlineJob "D-42" 1699999995 dispute 2)) []
     = (Ok (DeadlineEscalate "D-42" deadline_expired REVIEW),
        [ GetDealSnapshot "D-42";
          QueueAdd (mkAddRequest "escalation" "escalation"
                      (JEscalation (mkEscalationJob "D-42" deadline_expired REVIEW))
                      "escalation:D-42:deadline-expired:REVIEW" None);
          QueueClose "escalation";
          NotifyReviewer (mkNotifyReviewerInput "D-42" deadline_expired 1700000000
                            (CtxKind dispute)) ])
  /\ handleDeadline
       (mockEnv permissiveVars 1700000000000
                (Some (mkMockSnapshot FUNDED None (Some 1699999995))))
       (mkJob None (mkDeadlineJob "D-42" 1699999995 dispute 2)) []
     = (Ok (DeadlineEscalate "D-42" deadline_expired RELEASE),
        [ GetDealSnapshot "D-42";
          QueueAdd (mkAddRequest "escalation" "escalation"
                      (JEscalation (mkEscalationJob "D-42" deadline_expired RELEASE))
                      "escalation:D-42:deadline-expired:RELEASE" None);
          QueueClose "escalation" ]).
Proof.
  split; [| split].
  - refine (proj1 (proj2 (escalation_enqueued_once
                     (mockEnv testVars 1700000000000
                              (Some (mkMockSnapshot FUNDED (Some 1699999990) None)))
                     (mkJob (Some "deadline:D-123:1699999990:delivery:1")
                            (mkDeadlineJob "D-123" 1699999990 delivery 1)) []
                     (mkDealSnapshot "D-123" FUNDED (Some 1699999990) None)
                     no_delivery REVIEW _ _ _) _)).
    + reflexivity.
    + reflexivity.
    + reflexivity.
    + repeat split.
  - refine (proj1 (proj2 (escalation_enqueued_once
                     (mockEnv testVars 1700000000000
                              (Some (mkMockSnapshot FUNDED None (Some 1699999995))))
                     (mkJob None (mkDeadlineJob "D-42" 1699999995 dispute 2)) []
                     (mkDealSnapshot "D-42" FUNDED None (Some 1699999995))
                     deadline_expired RELEASE _ _ _) _)).
    + reflexivity.
    + reflexivity.
    + reflexivity.
    + repeat split.
  - refine (proj1 (proj2 (escalation_enqueued_once
                     (mockEnv permissiveVars 1700000000000
                              (Some (mkMockSnapshot FUNDED None (Some 1699999995))))
                     (mkJob None (mkDeadlineJob "D-42" 1699999995 dispute 2)) []
                     (mkDealSnapshot "D-42" FUNDED None (Some 1699999995))
                     deadline_expired RELEASE _ _ _) _)).
    + reflexivity.
    + reflexivity.
    + reflexivity.
    + repeat split.
Defined.

End DeadlineProcessor.

(* ------------------------------------------------------------------ *)
(** ** Reminder processor *)

Module ReminderProcessor.

Import DeadlineProcessor.

Lemma isReminderStillUseful_false_iff (reason : ReminderReason) (snap : DealSnapshot)
    (now notifyAt : Z) :
  isReminderStillUseful reason snap now notifyAt = false <-> suppressed reason snap now.
Proof.
  unfold isReminderStillUseful, suppressed, terminal.
  rewrite <- !reached_true_iff.
  destruct (snap_state snap); simpl;
    destruct reason; simpl;
    destruct (reached now (snap_deliveryBy snap));
    destruct (reached now (snap_disputeUntil snap)); simpl;
    intuition congruence.
Qed.

Lemma remindersSent_app (l1 l2 : Log) :
  remindersSent (l1 ++ l2)%list = (remindersSent l1 ++ remindersSent l2)%list.
Proof.
  induction l1 as [|ev l1 IH]; [reflexivity |].
  destruct ev; cbn [remindersSent app]; rewrite ?IH; reflexivity.
Qed.

(** C6. For a valid reminder payload the processor returns no-op and
    dispatches nothing exactly when the snapshot state is RESOLVED,
    RELEASED or REFUNDED, or the reason is deadline-upcoming and
    [now >= deliveryBy], or the reason is dispute-window-closing and
    [now >= disputeUntil]; otherwise it calls [sendReminder] exactly once,
    with the deal id, [when = now], the audience, the reason and the
    context [{deliveryBy, disputeUntil}] of the snapshot, and, the notifier
    accepting the call, returns notified. *)
Theorem reminder_sent_unless_suppressed (env : Env) (job : Job ReminderJob) (log : Log)
    (snap : DealSnapshot) :
  let payload := job_data job in
  let log1 := (log ++ [GetDealSnapshot (rj_dealId payload)])%list in
  let now := clock env log1 / 1000 in
  let message :=
    mkSendReminderInput (rj_dealId payload) now (rj_for payload) (rj_reason payload)
      (CtxDeadlines (snap_deliveryBy snap) (snap_disputeUntil snap)) in
  let log2 := (log1 ++ [SendReminder message])%list in
  let id := match job_id job with Some id => id | None => jobIdForReminder payload end in
  ReminderJobSchema payload = true ->
  api_getDealSnapshot env log1 = Ok snap ->
  (suppressed (rj_reason payload) snap now ->
     handleReminder env job log
     = (Ok (ReminderNoop (rj_dealId payload) (rj_for payload) (rj_reason payload)), log1)
     /\ remindersSent (logAfter (handleReminder env job) log) = remindersSent log)
  /\ (~ suppressed (rj_reason payload) snap now ->
     remindersSent (logAfter (handleReminder env job) log)
     = (remindersSent log ++ [message])%list
     /\ (notify_sendReminder env log2 = Ok tt ->
         handleReminder env job log
         = (Ok (ReminderNotified (rj_dealId payload) (rj_for payload) (rj_reason payload) id),
            log2))).
Proof.
  intros payload log1 now message log2 id Hvalid Hsnap.
  assert (Hrun : handleReminder env job log
                 = if isReminderStillUseful (rj_reason payload) snap now (rj_notifyAt payload)
                   then (match notify_sendReminder env log2 with
                         | Ok _ => Ok (ReminderNotified (rj_dealId payload) (rj_for payload)
                                         (rj_reason payload) id)
                         | Throw e => Throw e
                         end, log2)
                   else (Ok (ReminderNoop (rj_dealId payload) (rj_for payload)
                               (rj_reason payload)), log1)).
  { unfold handleReminder, assertReminderJob. run_m.
    fold payload. rewrite Hvalid. run_m. fold log1. rewrite Hsnap. run_m. fold now.
    destruct (isReminderStillUseful _ _ _ _); cbn [negb]; run_m; [| reflexivity].
    fold message log2. destruct (notify_sendReminder env log2); reflexivity. }
  unfold logAfter. rewrite Hrun.
  split; intros Hs.
  - apply (isReminderStillUseful_false_iff _ _ _ (rj_notifyAt payload)) in Hs.
    rewrite Hs. cbn [snd]. split; [reflexivity |].
    unfold log1. rewrite remindersSent_app. cbn [remindersSent]. apply app_nil_r.
  - destruct (isReminderStillUseful (rj_reason payload) snap now (rj_notifyAt payload)) eqn:E.
    + cbn [snd]. split.
      * unfold log2, log1. rewrite !remindersSent_app. cbn [remindersSent].
        rewrite app_nil_r. reflexivity.
      * intros Hsent. rewrite Hsent. reflexivity.
    + exfalso. apply Hs. now apply (isReminderStillUseful_false_iff _ _ _ (rj_notifyAt payload)).
Qed.

(** The sixth scenario of the specification (a stale reminder), and a
    reminder that is still due. *)
Lemma reminder_sent_unless_suppressed_witness :
  handleReminder
    (mockEnv testVars 1700000000000 (Some (mkMockSnapshot FUNDED (Some 1699999999) None)))
    (mkJob None (mkReminderJob "D-6" 1699913599 both deadline_upcoming)) []
  = (Ok (ReminderNoop "D-6" both deadline_upcoming), [GetDealSnapshot "D-6"])
  /\ handleReminder
       (mockEnv testVars 1700000000000 (Some (mkMockSnapshot FUNDED (Some 1700086400) None)))
       (mkJob None (mkReminderJob "D-6" 1700000000 both deadline_upcoming)) []
     = (Ok (ReminderNotified "D-6" both deadline_upcoming
              "reminder:D-6:1700000000:both:deadline-upcoming"),
        [ GetDealSnapshot "D-6";
          SendReminder (mkSendReminderInput "D-6" 1700000000 both deadline_upcoming
                          (CtxDeadlines (Some 1700086400) None)) ]).
Proof.
  split.
  - refine (proj1 (proj1 (reminder_sent_unless_suppressed
                     (mockEnv testVars 1700000000000
                              (Some (mkMockSnapshot FUNDED (Some 1699999999) None)))
                     (mkJob None (mkReminderJob "D-6" 1699913599 both deadline_upcoming)) []
                     (mkDealSnapshot "D-6" FUNDED (Some 1699999999) None) _ _) _)).
    + reflexivity.
    + reflexivity.
    + right. left. split; [reflexivity |].
      exists 1699999999. split; [reflexivity |]. cbn. lia.
  - refine (proj2 (proj2 (reminder_sent_unless_suppressed
                     (mockEnv testVars 1700000000000
                              (Some (mkMockSnapshot FUNDED (Some 1700086400) None)))
                     (mkJob None (mkReminderJob "D-6" 1700000000 both deadline_upcoming)) []
                     (mkDealSnapshot "D-6" FUNDED (Some 1700086400) None) _ _) _) _).
    + reflexivity.
    + reflexivity.
    + intros [Ht | [[_ [d [E Hd]]] | [E _]]].
      * destruct Ht as [Ht | [Ht | Ht]]; discriminate Ht.
      * injection E as <-. cbn in Hd. lia.
      * discriminate E.
    + reflexivity.
Defined.

End ReminderProcessor.

(* ------------------------------------------------------------------ *)
(** ** Escalation processor *)

Module EscalationProcessor.

Import DeadlineProcessor.

(** C8. In the escalation processor, when the suggestion is RELEASE or
    REFUND and the policy allows it, an error thrown by [prepareFinalize]
    is caught locally: the route is review, the reviewer is notified with
    the context [{suggested: "REVIEW"}], and what the processor returns
    depends on the notifier alone: action review once the notifier has
    accepted the call. The preparation error does not reach the caller. *)
Theorem prepare_failure_downgrades_to_review (env : Env) (job : Job EscalationJob)
    (log : Log) (failure : Error) :
  let payload := job_data job in
  let nowSec := clock env log / 1000 in
  let log1 := (log ++ [PrepareFinalize (ej_dealId payload) (ej_suggested payload)])%list in
  let notice :=
    mkNotifyReviewerInput (ej_dealId payload) (ej_reason payload) nowSec (CtxSuggested REVIEW) in
  let log2 := (log1 ++ [NotifyReviewer notice])%list in
  EscalationJobSchema payload = true ->
  ej_suggested payload = RELEASE \/ ej_suggested payload = REFUND ->
  allowsAutoFinalize (getChainPolicy env) (ej_suggested payload) = true ->
  api_prepareFinalize env log1 = Throw failure ->
  handleEscalation env job log
  = (match notify_notifyReviewer env log2 with
     | Ok _ => Ok (EscalationReview (ej_dealId payload) (ej_reason payload) REVIEW)
     | Throw e => Throw e
     end, log2)
  /\ (notify_notifyReviewer env log2 = Ok tt ->
      handleEscalation env job log
      = (Ok (EscalationReview (ej_dealId payload) (ej_reason payload) REVIEW), log2)).
Proof.
  intros payload nowSec log1 notice log2 Hvalid Hsuggested Hallowed Hprepare.
  assert (Hrun : handleEscalation env job log
                 = (match notify_notifyReviewer env log2 with
                    | Ok _ => Ok (EscalationReview (ej_dealId payload) (ej_reason payload) REVIEW)
                    | Throw e => Throw e
                    end, log2)).
  { unfold handleEscalation, assertEscalationJob, tryPrepareFinalize. run_m.
    fold payload. rewrite Hvalid. run_m. fold nowSec.
    rewrite Hallowed.
    assert (Hor : EscalationSuggestion_eqb (ej_suggested payload) RELEASE
                  || EscalationSuggestion_eqb (ej_suggested payload) REFUND = true)
      by (destruct Hsuggested as [-> | ->]; reflexivity).
    rewrite Hor. run_m. fold log1. rewrite Hprepare. run_m.
    fold notice log2. destruct (notify_notifyReviewer env log2); reflexivity. }
  split; [exact Hrun |].
  intros Hnotified. rewrite Hrun, Hnotified. reflexivity.
Qed.

(** A RELEASE escalation under a policy that allows it, against an API
    whose [prepareFinalize] throws. *)
Lemma prepare_failure_downgrades_to_review_witness :
  handleEscalation (mockEnv permissiveVars 1700000000000 None)
                   (mkJob None (mkEscalationJob "D-42" deadline_expired RELEASE)) []
  = (Ok (EscalationReview "D-42" deadline_expired REVIEW),
     [ PrepareFinalize "D-42" RELEASE;
       NotifyReviewer (mkNotifyReviewerInput "D-42" deadline_expired 1700000000
                         (CtxSuggested REVIEW)) ]).
Proof.
  refine (proj2 (prepare_failure_downgrades_to_review
                   (mockEnv permissiveVars 1700000000000 None)
                   (mkJob None (mkEscalationJob "D-42" deadline_expired RELEASE)) []
                   (PortError "not used in handleDeadline tests") _ _ _ _) _).
  - reflexivity.
  - left. reflexivity.
  - reflexivity.
  - reflexivity.
  - reflexivity.
Defined.

End EscalationProcessor.

(* ------------------------------------------------------------------ *)
(** ** Webhook signature *)

Module WebhookSignature.

Lemma charCode_inj (a b : ascii) : charCode a = charCode b -> a = b.
Proof.
  unfold charCode. intros H. apply Nat2Z.inj in H.
  rewrite <- (ascii_nat_embedding a), <- (ascii_nat_embedding b). now rewrite H.
Qed.

(** The accumulator of the comparison loop ends at 0 exactly when it
    started at 0 and the two strings, of one length, are equal. *)
Lemma xorFold_zero_iff (expected provided : string) (ok : Z) :
  String.length expected = String.length provided ->
  (xorFold expected provided ok = 0 <-> ok = 0 /\ expected = provided).
Proof.
  revert provided ok.
  induction expected as [|a e IH]; intros [|b p] ok Hlen; simpl in Hlen; try discriminate.
  - simpl. intuition.
  - injection Hlen as Hlen. cbn [xorFold]. rewrite (IH p _ Hlen).
    rewrite Z.lor_eq_0_iff. split.
    + intros [[Hok Hx] ->]. apply Z.lxor_eq in Hx. apply charCode_inj in Hx.
      subst b. now split.
    + intros [Hok E]. injection E as -> ->. rewrite Z.lxor_nilpotent. now repeat split.
Qed.

Lemma digestHex_length (h : Crypto.Words8) : String.length (Crypto.digestHex h) = 64%nat.
Proof. reflexivity. Qed.

Lemma hmacSha256Hex_truthy (secret body : string) :
  Str.truthy (Crypto.hmacSha256Hex secret body) = true.
Proof.
  unfold Crypto.hmacSha256Hex.
  generalize (Crypto.hmacSha256 (Crypto.bytesOfString secret) (Crypto.bytesOfString body)).
  intros h. reflexivity.
Qed.

Lemma truthy_iff (s : string) : Str.truthy s = true <-> s <> "".
Proof. destruct s; simpl; split; congruence. Qed.

(** What the verification computes, for any options. *)
Lemma verifyHeliusSignature_spec (env : Env) (headers : Headers) (rawBody : string)
    (opts : option VerifyOptions) :
  let headerName :=
    match opts with Some (mkVerifyOptions (Some h) _) => h | _ => "x-helius-signature" end in
  let secret :=
    match opts with
    | Some (mkVerifyOptions _ (Some s)) => Some s
    | _ => processEnv env "HELIUS_WEBHOOK_SECRET"
    end in
  verifyHeliusSignature env headers rawBody opts = true
  <-> exists s, secret = Some s /\ s <> ""
                /\ getHeader headers headerName = Some (Crypto.hmacSha256Hex s rawBody).
Proof.
  intros headerName secret. unfold verifyHeliusSignature. fold headerName secret.
  destruct secret as [s|]; [| split; [discriminate | intros (s & E & _); discriminate E]].
  destruct (getHeader headers headerName) as [p|];
    [| split; [discriminate | intros (s' & _ & _ & E); discriminate E]].
  split.
  - intros H.
    destruct (Str.truthy s) eqn:Hs; [| discriminate H].
    destruct (Str.truthy p) eqn:Hp; [| discriminate H].
    cbn [negb orb] in H.
    destruct (Nat.eqb _ _) eqn:Hlen; [| discriminate H].
    cbn [negb] in H. apply Nat.eqb_eq in Hlen. apply Z.eqb_eq in H.
    apply (xorFold_zero_iff _ _ 0 Hlen) in H. destruct H as [_ H].
    exists s. split; [reflexivity |]. split; [now apply truthy_iff | now rewrite H].
  - intros (s' & E & Hs & Ep). injection E as E. subst s'. injection Ep as Ep. subst p.
    apply truthy_iff in Hs. rewrite Hs, hmacSha256Hex_truthy. cbn [negb orb].
    rewrite Nat.eqb_refl. cbn [negb]. apply Z.eqb_eq.
    apply xorFold_zero_iff; [reflexivity | now split].
Qed.

(** C4. [verifyHeliusSignature(headers, rawBody)] returns false when the
    secret is missing (unset or empty), when the signature header is
    missing, and when the provided string differs in length or in any
    character from the hex HMAC-SHA256 of the raw body under the secret;
    with a secret in place it returns true if and only if the provided
    header equals that digest exactly. *)
Theorem verifyHeliusSignature_exact (env : Env) (headers : Headers) (rawBody : string) :
  let secret := processEnv env "HELIUS_WEBHOOK_SECRET" in
  let provided := getHeader headers "x-helius-signature" in
  let verified := verifyHeliusSignature env headers rawBody None in
  (secret = None \/ secret = Some "" -> verified = false)
  /\ (provided = None -> verified = false)
  /\ (forall s p, secret = Some s -> s <> "" -> provided = Some p ->
        let expected := Crypto.hmacSha256Hex s rawBody in
        (String.length p <> String.length expected -> verified = false)
        /\ ((exists i, String.get i p <> String.get i expected) -> verified = false)
        /\ (verified = true <-> p = expected)).
Proof.
  intros secret provided verified.
  pose proof (verifyHeliusSignature_spec env headers rawBody None) as Hspec.
  cbv beta iota zeta in Hspec. fold secret provided verified in Hspec.
  assert (Hfalse : forall P : Prop, (verified = true -> P) -> ~ P -> verified = false).
  { intros P HP HnP. destruct verified; [exfalso; apply HnP, HP; reflexivity | reflexivity]. }
  split; [| split].
  - intros Hmissing. apply (Hfalse False); [| tauto].
    intros Hv. apply Hspec in Hv. destruct Hv as (s & E & Hs & _).
    destruct Hmissing as [Hm | Hm]; rewrite Hm in E; [discriminate E |].
    injection E as <-. now apply Hs.
  - intros Hmissing. apply (Hfalse False); [| tauto].
    intros Hv. apply Hspec in Hv. destruct Hv as (s & _ & _ & E).
    rewrite Hmissing in E. discriminate E.
  - intros s p Hsecret Hs Hprovided expected.
    assert (Hiff : verified = true <-> p = expected).
    { rewrite Hspec. split.
      - intros (s' & E & _ & Ep). rewrite Hsecret in E. injection E as <-.
        rewrite Hprovided in Ep. now injection Ep.
      - intros ->. exists s. now repeat split. }
    split; [| split; [| exact Hiff]].
    + intros Hlen. apply (Hfalse (p = expected)); [apply Hiff |].
      intros ->. now apply Hlen.
    + intros [i Hi]. apply (Hfalse (p = expected)); [apply Hiff |].
      intros ->. now apply Hi.
Qed.

(** The key and message of RFC 4231, test case 2: the right digest under
    a header name in capitals, the digest with its last digit changed, no
    secret, no header. *)
Lemma verifyHeliusSignature_exact_witness :
  verifyHeliusSignature (mockEnv permissiveVars 1700000000000 None)
    [("X-Helius-Signature",
      HString "5bdcc146bf60754e6a042426089575c75a003f089d2739839dec58b964ec3843")]
    "what do ya want for nothing?" None = true
  /\ verifyHeliusSignature (mockEnv permissiveVars 1700000000000 None)
       [("x-helius-signature",
         HString "5bdcc146bf60754e6a042426089575c75a003f089d2739839dec58b964ec3842")]
       "what do ya want for nothing?" None = false
  /\ verifyHeliusSignature (mockEnv testVars 1700000000000 None)
       [("x-helius-signature",
         HString "5bdcc146bf60754e6a042426089575c75a003f089d2739839dec58b964ec3843")]
       "what do ya want for nothing?" None = false
  /\ verifyHeliusSignature (mockEnv permissiveVars 1700000000000 None)
       [("content-type", HString "application/json")]
       "what do ya want for nothing?" None = false.
Proof.
  split; [| split; [| split]].
  - destruct (verifyHeliusSignature_exact (mockEnv permissiveVars 1700000000000 None)
                [("X-Helius-Signature",
                  HString "5bdcc146bf60754e6a042426089575c75a003f089d2739839dec58b964ec3843")]
                "what do ya want for nothing?") as (_ & _ & Hdigest).
    destruct (Hdigest "Jefe"
                "5bdcc146bf60754e6a042426089575c75a003f089d2739839dec58b964ec3843"
                eq_refl ltac:(discriminate) eq_refl) as (_ & _ & Hiff).
    apply Hiff. vm_compute. reflexivity.
  - destruct (verifyHeliusSignature_exact (mockEnv permissiveVars 1700000000000 None)
                [("x-helius-signature",
                  HString "5bdcc146bf60754e6a042426089575c75a003f089d2739839dec58b964ec3842")]
                "what do ya want for nothing?") as (_ & _ & Hdigest).
    destruct (Hdigest "Jefe"
                "5bdcc146bf60754e6a042426089575c75a003f089d2739839dec58b964ec3842"
                eq_refl ltac:(discriminate) eq_refl) as (_ & Hchar & _).
    apply Hchar. exists 63%nat. vm_compute. discriminate.
  - destruct (verifyHeliusSignature_exact (mockEnv testVars 1700000000000 None)
                [("x-helius-signature",
                  HString "5bdcc146bf60754e6a042426089575c75a003f089d2739839dec58b964ec3843")]
                "what do ya want for nothing?") as (Hsecret & _ & _).
    apply Hsecret. left. reflexivity.
  - destruct (verifyHeliusSignature_exact (mockEnv permissiveVars 1700000000000 None)
                [("content-type", HString "application/json")]
                "what do ya want for nothing?") as (_ & Hheader & _).
    apply Hheader. reflexivity.
Defined.

End WebhookSignature.

(* ------------------------------------------------------------------ *)
(** ** Determinism and injectivity of the identities *)

Module IdentityInjectivity.

Import StrFacts Identity.

Example computeWebhookId_ex :
  computeWebhookId (mkWebhookIdParams (Some "wh-1") "5sig" None)
  = "b04c2203cfa4559a9e2f4df8b9afd34c99bff51526c5099f57db37bb084b6bbb".
Proof. vm_compute. reflexivity. Qed.

(** Counterexample to C5. [computeWebhookId] is not injective: a
    separator that moves between the webhook id and the signature, and a
    missing field against its default, leave the hashed string and so the
    identity unchanged. *)
Lemma computeWebhookId_collisions :
  mkWebhookIdParams (Some "a|b") "c" (Some 0) <> mkWebhookIdParams (Some "a") "b|c" (Some 0)
  /\ computeWebhookId (mkWebhookIdParams (Some "a|b") "c" (Some 0))
     = computeWebhookId (mkWebhookIdParams (Some "a") "b|c" (Some 0))
  /\ mkWebhookIdParams None "5sig" None <> mkWebhookIdParams (Some "") "5sig" (Some 0)
  /\ computeWebhookId (mkWebhookIdParams None "5sig" None)
     = computeWebhookId (mkWebhookIdParams (Some "") "5sig" (Some 0)).
Proof.
  split; [discriminate |]. split; [reflexivity |]. split; [discriminate | reflexivity].
Qed.

(** The hashed string determines the defaulted fields among inputs whose
    signatures hold equally many separators. *)
Lemma webhookIdInput_inj (p1 p2 : WebhookIdParams) :
  Str.count "|" (wp_txSignature p1) = Str.count "|" (wp_txSignature p2) ->
  webhookIdInput p1 = webhookIdInput p2 ->
  match wp_webhookId p1 with Some w => w | None => "" end
  = match wp_webhookId p2 with Some w => w | None => "" end
  /\ wp_txSignature p1 = wp_txSignature p2
  /\ match wp_index p1 with Some i => i | None => 0 end
     = match wp_index p2 with Some i => i | None => 0 end.
Proof.
  unfold webhookIdInput. intros Hc H.
  apply (append_sep_inj "|") in H.
  - destruct H as [Hw H]. split; [exact Hw |].
    apply (append_sep_inj "|") in H.
    + destruct H as [Hs Hi]. split; [exact Hs | now apply ofZ_inj].
    + now rewrite !count_ofZ by reflexivity.
  - rewrite !count_append, Hc. cbn [Str.count].
    now rewrite !count_ofZ by reflexivity.
Qed.

(** C5, as amended. [jobIdForDeadline], [jobIdForReminder] and
    [jobIdForEscalation] are deterministic and injective: equal inputs give
    equal identities and different inputs different ones.
    [computeWebhookId] is deterministic; it is the SHA-256 hex digest of
    [webhookId|txSignature|index], a missing [webhookId] read as the empty
    string and a missing [index] as 0, so inputs that build the same
    string share the identity; that string determines the three fields
    (after defaulting) among inputs whose signatures hold the same number
    of [|] characters. *)
Theorem identities_deterministic_and_injective :
  (forall j1 j2 : DeadlineJob, jobIdForDeadline j1 = jobIdForDeadline j2 <-> j1 = j2)
  /\ (forall j1 j2 : ReminderJob, jobIdForReminder j1 = jobIdForReminder j2 <-> j1 = j2)
  /\ (forall j1 j2 : EscalationJob, jobIdForEscalation j1 = jobIdForEscalation j2 <-> j1 = j2)
  /\ (forall p : WebhookIdParams,
        computeWebhookId p
        = Crypto.sha256Hex
            (match wp_webhookId p with Some w => w | None => "" end
             ++ "|" ++ wp_txSignature p ++ "|"
             ++ Str.ofZ (match wp_index p with Some i => i | None => 0 end)))
  /\ (forall p1 p2 : WebhookIdParams,
        webhookIdInput p1 = webhookIdInput p2 -> computeWebhookId p1 = computeWebhookId p2)
  /\ (forall p1 p2 : WebhookIdParams,
        Str.count "|" (wp_txSignature p1) = Str.count "|" (wp_txSignature p2) ->
        webhookIdInput p1 = webhookIdInput p2 ->
        match wp_webhookId p1 with Some w => w | None => "" end
        = match wp_webhookId p2 with Some w => w | None => "" end
        /\ wp_txSignature p1 = wp_txSignature p2
        /\ match wp_index p1 with Some i => i | None => 0 end
           = match wp_index p2 with Some i => i | None => 0 end).
Proof.
  split; [| split; [| split; [| split; [| split]]]].
  - intros j1 j2. split; [apply jobIdForDeadline_inj | now intros ->].
  - intros j1 j2. split; [apply jobIdForReminder_inj | now intros ->].
  - intros j1 j2. split; [apply jobIdForEscalation_inj | now intros ->].
  - intros p. reflexivity.
  - intros p1 p2 H. unfold computeWebhookId. now rewrite H.
  - exact webhookIdInput_inj.
Qed.

(** Two deadline jobs that differ in the nonce only, and two webhook
    inputs with signatures free of separators. *)
Lemma identities_deterministic_and_injective_witness :
  jobIdForDeadline (mkDeadlineJob "D:1" 1700000000 delivery 0)
  <> jobIdForDeadline (mkDeadlineJob "D:1" 1700000000 delivery 1)
  /\ (webhookIdInput (mkWebhookIdParams (Some "wh-1") "5sig" None)
      = webhookIdInput (mkWebhookIdParams (Some "wh-1") "5sig" (Some 0)) ->
      "wh-1" = "wh-1" /\ "5sig" = "5sig" /\ 0 = 0).
Proof.
  destruct identities_deterministic_and_injective as (Hd & _ & _ & _ & _ & Hw).
  split.
  - intros H. apply Hd in H. discriminate H.
  - apply (Hw (mkWebhookIdParams (Some "wh-1") "5sig" None)
              (mkWebhookIdParams (Some "wh-1") "5sig" (Some 0))).
    reflexivity.
Defined.

End IdentityInjectivity.

(* ------------------------------------------------------------------ *)
(** ** Queue producers *)

Module Scheduling.

Import DeadlineProcessor.

Lemma queueAvailable_getQueue (env : Env) (name : string) (log : Log) :
  queueAvailable env -> getQueue env name log = (Ok name, log).
Proof.
  intros (url & E & Hurl). unfold getQueue. rewrite E.
  destruct url; [contradiction | reflexivity].
Qed.

Lemma scheduleDeadline_run (env : Env) (input : DeadlineJob) (log : Log) :
  DeadlineJobSchema input = true ->
  queueAvailable env ->
  let delay := Z.max 0 (dj_deadlineAt input * 1000 - clock env log) in
  let log' := (log ++ [QueueAdd (mkAddRequest "deadlines" "deadlines" (JDeadline input)
                                   (jobIdForDeadline input) (Some delay))])%list in
  scheduleDeadline env input log = (queue_add env log', log').
Proof.
  intros Hvalid Hq delay log'. unfold scheduleDeadline, getDeadlinesQueue. run_m.
  rewrite Hvalid. run_m. rewrite (queueAvailable_getQueue env _ _ Hq). reflexivity.
Qed.

Lemma scheduleReminder_run (env : Env) (input : ReminderJob) (log : Log) :
  ReminderJobSchema input = true ->
  queueAvailable env ->
  let delay := Z.max 0 (rj_notifyAt input * 1000 - clock env log) in
  let log' := (log ++ [QueueAdd (mkAddRequest "reminders" "reminders" (JReminder input)
                                   (jobIdForReminder input) (Some delay))])%list in
  scheduleReminder env input log = (queue_add env log', log').
Proof.
  intros Hvalid Hq delay log'. unfold scheduleReminder, getRemindersQueue. run_m.
  rewrite Hvalid. run_m. rewrite (queueAvailable_getQueue env _ _ Hq). reflexivity.
Qed.

Lemma enqueueEscalation_run (env : Env) (input : EscalationJob) (log : Log) :
  EscalationJobSchema input = true ->
  queueAvailable env ->
  let log' := (log ++ [QueueAdd (mkAddRequest "escalation" "escalation" (JEscalation input)
                                   (jobIdForEscalation input) None)])%list in
  enqueueEscalation env input log = (queue_add env log', log').
Proof.
  intros Hvalid Hq log'. unfold enqueueEscalation, getEscalationQueue. run_m.
  rewrite Hvalid. run_m. rewrite (queueAvailable_getQueue env _ _ Hq). reflexivity.
Qed.

Lemma prefix_empty (s : string) : String.prefix "" s = true.
Proof. destruct s; reflexivity. Qed.

(** Every identity of the full-plan producer starts with [escrow:]. *)
Lemma planIdentity_prefix (schedule : EscrowSchedule) (r : AddRequest) :
  planIdentity schedule r -> String.prefix "escrow:" (add_jobId r) = true.
Proof.
  intros [-> | [-> | (m & _ & ->)]]; cbn; apply prefix_empty.
Qed.

(** What the reminder loop of the full-plan producer adds to the log. *)
Lemma scheduleEscrowReminders_adds (env : Env) (queues : EscrowQueues)
    (schedule : EscrowSchedule) (now : Z) (offsets : list Z) (log : Log) :
  incl offsets (es_reminderMinutesBefore schedule) ->
  exists new,
    logAfter (scheduleEscrowReminders env queues (es_escrowPubkey schedule)
                (es_deliveryAtMs schedule) now offsets) log
    = (log ++ new)%list
    /\ Forall (fun r => positiveTimerDelay r /\ planIdentity schedule r) (addRequests new).
Proof.
  revert log. induction offsets as [|m rest IH]; intros log Hincl.
  - exists []. split; [unfold logAfter; cbn; now rewrite app_nil_r | constructor].
  - assert (Hrest : incl rest (es_reminderMinutesBefore schedule))
      by (intros x Hx; apply Hincl; now right).
    cbn [scheduleEscrowReminders].
    destruct (es_deliveryAtMs schedule - now - m * 60 * 1000 <=? 0) eqn:Hskip.
    + now apply IH.
    + apply Z.leb_gt in Hskip.
      set (r := mkAddRequest (eq_reminderQueue queues) "reminder"
                  (JEscrowReminder (es_escrowPubkey schedule) (es_deliveryAtMs schedule) m)
                  (escrowReminderJobId (es_escrowPubkey schedule) m)
                  (Some (es_deliveryAtMs schedule - now - m * 60 * 1000))).
      assert (Hr : positiveTimerDelay r /\ planIdentity schedule r).
      { split; [exists (es_deliveryAtMs schedule - now - m * 60 * 1000); now split |].
        right. right. exists m. split; [apply Hincl; now left | reflexivity]. }
      unfold logAfter. run_m. fold r.
      destruct (queue_add env (log ++ [QueueAdd r])%list).
      * destruct (IH (log ++ [QueueAdd r])%list Hrest) as (new & Hlog & Hall).
        unfold logAfter in Hlog. exists (QueueAdd r :: new). split.
        -- rewrite Hlog, <- app_assoc. reflexivity.
        -- cbn [addRequests]. now constructor.
      * exists [QueueAdd r]. split; [reflexivity |].
        cbn [addRequests]. constructor; [exact Hr | constructor].
Qed.

Lemma scheduleEscrowJobs_adds (env : Env) (queues : EscrowQueues) (schedule : EscrowSchedule)
    (log : Log) :
  exists new,
    logAfter (scheduleEscrowJobs env queues schedule) log = (log ++ new)%list
    /\ Forall (fun r => positiveTimerDelay r /\ planIdentity schedule r) (addRequests new).
Proof.
  unfold logAfter, scheduleEscrowJobs. run_m.
  destruct (es_deliveryAtMs schedule <=? clock env log) eqn:Hpast.
  - exists []. split; [cbn; now rewrite app_nil_r | constructor].
  - apply Z.leb_gt in Hpast.
    set (d := mkAddRequest (eq_deadlineQueue queues) "deadline"
                (JEscrowDeadline (es_escrowPubkey schedule) (es_deliveryAtMs schedule))
                (escrowDeadlineJobId (es_escrowPubkey schedule))
                (Some (es_deliveryAtMs schedule - clock env log))).
    assert (Hd : positiveTimerDelay d /\ planIdentity schedule d).
    { split; [exists (es_deliveryAtMs schedule - clock env log); split; [reflexivity | lia]
             | now left]. }
    destruct (queue_add env (log ++ [QueueAdd d])%list).
    + destruct (scheduleEscrowReminders_adds env queues schedule (clock env log)
                  (es_reminderMinutesBefore schedule) (log ++ [QueueAdd d])%list
                  (incl_refl _))
        as (new & Hlog & Hall).
      unfold logAfter in Hlog.
      destruct (scheduleEscrowReminders env queues (es_escrowPubkey schedule)
                  (es_deliveryAtMs schedule) (clock env log)
                  (es_reminderMinutesBefore schedule) (log ++ [QueueAdd d])%list)
        as [[[]|e] log2] eqn:Hrem; cbn [snd] in Hlog; subst log2.
      * set (x := mkAddRequest (eq_escalationQueue queues) "escalation"
                    (JEscrowEscalation (es_escrowPubkey schedule) (es_deliveryAtMs schedule)
                                       (es_disputeWindowSeconds schedule))
                    (escrowEscalationJobId (es_escrowPubkey schedule))
                    (Some (es_deliveryAtMs schedule - clock env log
                           + es_disputeWindowSeconds schedule * 1000))).
        exists (QueueAdd d :: new ++ [QueueAdd x])%list. split.
        -- cbn [snd]. rewrite <- !app_assoc. reflexivity.
        -- cbn [addRequests]. constructor; [exact Hd |].
           rewrite addRequests_app. apply Forall_app. split; [exact Hall |].
           cbn [addRequests]. constructor; [| constructor].
           split; [exact I | right; now left].
      * exists (QueueAdd d :: new). split.
        -- cbn [snd]. rewrite <- app_assoc. reflexivity.
        -- cbn [addRequests]. now constructor.
    + exists [QueueAdd d]. split; [reflexivity |].
      cbn [addRequests]. constructor; [exact Hd | constructor].
Qed.

(** Counterexample to C9. The full-plan producer has no floor: ten
    seconds after the delivery time it enqueues nothing, where the claim
    asks for a job at delay 0. *)
Lemma full_plan_skips_past_delivery :
  es_deliveryAtMs (mkEscrowSchedule "D-1" 1699999990000 [1440; 60] 172800)
  <= clock (mockEnv testVars 1700000000000 None) []
  /\ scheduleEscrowJobs (mockEnv testVars 1700000000000 None) carEscrowQueues
       (mkEscrowSchedule "D-1" 1699999990000 [1440; 60] 172800) []
     = (Ok tt, [])
  /\ addRequests
       (logAfter (scheduleEscrowJobs (mockEnv testVars 1700000000000 None) carEscrowQueues
                    (mkEscrowSchedule "D-1" 1699999990000 [1440; 60] 172800)) [])
     = [].
Proof.
  split; [cbn; lia |]. split; reflexivity.
Qed.

(** C9, as amended. [scheduleDeadline] and [scheduleReminder] floor the
    delay: for a valid payload (and a configured queue) they enqueue one
    job whose delay is [max(0, target * 1000 - now)], never negative, and 0
    when the target time is at or before the current time. The full-plan
    producer [scheduleEscrowJobs] has no floor: when [deliveryAtMs <= now]
    it enqueues nothing, and the deadline and reminder jobs it does enqueue
    carry a strictly positive delay (reminders that would fire at or
    before now are skipped). *)
Theorem past_deadline_floor (env : Env) (log : Log) :
  let now := clock env log in
  (forall input : DeadlineJob,
     DeadlineJobSchema input = true -> queueAvailable env ->
     let delay := Z.max 0 (dj_deadlineAt input * 1000 - now) in
     logAfter (scheduleDeadline env input) log
     = (log ++ [QueueAdd (mkAddRequest "deadlines" "deadlines" (JDeadline input)
                            (jobIdForDeadline input) (Some delay))])%list
     /\ 0 <= delay
     /\ (dj_deadlineAt input * 1000 <= now -> delay = 0)
     /\ (dj_deadlineAt input <= now / 1000 -> delay = 0))
  /\ (forall input : ReminderJob,
     ReminderJobSchema input = true -> queueAvailable env ->
     let delay := Z.max 0 (rj_notifyAt input * 1000 - now) in
     logAfter (scheduleReminder env input) log
     = (log ++ [QueueAdd (mkAddRequest "reminders" "reminders" (JReminder input)
                            (jobIdForReminder input) (Some delay))])%list
     /\ 0 <= delay
     /\ (rj_notifyAt input * 1000 <= now -> delay = 0)
     /\ (rj_notifyAt input <= now / 1000 -> delay = 0))
  /\ (forall (queues : EscrowQueues) (schedule : EscrowSchedule),
     es_deliveryAtMs schedule <= now ->
     scheduleEscrowJobs env queues schedule log = (Ok tt, log))
  /\ (forall (queues : EscrowQueues) (schedule : EscrowSchedule),
     exists new,
       logAfter (scheduleEscrowJobs env queues schedule) log = (log ++ new)%list
       /\ Forall positiveTimerDelay (addRequests new)).
Proof.
  intros now.
  assert (Hsec : forall t, t <= now / 1000 -> t * 1000 <= now).
  { intros t Ht. pose proof (Z.mul_div_le now 1000 ltac:(lia)). lia. }
  split; [| split; [| split]].
  - intros input Hvalid Hq delay.
    unfold logAfter. rewrite (scheduleDeadline_run env input log Hvalid Hq). cbn [snd].
    fold now delay. split; [reflexivity |]. unfold delay.
    split; [lia |]. split; [lia |]. intros Ht. apply Hsec in Ht. lia.
  - intros input Hvalid Hq delay.
    unfold logAfter. rewrite (scheduleReminder_run env input log Hvalid Hq). cbn [snd].
    fold now delay. split; [reflexivity |]. unfold delay.
    split; [lia |]. split; [lia |]. intros Ht. apply Hsec in Ht. lia.
  - intros queues schedule Hpast. unfold scheduleEscrowJobs. run_m. fold now.
    apply Z.leb_le in Hpast. rewrite Hpast. reflexivity.
  - intros queues schedule.
    destruct (scheduleEscrowJobs_adds env queues schedule log) as (new & Hlog & Hall).
    exists new. split; [exact Hlog |].
    eapply Forall_impl; [| exact Hall]. now intros r [Hr _].
Qed.

(** A delivery deadline ten seconds in the past, a reminder due at this
    very second, and a full plan for a delivery in 72 hours. *)
Lemma past_deadline_floor_witness :
  logAfter (scheduleDeadline (mockEnv testVars 1700000000000 None)
              (mkDeadlineJob "D-1" 1699999990 delivery 0)) []
  = [QueueAdd (mkAddRequest "deadlines" "deadlines"
                 (JDeadline (mkDeadlineJob "D-1" 1699999990 delivery 0))
                 "deadline:D-1:1699999990:delivery:0" (Some 0))]
  /\ logAfter (scheduleReminder (mockEnv testVars 1700000000000 None)
                 (mkReminderJob "D-1" 1700000000 both deadline_upcoming)) []
     = [QueueAdd (mkAddRequest "reminders" "reminders"
                    (JReminder (mkReminderJob "D-1" 1700000000 both deadline_upcoming))
                    "reminder:D-1:1700000000:both:deadline-upcoming" (Some 0))]
  /\ scheduleEscrowJobs (mockEnv testVars 1700000000000 None) carEscrowQueues
       (mkEscrowSchedule "D-1" 1700000000000 [60] 172800) []
     = (Ok tt, []).
Proof.
  destruct (past_deadline_floor (mockEnv testVars 1700000000000 None) [])
    as (Hdeadline & Hreminder & Hpast & _).
  assert (Hq : queueAvailable (mockEnv testVars 1700000000000 None)).
  { exists "redis://localhost:6379". split; [reflexivity | discriminate]. }
  split; [| split].
  - exact (proj1 (Hdeadline (mkDeadlineJob "D-1" 1699999990 delivery 0) eq_refl Hq)).
  - exact (proj1 (Hreminder (mkReminderJob "D-1" 1700000000 both deadline_upcoming)
                    eq_refl Hq)).
  - apply Hpast. cbn. lia.
Defined.

(** Counterexample to C3. The same logical timers through the two
    styles: a delivery deadline 72 hours ahead with its reminder 24 hours
    before. The identities differ. *)
Lemma styles_disagree_on_identities :
  map add_jobId
    (addRequests (logAfter (scheduleDeadline (mockEnv testVars 1700000000000 None)
                              (mkDeadlineJob "D-1" 1700259200 delivery 0)) []))
  = ["deadline:D-1:1700259200:delivery:0"]
  /\ map add_jobId
       (addRequests (logAfter (scheduleReminder (mockEnv testVars 1700000000000 None)
                                 (mkReminderJob "D-1" 1700172800 both deadline_upcoming)) []))
     = ["reminder:D-1:1700172800:both:deadline-upcoming"]
  /\ map add_jobId
       (addRequests (logAfter (scheduleEscrowJobs (mockEnv testVars 1700000000000 None)
                                 carEscrowQueues
                                 (mkEscrowSchedule "D-1" 1700259200000 [1440] 172800)) []))
     = ["escrow:D-1:deadline"; "escrow:D-1:reminder:1440m"; "escrow:D-1:escalation"]
  /\ jobIdForDeadline (mkDeadlineJob "D-1" 1700259200 delivery 0) <> escrowDeadlineJobId "D-1"
  /\ jobIdForReminder (mkReminderJob "D-1" 1700172800 both deadline_upcoming)
     <> escrowReminderJobId "D-1" 1440.
Proof.
  split; [reflexivity |]. split; [reflexivity |]. split; [reflexivity |].
  split; discriminate.
Qed.

Lemma eventIdentity_prefix (d : DeadlineJob) (r : ReminderJob) (e : EscalationJob) :
  String.prefix "escrow:" (jobIdForDeadline d) = false
  /\ String.prefix "escrow:" (jobIdForReminder r) = false
  /\ String.prefix "escrow:" (jobIdForEscalation e) = false.
Proof. repeat split. Qed.

(** C3, as amended. The two scheduling styles do not share identities.
    The event-derived producers enqueue under
    [deadline:<dealId>:<deadlineAt>:<kind>:<nonce>],
    [reminder:<dealId>:<notifyAt>:<for>:<reason>] and
    [escalation:<dealId>:<reason>:<suggested>]; the full-plan producer
    under [escrow:<pubkey>:deadline], [escrow:<pubkey>:reminder:<m>m] and
    [escrow:<pubkey>:escalation]. Each identity depends on the timer's own
    fields and not on the clock, so re-invocation through the same style
    meets the same identities; an identity of one style never equals an
    identity of the other, so re-invocation through one style does not
    deduplicate against the other. *)
Theorem styles_never_share_an_identity (env : Env) (log : Log) :
  (forall input : DeadlineJob,
     DeadlineJobSchema input = true -> queueAvailable env ->
     map add_jobId (addRequests (logAfter (scheduleDeadline env input) log))
     = (map add_jobId (addRequests log) ++ [jobIdForDeadline input])%list)
  /\ (forall input : ReminderJob,
     ReminderJobSchema input = true -> queueAvailable env ->
     map add_jobId (addRequests (logAfter (scheduleReminder env input) log))
     = (map add_jobId (addRequests log) ++ [jobIdForReminder input])%list)
  /\ (forall input : EscalationJob,
     EscalationJobSchema input = true -> queueAvailable env ->
     map add_jobId (addRequests (logAfter (enqueueEscalation env input) log))
     = (map add_jobId (addRequests log) ++ [jobIdForEscalation input])%list)
  /\ (forall (queues : EscrowQueues) (schedule : EscrowSchedule),
     exists new,
       logAfter (scheduleEscrowJobs env queues schedule) log = (log ++ new)%list
       /\ Forall (planIdentity schedule) (addRequests new))
  /\ (forall (schedule : EscrowSchedule) (x : AddRequest) (d : DeadlineJob) (r : ReminderJob)
            (e : EscalationJob),
     planIdentity schedule x ->
     add_jobId x <> jobIdForDeadline d
     /\ add_jobId x <> jobIdForReminder r
     /\ add_jobId x <> jobIdForEscalation e).
Proof.
  split; [| split; [| split; [| split]]].
  - intros input Hvalid Hq. unfold logAfter.
    rewrite (scheduleDeadline_run env input log Hvalid Hq). cbn [snd].
    rewrite addRequests_app, map_app. reflexivity.
  - intros input Hvalid Hq. unfold logAfter.
    rewrite (scheduleReminder_run env input log Hvalid Hq). cbn [snd].
    rewrite addRequests_app, map_app. reflexivity.
  - intros input Hvalid Hq. unfold logAfter.
    rewrite (enqueueEscalation_run env input log Hvalid Hq). cbn [snd].
    rewrite addRequests_app, map_app. reflexivity.
  - intros queues schedule.
    destruct (scheduleEscrowJobs_adds env queues schedule log) as (new & Hlog & Hall).
    exists new. split; [exact Hlog |].
    eapply Forall_impl; [| exact Hall]. now intros x [_ Hx].
  - intros schedule x d r e Hx. apply planIdentity_prefix in Hx.
    destruct (eventIdentity_prefix d r e) as (Hd & Hr & He).
    repeat split; intros E; rewrite E in Hx; congruence.
Qed.

(** The deadline of the example above against every identity of the full
    plan for the same deal. *)
Lemma styles_never_share_an_identity_witness :
  map add_jobId
    (addRequests (logAfter (scheduleDeadline (mockEnv testVars 1700000000000 None)
                              (mkDeadlineJob "D-1" 1700259200 delivery 0)) []))
  = ["deadline:D-1:1700259200:delivery:0"]
  /\ escrowReminderJobId "D-1" 1440
     <> jobIdForDeadline (mkDeadlineJob "D-1" 1700259200 delivery 0).
Proof.
  destruct (styles_never_share_an_identity (mockEnv testVars 1700000000000 None) [])
    as (Hdeadline & _ & _ & _ & Hdisjoint).
  split.
  - apply (Hdeadline (mkDeadlineJob "D-1" 1700259200 delivery 0) eq_refl).
    exists "redis://localhost:6379". split; [reflexivity | discriminate].
  - destruct (Hdisjoint (mkEscrowSchedule "D-1" 1700259200000 [1440] 172800)
                (mkAddRequest "escrow:reminder" "reminder"
                   (JEscrowReminder "D-1" 1700259200000 1440)
                   "escrow:D-1:reminder:1440m" (Some 172800000))
                (mkDeadlineJob "D-1" 1700259200 delivery 0)
                (mkReminderJob "D-1" 1700172800 both deadline_upcoming)
                (mkEscalationJob "D-1" no_delivery REVIEW)) as (Hd & _ & _).
    + right. right. exists 1440. split; [now left | reflexivity].
    + exact Hd.
Defined.

End Scheduling.

(* ------------------------------------------------------------------ *)
(** ** Webhook router *)

Module WebhookRouter.

Import DeadlineProcessor.

Lemma bind_ok_inv {A B : Type} (m : M A) (k : A -> M B) (log log' : Log) (b : B) :
  bind m k log = (Ok b, log') ->
  exists a l, m log = (Ok a, l) /\ k a l = (Ok b, log').
Proof.
  unfold bind. destruct (m log) as [[a|e] l]; intros H; [| discriminate H].
  now exists a, l.
Qed.

(** A turn of the [switch] that completes has counted its event once. *)
Lemma routeEvent_counts (env : Env) (nowSec : Z) (e : WebhookEvent) (c c' : Counts)
    (log log' : Log) :
  routeEvent env nowSec e c log = (Ok c', log') ->
  c' = mkCounts (accepted c + 1) (ignored c) \/ c' = mkCounts (accepted c) (ignored c + 1).
Proof.
  unfold routeEvent. destruct (ev_effect e); intros H.
  1, 2: apply bind_ok_inv in H; destruct H as (snap & l1 & _ & H);
        apply bind_ok_inv in H; destruct H as (u & l2 & _ & H);
        unfold ret in H; injection H as <- _; now left.
  all: unfold ret in H; injection H as <- _; now right.
Qed.

(** The [try]/[catch] around a turn never lets an error out. *)
Lemma routeEventIsolated_total (env : Env) (nowSec : Z) (e : WebhookEvent) (c : Counts)
    (log : Log) :
  exists c' log',
    routeEventIsolated env nowSec e c log = (Ok c', log')
    /\ (c' = mkCounts (accepted c + 1) (ignored c) \/ c' = mkCounts (accepted c) (ignored c + 1))
    /\ (forall err l, routeEvent env nowSec e c log = (Throw err, l) ->
          c' = mkCounts (accepted c) (ignored c + 1) /\ log' = l).
Proof.
  unfold routeEventIsolated, tryCatch.
  destruct (routeEvent env nowSec e c log) as [[c1|err] l1] eqn:Hrun.
  - exists c1, l1. split; [reflexivity |]. split.
    + eapply routeEvent_counts. exact Hrun.
    + intros err l H. discriminate H.
  - exists (mkCounts (accepted c) (ignored c + 1)), l1. split; [reflexivity |]. split.
    + now right.
    + intros err' l H. injection H as _ <-. now split.
Qed.

(** The loop completes, and every event is counted once. *)
Lemma routeEvents_total (env : Env) (nowSec : Z) (events : list WebhookEvent) (c : Counts)
    (log : Log) :
  exists c' log',
    routeEvents env nowSec events c log = (Ok c', log')
    /\ accepted c' + ignored c' = accepted c + ignored c + Z.of_nat (List.length events)
    /\ accepted c <= accepted c' /\ ignored c <= ignored c'.
Proof.
  revert c log. induction events as [|e rest IH]; intros c log.
  - exists c, log. split; [reflexivity |]. cbn. lia.
  - destruct (routeEventIsolated_total env nowSec e c log) as (c1 & l1 & Hone & Hcount & _).
    destruct (IH c1 l1) as (c2 & l2 & Hrest & Hsum & Ha & Hi).
    exists c2, l2. split.
    + cbn [routeEvents]. unfold bind. rewrite Hone. exact Hrest.
    + cbn [List.length]. rewrite Nat2Z.inj_succ.
      destruct Hcount as [-> | ->]; cbn [accepted ignored] in *; lia.
Qed.

(** The events a parsed body normalizes to. *)
Lemma normalizeHeliusWebhook_parsed (env : Env) (intake : Intake) (rawBody : string)
    (headers : Headers) (json : Json) (log : Log) :
  JSON_parse intake rawBody = Some json ->
  exists events, normalizeHeliusWebhook env intake rawBody headers log = (Ok events, log).
Proof.
  intros Hparse. unfold normalizeHeliusWebhook. rewrite Hparse. run_m.
  eexists. reflexivity.
Qed.

(** C7. [handleHeliusWebhookRequest] answers 401, with no effect at all,
    when the signature verification fails; 400 when the raw body is not
    parseable JSON; and otherwise 200 with the counts [{accepted, ignored}],
    in which every normalized event is counted once. An error thrown while
    one event is processed adds one to [ignored] and the loop goes on with
    the remaining events. *)
Theorem webhook_statuses_and_isolation (env : Env) (intake : Intake) (req : WebhookRequest)
    (log : Log) :
  let verified := verifyHeliusSignature env (req_headers req) (req_rawBody req) None in
  (verified = false ->
     handleHeliusWebhookRequest env intake req log
     = (Ok (mkWebhookResponse 401
              (mkResponseBody false None None (Some "signature verification failed"))), log))
  /\ (verified = true -> JSON_parse intake (req_rawBody req) = None ->
     handleHeliusWebhookRequest env intake req log
     = (Ok (mkWebhookResponse 400 (mkResponseBody false None None (Some "malformed json"))),
        log))
  /\ (verified = true ->
     forall json, JSON_parse intake (req_rawBody req) = Some json ->
     exists events c log',
       normalizeHeliusWebhook env intake (req_rawBody req) (req_headers req) log
       = (Ok events, log)
       /\ routeEvents env (clock env log / 1000) events (mkCounts 0 0) log = (Ok c, log')
       /\ handleHeliusWebhookRequest env intake req log
          = (Ok (mkWebhookResponse 200
                   (mkResponseBody true (Some (accepted c)) (Some (ignored c)) None)), log')
       /\ accepted c + ignored c = Z.of_nat (List.length events)
       /\ 0 <= accepted c /\ 0 <= ignored c)
  /\ (forall (nowSec : Z) (e : WebhookEvent) (rest : list WebhookEvent) (c : Counts)
            (l l' : Log) (err : Error),
     routeEvent env nowSec e c l = (Throw err, l') ->
     routeEvents env nowSec (e :: rest) c l
     = routeEvents env nowSec rest (mkCounts (accepted c) (ignored c + 1)) l'
     /\ exists c' l'',
          routeEvents env nowSec (e :: rest) c l = (Ok c', l'')
          /\ accepted c' + ignored c'
             = accepted c + ignored c + 1 + Z.of_nat (List.length rest)
          /\ ignored c + 1 <= ignored c').
Proof.
  intros verified.
  split; [| split; [| split]].
  - intros Hv. unfold handleHeliusWebhookRequest. fold verified. rewrite Hv. reflexivity.
  - intros Hv Hparse. unfold handleHeliusWebhookRequest. fold verified. rewrite Hv.
    cbn [negb]. unfold normalizeHeliusWebhook. rewrite Hparse. reflexivity.
  - intros Hv json Hparse.
    destruct (normalizeHeliusWebhook_parsed env intake (req_rawBody req) (req_headers req)
                json log Hparse) as (events & Hnorm).
    destruct (routeEvents_total env (clock env log / 1000) events (mkCounts 0 0) log)
      as (c & log' & Hroute & Hsum & Ha & Hi).
    cbn [accepted ignored] in Hsum, Ha, Hi.
    exists events, c, log'. split; [exact Hnorm |]. split; [exact Hroute |].
    split; [| split; [lia | split; assumption]].
    unfold handleHeliusWebhookRequest. fold verified. rewrite Hv. cbn [negb].
    unfold tryCatch at 1. unfold bind at 1. unfold bind at 1. rewrite Hnorm.
    unfold ret at 1. cbv beta iota.
    destruct events as [|e rest].
    + cbn [routeEvents] in Hroute. unfold ret in Hroute. injection Hroute as <- <-.
      reflexivity.
    + run_m. rewrite Hroute. reflexivity.
  - intros nowSec e rest c l l' err Hthrow.
    assert (Hstep : routeEvents env nowSec (e :: rest) c l
                    = routeEvents env nowSec rest (mkCounts (accepted c) (ignored c + 1)) l').
    { cbn [routeEvents]. unfold bind, routeEventIsolated, tryCatch. rewrite Hthrow.
      reflexivity. }
    split; [exact Hstep |].
    destruct (routeEvents_total env nowSec rest (mkCounts (accepted c) (ignored c + 1)) l')
      as (c' & l'' & Hrest & Hsum & Ha & Hi).
    cbn [accepted ignored] in Hsum, Ha, Hi.
    exists c', l''. rewrite Hstep. split; [exact Hrest |]. split; lia.
Qed.

(** The fifth scenario of the specification: a verified webhook with one
    funded event, the snapshot's delivery deadline 72 hours ahead. One
    delivery deadline at [now + 72h], one reminder at [now + 48h],
    [{accepted: 1, ignored: 0}]. *)
Example webhook_funded_event_scenario :
  handleHeliusWebhookRequest
    (mockEnv permissiveVars 1700000000000 (Some (mkMockSnapshot FUNDED (Some 1700259200) None)))
    standInIntake
    (mkWebhookRequest
       [("x-helius-signature",
         HString "24be8278bedc106aef987a5439bb1cdda2be4ef65dfecf4926a5e5a06641cd27")]
       fundedBody) []
  = (Ok (mkWebhookResponse 200 (mkResponseBody true (Some 1) (Some 0) None)),
     [ GetDealSnapshot "D-1";
       QueueAdd (mkAddRequest "deadlines" "deadlines"
                   (JDeadline (mkDeadlineJob "D-1" 1700259200 delivery 0))
                   "deadline:D-1:1700259200:delivery:0" (Some 259200000));
       QueueAdd (mkAddRequest "reminders" "reminders"
                   (JReminder (mkReminderJob "D-1" 1700172800 both deadline_upcoming))
                   "reminder:D-1:1700172800:both:deadline-upcoming" (Some 172800000)) ]).
Proof. vm_compute. reflexivity. Qed.

Example normalizeHeliusWebhook_funded :
  normalizeHeliusWebhook (mockEnv permissiveVars 1700000000000 None) standInIntake
    fundedBody [] []
  = (Ok [mkWebhookEvent "70eac1999833163b9da31db28844d58f119065e472ecbbf8dd129b35dcc811e9"
           "5sigsigsig" 0 1700000000 (deal_funded "D-1")], []).
Proof. vm_compute. reflexivity. Qed.

(** A wrong signature (the fourth scenario), a verified body that is not
    JSON, a verified body with one event, and a batch whose first event
    fails because the API is down. *)
Lemma webhook_statuses_and_isolation_witness :
  handleHeliusWebhookRequest (mockEnv permissiveVars 1700000000000 None) standInIntake
    (mkWebhookRequest
       [("x-helius-signature",
         HString "24be8278bedc106aef987a5439bb1cdda2be4ef65dfecf4926a5e5a06641cd28")]
       fundedBody) []
  = (Ok (mkWebhookResponse 401
           (mkResponseBody false None None (Some "signature verification failed"))), [])
  /\ handleHeliusWebhookRequest (mockEnv permissiveVars 1700000000000 None) standInIntake
       (mkWebhookRequest
          [("x-helius-signature",
            HString "53c01fed5880a38f75c9753be2184eab19f54a8c21a37a72fed8a8321dc2e40c")]
          "not json") []
     = (Ok (mkWebhookResponse 400 (mkResponseBody false None None (Some "malformed json"))),
        [])
  /\ (exists events c log',
        normalizeHeliusWebhook (mockEnv permissiveVars 1700000000000 None) standInIntake
          fundedBody
          [("x-helius-signature",
            HString "24be8278bedc106aef987a5439bb1cdda2be4ef65dfecf4926a5e5a06641cd27")] []
        = (Ok events, [])
        /\ routeEvents (mockEnv permissiveVars 1700000000000 None)
             (clock (mockEnv permissiveVars 1700000000000 None) [] / 1000) events
             (mkCounts 0 0) []
           = (Ok c, log')
        /\ handleHeliusWebhookRequest (mockEnv permissiveVars 1700000000000 None)
             standInIntake
             (mkWebhookRequest
                [("x-helius-signature",
                  HString "24be8278bedc106aef987a5439bb1cdda2be4ef65dfecf4926a5e5a06641cd27")]
                fundedBody) []
           = (Ok (mkWebhookResponse 200
                    (mkResponseBody true (Some (accepted c)) (Some (ignored c)) None)), log')
        /\ accepted c + ignored c = Z.of_nat (List.length events)
        /\ 0 <= accepted c /\ 0 <= ignored c)
  /\ routeEvents (mockEnv permissiveVars 1700000000000 None) 1700000000
       [ mkWebhookEvent "70eac1999833163b9da31db28844d58f119065e472ecbbf8dd129b35dcc811e9"
           "5sigsigsig" 0 1700000000 (deal_funded "D-1");
         mkWebhookEvent "70eac1999833163b9da31db28844d58f119065e472ecbbf8dd129b35dcc811e9"
           "6sigsigsig" 0 1700000000 (deal_delivered "D-2") ]
       (mkCounts 0 0) []
     = routeEvents (mockEnv permissiveVars 1700000000000 None) 1700000000
         [ mkWebhookEvent "70eac1999833163b9da31db28844d58f119065e472ecbbf8dd129b35dcc811e9"
             "6sigsigsig" 0 1700000000 (deal_delivered "D-2") ]
         (mkCounts 0 1) [GetDealSnapshot "D-1"].
Proof.
  split; [| split; [| split]].
  - apply (proj1 (webhook_statuses_and_isolation
                    (mockEnv permissiveVars 1700000000000 None) standInIntake
                    (mkWebhookRequest
                       [("x-helius-signature",
                         HString
                           "24be8278bedc106aef987a5439bb1cdda2be4ef65dfecf4926a5e5a06641cd28")]
                       fundedBody) [])).
    vm_compute. reflexivity.
  - destruct (webhook_statuses_and_isolation
                (mockEnv permissiveVars 1700000000000 None) standInIntake
                (mkWebhookRequest
                   [("x-helius-signature",
                     HString "53c01fed5880a38f75c9753be2184eab19f54a8c21a37a72fed8a8321dc2e40c")]
                   "not json") []) as (_ & Hmalformed & _).
    apply Hmalformed; vm_compute; reflexivity.
  - destruct (webhook_statuses_and_isolation
                (mockEnv permissiveVars 1700000000000 None) standInIntake
                (mkWebhookRequest
                   [("x-helius-signature",
                     HString "24be8278bedc106aef987a5439bb1cdda2be4ef65dfecf4926a5e5a06641cd27")]
                   fundedBody) []) as (_ & _ & Hverified & _).
    apply (Hverified ltac:(vm_compute; reflexivity) fundedJson).
    vm_compute. reflexivity.
  - destruct (webhook_statuses_and_isolation
                (mockEnv permissiveVars 1700000000000 None) standInIntake
                (mkWebhookRequest [] "") []) as (_ & _ & _ & Hisolated).
    refine (proj1 (Hisolated 1700000000
                     (mkWebhookEvent
                        "70eac1999833163b9da31db28844d58f119065e472ecbbf8dd129b35dcc811e9"
                        "5sigsigsig" 0 1700000000 (deal_funded "D-1"))
                     [ mkWebhookEvent
                         "70eac1999833163b9da31db28844d58f119065e472ecbbf8dd129b35dcc811e9"
                         "6sigsigsig" 0 1700000000 (deal_delivered "D-2") ]
                     (mkCounts 0 0) [] [GetDealSnapshot "D-1"]
                     (PortError "SNAPSHOT not set") _)).
    reflexivity.
Defined.

End WebhookRouter.

(* ------------------------------------------------------------------ *)
(** ** The processors at their edges: rejected payloads, failing ports *)

Module ProcessorEdges.

Import DeadlineProcessor.

Lemma truthy_false_iff (s : string) : Str.truthy s = false <-> s = "".
Proof. destruct s; simpl; split; congruence. Qed.

Lemma DeadlineJobSchema_false_iff (j : DeadlineJob) :
  DeadlineJobSchema j = false
  <-> dj_dealId j = "" \/ dj_deadlineAt j <= 0 \/ dj_nonce j < 0.
Proof.
  unfold DeadlineJobSchema.
  rewrite !andb_false_iff, truthy_false_iff, Z.ltb_ge, Z.leb_gt. tauto.
Qed.

Lemma ReminderJobSchema_false_iff (j : ReminderJob) :
  ReminderJobSchema j = false <-> rj_dealId j = "" \/ rj_notifyAt j <= 0.
Proof.
  unfold ReminderJobSchema. rewrite andb_false_iff, truthy_false_iff, Z.ltb_ge. tauto.
Qed.

(** X1. A processor validates its payload before anything else: a
    deadline job with an empty deal id, a non-positive [deadlineAt] or a
    negative nonce, a reminder job with an empty deal id or a
    non-positive [notifyAt], and an escalation job with an empty deal id
    are rejected with the validation error of their schema, and no port
    has been called by then. *)
Theorem invalid_payload_touches_no_port (env : Env) (log : Log) :
  (forall job : Job DeadlineJob,
     dj_dealId (job_data job) = "" \/ dj_deadlineAt (job_data job) <= 0
     \/ dj_nonce (job_data job) < 0 ->
     handleDeadline env job log = (Throw (ZodError "DeadlineJobSchema"), log))
  /\ (forall job : Job ReminderJob,
     rj_dealId (job_data job) = "" \/ rj_notifyAt (job_data job) <= 0 ->
     handleReminder env job log = (Throw (ZodError "ReminderJobSchema"), log))
  /\ (forall job : Job EscalationJob,
     ej_dealId (job_data job) = "" ->
     handleEscalation env job log = (Throw (ZodError "EscalationJobSchema"), log)).
Proof.
  split; [| split]; intros job H.
  - apply DeadlineJobSchema_false_iff in H.
    unfold handleDeadline, assertDeadlineJob. run_m. rewrite H. reflexivity.
  - apply ReminderJobSchema_false_iff in H.
    unfold handleReminder, assertReminderJob. run_m. rewrite H. reflexivity.
  - unfold handleEscalation, assertEscalationJob, EscalationJobSchema. run_m.
    rewrite H. reflexivity.
Qed.

(** A reminder whose [notifyAt] is zero, after earlier traffic. *)
Lemma invalid_payload_touches_no_port_witness :
  handleReminder (mockEnv testVars 1700000000000 (Some (mkMockSnapshot FUNDED None None)))
    (mkJob None (mkReminderJob "D-1" 0 buyer deadline_upcoming)) [GetDealSnapshot "D-0"]
  = (Throw (ZodError "ReminderJobSchema"), [GetDealSnapshot "D-0"]).
Proof.
  destruct (invalid_payload_touches_no_port
              (mockEnv testVars 1700000000000 (Some (mkMockSnapshot FUNDED None None)))
              [GetDealSnapshot "D-0"]) as (_ & Hreminder & _).
  apply (Hreminder (mkJob None (mkReminderJob "D-1" 0 buyer deadline_upcoming))).
  right. simpl. lia.
Defined.

(** X2. An error of the snapshot fetch reaches the caller of the deadline
    and of the reminder processor unchanged, so that the queue can retry
    the job; the fetch is the only port call made: nothing is enqueued and
    nobody is notified. *)
Theorem snapshot_failure_reaches_the_caller (env : Env) (log : Log) (failure : Error) :
  (forall job : Job DeadlineJob,
     let fetch := (log ++ [GetDealSnapshot (dj_dealId (job_data job))])%list in
     DeadlineJobSchema (job_data job) = true ->
     api_getDealSnapshot env fetch = Throw failure ->
     handleDeadline env job log = (Throw failure, fetch))
  /\ (forall job : Job ReminderJob,
     let fetch := (log ++ [GetDealSnapshot (rj_dealId (job_data job))])%list in
     ReminderJobSchema (job_data job) = true ->
     api_getDealSnapshot env fetch = Throw failure ->
     handleReminder env job log = (Throw failure, fetch)).
Proof.
  split; intros job fetch Hvalid Hfail; subst fetch.
  - unfold handleDeadline, assertDeadlineJob. run_m. rewrite Hvalid. run_m.
    rewrite Hfail. reflexivity.
  - unfold handleReminder, assertReminderJob. run_m. rewrite Hvalid. run_m.
    rewrite Hfail. reflexivity.
Qed.

(** The mock API without a configured snapshot throws. *)
Lemma snapshot_failure_reaches_the_caller_witness :
  handleDeadline (mockEnv testVars 1700000000000 None)
    (mkJob None (mkDeadlineJob "D-1" 1699999990 delivery 0)) []
  = (Throw (PortError "SNAPSHOT not set"), [GetDealSnapshot "D-1"]).
Proof.
  destruct (snapshot_failure_reaches_the_caller (mockEnv testVars 1700000000000 None) []
              (PortError "SNAPSHOT not set")) as (Hdeadline & _).
  apply (Hdeadline (mkJob None (mkDeadlineJob "D-1" 1699999990 delivery 0)));
    reflexivity.
Defined.

(** X3. Once the deadline processor has decided to escalate, the queue
    handle it opened is closed whatever [add] answers: the log always
    continues with the add and the close. An error of [close] is what the
    caller sees; otherwise an error of [add] is, and in both cases the
    reviewer is not notified. *)
Theorem escalation_queue_always_closed (env : Env) (job : Job DeadlineJob) (log : Log)
    (snap : DealSnapshot) (reason : EscalationReason) (suggested0 : EscalationSuggestion) :
  let payload := job_data job in
  let log1 := (log ++ [GetDealSnapshot (dj_dealId payload)])%list in
  let esc := mkEscalationJob (dj_dealId payload) reason
               (finalSuggestion (getChainPolicy env) suggested0) in
  let request :=
    mkAddRequest "escalation" "escalation" (JEscalation esc) (jobIdForEscalation esc) None in
  let log2 := (log1 ++ [QueueAdd request])%list in
  let log3 := (log2 ++ [QueueClose "escalation"])%list in
  DeadlineJobSchema payload = true ->
  api_getDealSnapshot env log1 = Ok snap ->
  decide (dj_kind payload) snap (clock env log1 / 1000) = DEscalate reason suggested0 ->
  (exists rest, logAfter (handleDeadline env job) log = (log3 ++ rest)%list)
  /\ (forall e, queue_close env log3 = Throw e ->
        handleDeadline env job log = (Throw e, log3))
  /\ (forall e, queue_add env log2 = Throw e -> queue_close env log3 = Ok tt ->
        handleDeadline env job log = (Throw e, log3)).
Proof.
  intros payload log1 esc request log2 log3 Hvalid Hsnap Hdec.
  split; [| split]; [| intros e Hclose | intros e Hadd Hclose];
    unfold logAfter, handleDeadline, assertDeadlineJob; run_m;
    fold payload; rewrite Hvalid; run_m; fold log1; rewrite Hsnap; run_m;
    rewrite Hdec; run_m; unfold Q_ESCALATION; fold esc; fold request; fold log2; fold log3.
  - destruct (queue_close env log3) as [[]|?];
      [| exists []; destruct (queue_add env log2); cbn; now rewrite app_nil_r].
    destruct (queue_add env log2) as [[]|?]; [| exists []; cbn; now rewrite app_nil_r].
    destruct (EscalationSuggestion_eqb _ REVIEW).
    + eexists [_]. destruct (notify_notifyReviewer env _) as [[]|?]; reflexivity.
    + exists []. cbn. now rewrite app_nil_r.
  - rewrite Hclose. destruct (queue_add env log2); reflexivity.
  - rewrite Hclose, Hadd. reflexivity.
Qed.

(** An overdue delivery on a funded deal, with a queue that is down. *)
Lemma escalation_queue_always_closed_witness :
  handleDeadline
    (brokenQueueEnv testVars 1700000000000 (Some (mkMockSnapshot FUNDED (Some 1699999990) None)))
    (mkJob None (mkDeadlineJob "D-123" 1699999990 delivery 1)) []
  = (Throw (PortError "redis unavailable"),
     [ GetDealSnapshot "D-123";
       QueueAdd (mkAddRequest "escalation" "escalation"
                   (JEscalation (mkEscalationJob "D-123" no_delivery REVIEW))
                   "escalation:D-123:no-delivery:REVIEW" None);
       QueueClose "escalation" ]).
Proof.
  destruct (escalation_queue_always_closed
              (brokenQueueEnv testVars 1700000000000
                 (Some (mkMockSnapshot FUNDED (Some 1699999990) None)))
              (mkJob None (mkDeadlineJob "D-123" 1699999990 delivery 1)) []
              (mkDealSnapshot "D-123" FUNDED (Some 1699999990) None) no_delivery REVIEW
              eq_refl eq_refl eq_refl) as (_ & _ & Hadd).
  apply (Hadd (PortError "redis unavailable")); reflexivity.
Defined.

End ProcessorEdges.

(* ------------------------------------------------------------------ *)
(** ** Routes of the escalation processor and the policy's defaults *)

Module EscalationRoutes.

Import DeadlineProcessor.

Lemma prepareRequests_app (l1 l2 : Log) :
  prepareRequests (l1 ++ l2)%list = (prepareRequests l1 ++ prepareRequests l2)%list.
Proof.
  induction l1 as [|ev l1 IH]; [reflexivity |].
  destruct ev; cbn [prepareRequests app]; rewrite ?IH; reflexivity.
Qed.

Lemma partiesNotices_app (l1 l2 : Log) :
  partiesNotices (l1 ++ l2)%list = (partiesNotices l1 ++ partiesNotices l2)%list.
Proof.
  induction l1 as [|ev l1 IH]; [reflexivity |].
  destruct ev; cbn [partiesNotices app]; rewrite ?IH; reflexivity.
Qed.

Lemma policy_never_allows_review (env : Env) :
  allowsAutoFinalize (getChainPolicy env) REVIEW = false.
Proof. reflexivity. Qed.

(** The shape of what the escalation processor adds to the log: at most
    one preparation, one reviewer notice, at most one party notice. *)
Lemma handleEscalation_log (env : Env) (job : Job EscalationJob) (log : Log) :
  let payload := job_data job in
  EscalationJobSchema payload = true ->
  exists notice rest,
    logAfter (handleEscalation env job) log
    = (log ++ (if allowsAutoFinalize (getChainPolicy env) (ej_suggested payload)
               then [PrepareFinalize (ej_dealId payload) (ej_suggested payload)]
               else [])
           ++ NotifyReviewer notice :: rest)%list
    /\ (rest = [] \/ exists p, rest = [NotifyParties p]).
Proof.
  intros payload Hvalid.
  unfold logAfter, handleEscalation, assertEscalationJob, tryPrepareFinalize. run_m.
  fold payload. rewrite Hvalid.
  destruct (ej_suggested payload) eqn:Hs; cbn [EscalationSuggestion_eqb orb];
    rewrite ?policy_never_allows_review;
    try (destruct (allowsAutoFinalize (getChainPolicy env) _) eqn:Hallowed);
    try (destruct (api_prepareFinalize env _) as [prepared|?]);
    try (destruct (notify_notifyReviewer env _) as [[]|?]);
    try (destruct (notify_notifyParties env _) as [[]|?]);
    cbn [snd app]; rewrite <- ?app_assoc; cbn [app];
    do 2 eexists; (split; [reflexivity |]);
    solve [now left | right; eexists; reflexivity].
Qed.

(** X4. Whatever route it takes and whatever the ports answer, the
    escalation processor, given a valid payload, asks the notifier for
    exactly one reviewer notice; it calls [prepareFinalize] once when the
    policy allows the suggested action and never otherwise (so never for
    REVIEW); it notifies the parties at most once; and it enqueues
    nothing. *)
Theorem escalation_routes_once (env : Env) (job : Job EscalationJob) (log : Log) :
  let payload := job_data job in
  let after := logAfter (handleEscalation env job) log in
  EscalationJobSchema payload = true ->
  List.length (reviewerNotices after) = S (List.length (reviewerNotices log))
  /\ prepareRequests after
     = (prepareRequests log
        ++ if allowsAutoFinalize (getChainPolicy env) (ej_suggested payload)
           then [(ej_dealId payload, ej_suggested payload)]
           else [])%list
  /\ (List.length (partiesNotices after) <= S (List.length (partiesNotices log)))%nat
  /\ addRequests after = addRequests log.
Proof.
  intros payload after Hvalid.
  destruct (handleEscalation_log env job log Hvalid) as (notice & rest & Hlog & Hrest).
  fold payload in Hlog. fold after in Hlog. rewrite Hlog.
  rewrite !reviewerNotices_app, !prepareRequests_app, !partiesNotices_app, !addRequests_app.
  cbn [reviewerNotices prepareRequests partiesNotices addRequests].
  destruct (allowsAutoFinalize (getChainPolicy env) (ej_suggested payload));
    destruct Hrest as [-> | (p & ->)];
    cbn [reviewerNotices prepareRequests partiesNotices addRequests app];
    rewrite ?app_nil_r, ?length_app; cbn [List.length];
    (split; [lia |]); (split; [reflexivity |]); (split; [lia | reflexivity]).
Qed.

(** A RELEASE suggestion under a policy that allows it, with a
    [prepareFinalize] that throws. *)
Lemma escalation_routes_once_witness :
  let after :=
    logAfter (handleEscalation (mockEnv permissiveVars 1700000000000 None)
                (mkJob None (mkEscalationJob "D-7" deadline_expired RELEASE))) [] in
  List.length (reviewerNotices after) = 1%nat
  /\ prepareRequests after = [("D-7", RELEASE)]
  /\ (List.length (partiesNotices after) <= 1)%nat
  /\ addRequests after = [].
Proof.
  apply (escalation_routes_once (mockEnv permissiveVars 1700000000000 None)
           (mkJob None (mkEscalationJob "D-7" deadline_expired RELEASE)) []).
  reflexivity.
Defined.

(** X5. The prepared route of the escalation processor: when the policy
    allows the suggested action and [prepareFinalize] answers, the
    reviewer is notified first, with the suggestion and the two links;
    the parties are notified only after the notifier has accepted that
    call, with the event [finalize-prepared]; and the result reports
    action prepared with the same links. An error of the reviewer notice
    reaches the caller before the parties are contacted. *)
Theorem prepared_escalation_notifies_both (env : Env) (job : Job EscalationJob) (log : Log)
    (prepared : PrepareFinalizeResult) :
  let payload := job_data job in
  let nowSec := clock env log / 1000 in
  let log1 := (log ++ [PrepareFinalize (ej_dealId payload) (ej_suggested payload)])%list in
  let notice :=
    mkNotifyReviewerInput (ej_dealId payload) (ej_reason payload) nowSec
      (CtxPrepared (ej_suggested payload) (pf_approvalUrl prepared) (pf_blinkUrl prepared)) in
  let log2 := (log1 ++ [NotifyReviewer notice])%list in
  let parties :=
    mkNotifyPartiesInput (ej_dealId payload) "finalize-prepared" nowSec
      (CtxSuggested (ej_suggested payload)) in
  let log3 := (log2 ++ [NotifyParties parties])%list in
  EscalationJobSchema payload = true ->
  allowsAutoFinalize (getChainPolicy env) (ej_suggested payload) = true ->
  api_prepareFinalize env log1 = Ok prepared ->
  (forall e, notify_notifyReviewer env log2 = Throw e ->
     handleEscalation env job log = (Throw e, log2))
  /\ (notify_notifyReviewer env log2 = Ok tt ->
      handleEscalation env job log
      = (match notify_notifyParties env log3 with
         | Ok _ => Ok (EscalationPrepared (ej_dealId payload) (ej_reason payload)
                         (ej_suggested payload) (pf_approvalUrl prepared)
                         (pf_blinkUrl prepared))
         | Throw e => Throw e
         end, log3)).
Proof.
  intros payload nowSec log1 notice log2 parties log3 Hvalid Hallowed Hprepared.
  assert (Hs : EscalationSuggestion_eqb (ej_suggested payload) RELEASE
               || EscalationSuggestion_eqb (ej_suggested payload) REFUND = true).
  { destruct (ej_suggested payload); [reflexivity | reflexivity |].
    rewrite policy_never_allows_review in Hallowed. discriminate Hallowed. }
  split; [intros e Hreviewer | intros Hreviewer];
    unfold handleEscalation, assertEscalationJob, tryPrepareFinalize; run_m;
    fold payload; rewrite Hvalid, Hs, Hallowed; fold log1; rewrite Hprepared;
    cbn [pf_approvalUrl pf_blinkUrl]; fold nowSec; fold notice; fold log2;
    rewrite Hreviewer; [reflexivity |].
  fold parties. fold log3. destruct (notify_notifyParties env log3) as [[]|?]; reflexivity.
Qed.

(** A RELEASE suggestion under a policy that allows it, with a
    [prepareFinalize] that answers with both links. *)
Lemma prepared_escalation_notifies_both_witness :
  handleEscalation (preparingEnv permissiveVars 1700000000000 None)
    (mkJob None (mkEscalationJob "D-7" deadline_expired RELEASE)) []
  = (Ok (EscalationPrepared "D-7" deadline_expired RELEASE
           (Some "https://approve.example/D-7") (Some "https://blink.example/D-7")),
     [ PrepareFinalize "D-7" RELEASE;
       NotifyReviewer (mkNotifyReviewerInput "D-7" deadline_expired 1700000000
                         (CtxPrepared RELEASE (Some "https://approve.example/D-7")
                                      (Some "https://blink.example/D-7")));
       NotifyParties (mkNotifyPartiesInput "D-7" "finalize-prepared" 1700000000
                        (CtxSuggested RELEASE)) ]).
Proof.
  destruct (prepared_escalation_notifies_both (preparingEnv permissiveVars 1700000000000 None)
              (mkJob None (mkEscalationJob "D-7" deadline_expired RELEASE)) []
              (mkPrepareFinalizeResult (Some "https://approve.example/D-7")
                                       (Some "https://blink.example/D-7"))
              eq_refl eq_refl eq_refl) as (_ & Hok).
  apply (Hok eq_refl).
Defined.





End EscalationRoutes.

(* ------------------------------------------------------------------ *)
(** ** The producers: what reaches the queue, and what stops them *)

Module Producers.

Import DeadlineProcessor.

Lemma getQueue_unavailable (env : Env) (name : string) (log : Log) :
  ~ queueAvailable env ->
  getQueue env name log
  = (Throw (ConfigError ("REDIS_URL is required to initialize " ++ name ++ " queue")), log).
Proof.
  intros Hno. unfold getQueue.
  destruct (processEnv env "REDIS_URL") as [url|] eqn:E; [| reflexivity].
  destruct url as [|a url]; [reflexivity |].
  exfalso. apply Hno. exists (String a url). split; [exact E | discriminate].
Qed.

(** X7. The three event-style producers validate first and configure
    second: an invalid payload is rejected with the validation error of
    its schema even where the queue could not be built, and a valid one
    is rejected with the configuration error naming the queue when
    [REDIS_URL] is unset or empty. In both cases nothing is enqueued. *)
Theorem producers_validate_then_configure (env : Env) (log : Log) :
  (forall input, DeadlineJobSchema input = false ->
     scheduleDeadline env input log = (Throw (ZodError "DeadlineJobSchema"), log))
  /\ (forall input, ReminderJobSchema input = false ->
     scheduleReminder env input log = (Throw (ZodError "ReminderJobSchema"), log))
  /\ (forall input, EscalationJobSchema input = false ->
     enqueueEscalation env input log = (Throw (ZodError "EscalationJobSchema"), log))
  /\ (~ queueAvailable env ->
      (forall input, DeadlineJobSchema input = true ->
         scheduleDeadline env input log
         = (Throw (ConfigError "REDIS_URL is required to initialize deadlines queue"), log))
      /\ (forall input, ReminderJobSchema input = true ->
         scheduleReminder env input log
         = (Throw (ConfigError "REDIS_URL is required to initialize reminders queue"), log))
      /\ (forall input, EscalationJobSchema input = true ->
         enqueueEscalation env input log
         = (Throw (ConfigError "REDIS_URL is required to initialize escalation queue"), log))).
Proof.
  split; [| split; [| split; [| intros Hno; split; [| split]]]]; intros input H.
  - unfold scheduleDeadline. run_m. rewrite H. reflexivity.
  - unfold scheduleReminder. run_m. rewrite H. reflexivity.
  - unfold enqueueEscalation. run_m. rewrite H. reflexivity.
  - unfold scheduleDeadline, getDeadlinesQueue. run_m. rewrite H.
    rewrite (getQueue_unavailable env _ _ Hno). reflexivity.
  - unfold scheduleReminder, getRemindersQueue. run_m. rewrite H.
    rewrite (getQueue_unavailable env _ _ Hno). reflexivity.
  - unfold enqueueEscalation, getEscalationQueue. run_m. rewrite H.
    rewrite (getQueue_unavailable env _ _ Hno). reflexivity.
Qed.

(** Without any configuration: a deadline whose deal id is empty, and a
    well-formed reminder. *)
Lemma producers_validate_then_configure_witness :
  scheduleDeadline (mockEnv (fun _ => None) 1700000000000 None)
    (mkDeadlineJob "" 1700003600 delivery 0) []
  = (Throw (ZodError "DeadlineJobSchema"), [])
  /\ scheduleReminder (mockEnv (fun _ => None) 1700000000000 None)
       (mkReminderJob "D-1" 1700003600 both deadline_upcoming) []
     = (Throw (ConfigError "REDIS_URL is required to initialize reminders queue"), []).
Proof.
  destruct (producers_validate_then_configure (mockEnv (fun _ => None) 1700000000000 None) [])
    as (Hdeadline & _ & _ & Hconfig).
  split; [apply Hdeadline; reflexivity |].
  destruct Hconfig as (_ & Hreminder & _).
  - intros (url & E & _). discriminate E.
  - apply Hreminder. reflexivity.
Defined.

(** The reminder loop of the full-plan producer when the queue accepts
    every request. *)
Lemma scheduleEscrowReminders_run (env : Env) (queues : EscrowQueues) (pubkey : string)
    (deliveryAt now : Z) (offsets : list Z) (log : Log) :
  (forall l, queue_add env l = Ok tt) ->
  scheduleEscrowReminders env queues pubkey deliveryAt now offsets log
  = (Ok tt,
     (log ++ map (fun m =>
                    QueueAdd (mkAddRequest (eq_reminderQueue queues) "reminder"
                                (JEscrowReminder pubkey deliveryAt m)
                                (escrowReminderJobId pubkey m)
                                (Some (deliveryAt - now - m * 60 * 1000))))
                 (filter (fun m => 0 <? deliveryAt - now - m * 60 * 1000) offsets))%list).
Proof.
  intros Hadd. revert log. induction offsets as [|m rest IH]; intros log.
  - cbn. now rewrite app_nil_r.
  - cbn [scheduleEscrowReminders filter].
    rewrite (Z.leb_antisym 0 (deliveryAt - now - m * 60 * 1000)).
    destruct (0 <? deliveryAt - now - m * 60 * 1000); cbn [negb].
    + run_m. rewrite Hadd, IH. cbn [map]. rewrite <- app_assoc. reflexivity.
    + apply IH.
Qed.

(** X8. The full plan on a queue that accepts every request, for a
    delivery time still ahead: the clock is read once; the deadline job is
    enqueued first, then one reminder for each offset that still lies in
    the future, in the order given (the others are skipped), and last the
    escalation job, delayed by the deadline's delay plus the dispute
    window. *)
Theorem full_plan_in_order (env : Env) (queues : EscrowQueues) (schedule : EscrowSchedule)
    (log : Log) :
  let now := clock env log in
  let pubkey := es_escrowPubkey schedule in
  let deliveryAt := es_deliveryAtMs schedule in
  let deadline :=
    mkAddRequest (eq_deadlineQueue queues) "deadline" (JEscrowDeadline pubkey deliveryAt)
      (escrowDeadlineJobId pubkey) (Some (deliveryAt - now)) in
  let reminder m :=
    mkAddRequest (eq_reminderQueue queues) "reminder" (JEscrowReminder pubkey deliveryAt m)
      (escrowReminderJobId pubkey m) (Some (deliveryAt - now - m * 60 * 1000)) in
  let escalation :=
    mkAddRequest (eq_escalationQueue queues) "escalation"
      (JEscrowEscalation pubkey deliveryAt (es_disputeWindowSeconds schedule))
      (escrowEscalationJobId pubkey)
      (Some (deliveryAt - now + es_disputeWindowSeconds schedule * 1000)) in
  let due := filter (fun m => 0 <? deliveryAt - now - m * 60 * 1000)
                    (es_reminderMinutesBefore schedule) in
  (forall l, queue_add env l = Ok tt) ->
  now < deliveryAt ->
  scheduleEscrowJobs env queues schedule log
  = (Ok tt, (log ++ map QueueAdd (deadline :: map reminder due ++ [escalation]))%list).
Proof.
  intros now pubkey deliveryAt deadline reminder escalation due Hadd Hfuture.
  unfold scheduleEscrowJobs. run_m. fold now pubkey deliveryAt.
  destruct (deliveryAt <=? now) eqn:Hpast; [apply Z.leb_le in Hpast; lia |].
  rewrite Hadd. rewrite (scheduleEscrowReminders_run env queues pubkey deliveryAt now _ _ Hadd).
  rewrite Hadd. fold due. fold deadline. fold escalation.
  cbn [map]. rewrite map_app, map_map. cbn [map].
  rewrite <- !app_assoc. reflexivity.
Qed.

(** Two hours before delivery, with reminders planned a day and an hour
    ahead: the day-ahead reminder is skipped. *)
Lemma full_plan_in_order_witness :
  scheduleEscrowJobs (mockEnv testVars 1700000000000 None) carEscrowQueues
    (mkEscrowSchedule "CAR-1" 1700007200000 [1440; 60] 172800) []
  = (Ok tt,
     [ QueueAdd (mkAddRequest "escrow:deadline" "deadline"
                   (JEscrowDeadline "CAR-1" 1700007200000)
                   "escrow:CAR-1:deadline" (Some 7200000));
       QueueAdd (mkAddRequest "escrow:reminder" "reminder"
                   (JEscrowReminder "CAR-1" 1700007200000 60)
                   "escrow:CAR-1:reminder:60m" (Some 3600000));
       QueueAdd (mkAddRequest "escrow:escalation" "escalation"
                   (JEscrowEscalation "CAR-1" 1700007200000 172800)
                   "escrow:CAR-1:escalation" (Some 180000000)) ]).
Proof.
  apply (full_plan_in_order (mockEnv testVars 1700000000000 None) carEscrowQueues
           (mkEscrowSchedule "CAR-1" 1700007200000 [1440; 60] 172800) []).
  - reflexivity.
  - simpl. lia.
Defined.

Lemma scheduleEscrowReminders_failure (env : Env) (queues : EscrowQueues) (pubkey : string)
    (deliveryAt now : Z) (offsets : list Z) (log log' : Log) (e : Error) :
  scheduleEscrowReminders env queues pubkey deliveryAt now offsets log = (Throw e, log') ->
  exists before r,
    log' = (log ++ before ++ [QueueAdd r])%list /\ queue_add env log' = Throw e.
Proof.
  revert log. induction offsets as [|m rest IH]; intros log Hrun.
  - discriminate Hrun.
  - cbn [scheduleEscrowReminders] in Hrun.
    destruct (deliveryAt - now - m * 60 * 1000 <=? 0); [now apply IH |].
    revert Hrun. run_m.
    destruct (queue_add env (log ++ [QueueAdd _])%list) as [[]|e'] eqn:Hadd; intros Hrun.
    + destruct (IH _ Hrun) as (before & r & -> & Hlast).
      eexists (_ :: before), r. split; [| exact Hlast].
      rewrite <- app_assoc. reflexivity.
    + injection Hrun as <- <-. exists [].
      eexists. split; [reflexivity | exact Hadd].
Qed.

(** X9. The full plan stops at the first request the queue refuses: when
    it throws, the last entry of the log is the refused request, the
    error is the queue's, and nothing is attempted after it. In
    particular a refused deadline job leaves no reminder and no
    escalation behind. *)
Theorem full_plan_stops_at_first_refusal (env : Env) (queues : EscrowQueues)
    (schedule : EscrowSchedule) (log : Log) :
  let deadline :=
    mkAddRequest (eq_deadlineQueue queues) "deadline"
      (JEscrowDeadline (es_escrowPubkey schedule) (es_deliveryAtMs schedule))
      (escrowDeadlineJobId (es_escrowPubkey schedule))
      (Some (es_deliveryAtMs schedule - clock env log)) in
  (forall e log',
     scheduleEscrowJobs env queues schedule log = (Throw e, log') ->
     exists before r,
       log' = (log ++ before ++ [QueueAdd r])%list /\ queue_add env log' = Throw e)
  /\ (forall e,
     clock env log < es_deliveryAtMs schedule ->
     queue_add env (log ++ [QueueAdd deadline])%list = Throw e ->
     scheduleEscrowJobs env queues schedule log = (Throw e, (log ++ [QueueAdd deadline])%list)).
Proof.
  intros deadline. split.
  - intros e log'. unfold scheduleEscrowJobs. run_m. fold deadline.
    destruct (es_deliveryAtMs schedule <=? clock env log); [discriminate |].
    destruct (queue_add env (log ++ [QueueAdd deadline])%list) as [[]|e'] eqn:Hfirst.
    + destruct (scheduleEscrowReminders env queues _ _ _ _ _) as [[[]|e'] log2] eqn:Hrem.
      * destruct (queue_add env (log2 ++ [QueueAdd _])%list) as [[]|e'] eqn:Hlast;
          [discriminate |].
        intros Hrun. injection Hrun as <- <-.
        destruct (Scheduling.scheduleEscrowReminders_adds env queues schedule (clock env log)
                    (es_reminderMinutesBefore schedule) (log ++ [QueueAdd deadline])%list
                    (incl_refl _)) as (new & Hlog & _).
        unfold logAfter in Hlog. rewrite Hrem in Hlog. cbn [snd] in Hlog. subst log2.
        exists (QueueAdd deadline :: new). eexists. split; [| exact Hlast].
        rewrite <- !app_assoc. reflexivity.
      * intros Hrun. injection Hrun as <- <-.
        destruct (scheduleEscrowReminders_failure _ _ _ _ _ _ _ _ _ Hrem)
          as (before & r & -> & Hlast).
        exists (QueueAdd deadline :: before), r. split; [| exact Hlast].
        rewrite <- app_assoc. reflexivity.
    + intros Hrun. injection Hrun as <- <-. exists [], deadline.
      split; [reflexivity | exact Hfirst].
  - intros e Hfuture Hfirst. unfold scheduleEscrowJobs. run_m. fold deadline.
    destruct (es_deliveryAtMs schedule <=? clock env log) eqn:Hpast;
      [apply Z.leb_le in Hpast; lia |].
    rewrite Hfirst. reflexivity.
Qed.

(** A queue that is down: the deadline job is attempted and nothing else. *)
Lemma full_plan_stops_at_first_refusal_witness :
  scheduleEscrowJobs (brokenQueueEnv testVars 1700000000000 None) carEscrowQueues
    (mkEscrowSchedule "CAR-1" 1700007200000 [1440; 60] 172800) []
  = (Throw (PortError "redis unavailable"),
     [ QueueAdd (mkAddRequest "escrow:deadline" "deadline"
                   (JEscrowDeadline "CAR-1" 1700007200000)
                   "escrow:CAR-1:deadline" (Some 7200000)) ]).
Proof.
  destruct (full_plan_stops_at_first_refusal (brokenQueueEnv testVars 1700000000000 None)
              carEscrowQueues (mkEscrowSchedule "CAR-1" 1700007200000 [1440; 60] 172800) [])
    as (_ & Hfirst).
  apply (Hfirst (PortError "redis unavailable")); [simpl; lia | reflexivity].
Defined.

End Producers.

(* ------------------------------------------------------------------ *)
(** ** Webhook intake: headers, entries, normalized events *)

Module IntakeFacts.

Import DeadlineProcessor.

Lemma lowerAscii_idem (a : ascii) : Str.lowerAscii (Str.lowerAscii a) = Str.lowerAscii a.
Proof.
  destruct a as [[] [] [] [] [] [] [] []]; reflexivity.
Qed.

Lemma toLowerCase_idem (s : string) : Str.toLowerCase (Str.toLowerCase s) = Str.toLowerCase s.
Proof.
  induction s as [|a s IH]; [reflexivity |].
  cbn [Str.toLowerCase]. now rewrite lowerAscii_idem, IH.
Qed.

(** X10. Header lookup compares names in lower case on both sides and
    stops at the first match: two spellings of a name find the same
    value; lower-casing the stored names changes nothing; and the first
    header that matches hides the later ones. So a signature header that
    is [null] or [undefined] reads as the empty string and fails the
    verification, even when a later header of the same name carries the
    right digest. *)
Theorem header_lookup_ignores_case (headers : Headers) (name : string) :
  (forall name', Str.toLowerCase name = Str.toLowerCase name' ->
     getHeader headers name = getHeader headers name')
  /\ getHeader (map lowerKey headers) name = getHeader headers name
  /\ (forall k v rest, Str.toLowerCase k = Str.toLowerCase name ->
        getHeader ((k, v) :: rest) name = getHeader [(k, v)] name)
  /\ (forall env k rest rawBody, Str.toLowerCase k = "x-helius-signature" ->
        verifyHeliusSignature env ((k, HNullish) :: rest) rawBody None = false).
Proof.
  split; [| split; [| split]].
  - intros name' E. induction headers as [|[k v] rest IH]; [reflexivity |].
    cbn [getHeader]. now rewrite <- E, IH.
  - induction headers as [|[k v] rest IH]; [reflexivity |].
    cbn [map lowerKey getHeader fst snd]. now rewrite toLowerCase_idem, IH.
  - intros k v rest E. cbn [getHeader]. rewrite E, String.eqb_refl. reflexivity.
  - intros env k rest rawBody E. unfold verifyHeliusSignature. cbn [getHeader].
    rewrite E.
    replace ("x-helius-signature" =? Str.toLowerCase "x-helius-signature")%string with true
      by reflexivity.
    destruct (processEnv env "HELIUS_WEBHOOK_SECRET") as [s|]; [| reflexivity].
    cbn [Str.truthy negb]. now rewrite orb_true_r.
Qed.

(** The signature under a capitalised name is found; a nullish first
    header hides the genuine one. *)
Lemma header_lookup_ignores_case_witness :
  getHeader [("X-Helius-Signature", HString "abc")] "x-helius-signature"
  = getHeader [("X-Helius-Signature", HString "abc")] "X-HELIUS-SIGNATURE"
  /\ verifyHeliusSignature (mockEnv permissiveVars 1700000000000 None)
       [("X-Helius-Signature", HNullish);
        ("x-helius-signature", HString (Crypto.hmacSha256Hex "Jefe" "{}"))] "{}" None
     = false.
Proof.
  destruct (header_lookup_ignores_case [("X-Helius-Signature", HString "abc")]
              "x-helius-signature") as (Hcase & _ & _ & Hnull).
  split; [apply Hcase; reflexivity | apply Hnull; reflexivity].
Defined.

Lemma coerceAll_indexed (intake : Intake) (items : list Json) (i : Z) :
  Forall (fun e => re_index e <> None) (coerceAll intake items i).
Proof.
  revert i. induction items as [|v rest IH]; intros i; [constructor |].
  cbn [coerceAll]. destruct (coerceEntry intake v); [constructor; [discriminate |] |]; apply IH.
Qed.

Lemma coerceAll_length (intake : Intake) (items : list Json) (i : Z) :
  (List.length (coerceAll intake items i) <= List.length items)%nat.
Proof.
  revert i. induction items as [|v rest IH]; intros i; [constructor |].
  cbn [coerceAll]. destruct (coerceEntry intake v); cbn [List.length];
    specialize (IH (i + 1)); lia.
Qed.

Lemma coerceAll_app (intake : Intake) (a b : list Json) (i : Z) :
  coerceAll intake (a ++ b) i
  = (coerceAll intake a i ++ coerceAll intake b (i + Z.of_nat (List.length a)))%list.
Proof.
  revert i. induction a as [|v a IH]; intros i.
  - cbn. now rewrite Z.add_0_r.
  - cbn [coerceAll app List.length]. rewrite Nat2Z.inj_succ, IH.
    replace (i + 1 + Z.of_nat (List.length a)) with (i + Z.succ (Z.of_nat (List.length a)))
      by lia.
    destruct (coerceEntry intake v); reflexivity.
Qed.

(** X11. Entry extraction keeps positions and order. A scalar or [null]
    yields no entry; an object with an [events] array yields the entries
    of that array and nothing of its own; every entry leaves with an
    index; no more entries leave than items came in; the entries of a
    concatenation are those of the parts, in order; and an item that
    brings no index of its own is given its position in the incoming
    array, counted over the items that were dropped as well. *)
Theorem entries_keep_input_positions (intake : Intake) :
  (forall json,
     match json with JArray _ | JObject _ => True | _ => extractEntries intake json = [] end)
  /\ (forall fields events, lookupField fields "events" = Some (JArray events) ->
        extractEntries intake (JObject fields) = extractEntries intake (JArray events))
  /\ (forall json, Forall (fun e => re_index e <> None) (extractEntries intake json))
  /\ (forall items,
        (List.length (extractEntries intake (JArray items)) <= List.length items)%nat)
  /\ (forall before v after e,
        coerceEntry intake v = Some e ->
        extractEntries intake (JArray (before ++ v :: after))
        = (extractEntries intake (JArray before)
           ++ withIndex e (Z.of_nat (List.length before))
           :: coerceAll intake after (Z.of_nat (List.length before) + 1))%list).
Proof.
  split; [| split; [| split; [| split]]].
  - intros []; [reflexivity | reflexivity | reflexivity | reflexivity | exact I | exact I].
  - intros fields events E. cbn [extractEntries]. rewrite E. reflexivity.
  - intros [| | | |items|fields]; cbn [extractEntries]; try constructor.
    + apply coerceAll_indexed.
    + destruct (lookupField fields "events") as [[| | | |events|]|];
        try apply coerceAll_indexed;
        (destruct (coerceEntry intake (JObject fields));
         [constructor; [discriminate | constructor] | constructor]).
  - intros items. apply coerceAll_length.
  - intros before v after e E. cbn [extractEntries].
    rewrite coerceAll_app. cbn [coerceAll]. rewrite E. reflexivity.
Qed.

(** Three items of which the first is dropped: the survivors keep the
    positions 1 and 2, unless they bring an index of their own. *)
Lemma entries_keep_input_positions_witness :
  extractEntries standInIntake
    (JArray [JNumber 7;
             JObject [("signature", JString "5sigsigsig")];
             JObject [("sig", JString "6sigsigsig"); ("index", JNumber 9)]])
  = [mkRawEntry None "5sigsigsig" None None None (Some 1);
     mkRawEntry None "6sigsigsig" None None None (Some 9)].
Proof.
  destruct (entries_keep_input_positions standInIntake) as (_ & _ & _ & _ & Hposition).
  apply (Hposition [JNumber 7] (JObject [("signature", JString "5sigsigsig")])
           [JObject [("sig", JString "6sigsigsig"); ("index", JNumber 9)]]
           (mkRawEntry None "5sigsigsig" None None None None)).
  reflexivity.
Defined.

Lemma flat_map_Forall {A B : Type} (f : A -> list B) (P : B -> Prop) (l : list A) :
  (forall a, In a l -> Forall P (f a)) -> Forall P (flat_map f l).
Proof.
  induction l as [|a l IH]; intros H; [constructor |].
  cbn [flat_map]. apply Forall_app. split.
  - apply H. now left.
  - apply IH. intros b Hb. apply H. now right.
Qed.

Lemma flat_map_length_le {A B : Type} (f : A -> list B) (l : list A) :
  (forall a, (List.length (f a) <= 1)%nat) ->
  (List.length (flat_map f l) <= List.length l)%nat.
Proof.
  intros H. induction l as [|a l IH]; [constructor |].
  cbn [flat_map List.length]. rewrite length_app. specialize (H a). lia.
Qed.

(** X12. Normalization reads and never writes: it calls no port. It
    throws exactly when the body is not JSON, and then a [SyntaxError].
    Otherwise it returns at most one event for each extracted entry, and
    every event it returns passes the event schema, carries a 64-digit
    identity that is the hash of the webhook-id header, the entry's
    signature and its index, keeps the entry's signature and the effect
    mapped from it, and is timed by the entry, or by the clock when the
    entry holds no time. *)
Theorem normalized_events_are_valid (env : Env) (intake : Intake) (rawBody : string)
    (headers : Headers) (log : Log) :
  let run := normalizeHeliusWebhook env intake rawBody headers log in
  snd run = log
  /\ (JSON_parse intake rawBody = None <-> exists e, fst run = Throw e)
  /\ (JSON_parse intake rawBody = None -> fst run = Throw SyntaxError)
  /\ (forall json, JSON_parse intake rawBody = Some json ->
      exists events,
        fst run = Ok events
        /\ (List.length events <= List.length (extractEntries intake json))%nat
        /\ Forall (fun ev =>
                     WebhookEventSchema ev = true
                     /\ String.length (ev_id ev) = 64%nat
                     /\ exists e,
                          In e (extractEntries intake json)
                          /\ mapEffect intake e = Some (ev_effect ev)
                          /\ ev_sig ev = re_sig e
                          /\ ev_id ev
                             = computeWebhookId
                                 (mkWebhookIdParams (getHeader headers "x-webhook-id")
                                    (re_sig e) (re_index e))
                          /\ ev_when ev
                             = match re_when e with
                               | Some t => t
                               | None => clock env log / 1000
                               end)
                  events).
Proof.
  intros run. subst run. unfold normalizeHeliusWebhook.
  destruct (JSON_parse intake rawBody) as [json|]; run_m; cbn [fst snd].
  - split; [reflexivity |]. split; [split; [discriminate | intros (e & E); discriminate E] |].
    split; [discriminate |].
    intros json' E. injection E as <-. eexists. split; [reflexivity |]. split.
    + apply flat_map_length_le. intros e.
      destruct (mapEffect intake e); [| cbn; lia].
      destruct (WebhookEventSchema _); cbn; lia.
    + apply flat_map_Forall. intros e He.
      destruct (mapEffect intake e) as [effect|] eqn:Heffect; [| constructor].
      destruct (WebhookEventSchema _) eqn:Hvalid; constructor; [| constructor].
      split; [exact Hvalid |]. split; [apply WebhookSignature.digestHex_length |].
      exists e. split; [exact He |]. split; [exact Heffect |]. split; [reflexivity |].
      split; [| reflexivity].
      cbn [ev_id]. unfold computeWebhookId, webhookIdInput. cbn [wp_webhookId wp_txSignature wp_index].
      destruct (re_index e); reflexivity.
  - split; [reflexivity |]. split; [split; [intros _; eexists; reflexivity | reflexivity] |].
    split; [reflexivity | discriminate].
Qed.

(** The funded event of the stand-in intake, normalized at second
    1700000000 without a webhook-id header. *)
Lemma normalized_events_are_valid_witness :
  snd (normalizeHeliusWebhook (mockEnv testVars 1700000000000 None) standInIntake fundedBody []
         [GetDealSnapshot "D-0"])
  = [GetDealSnapshot "D-0"].
Proof.
  apply (normalized_events_are_valid (mockEnv testVars 1700000000000 None) standInIntake
           fundedBody [] [GetDealSnapshot "D-0"]).
Defined.

End IntakeFacts.

(* ------------------------------------------------------------------ *)
(** ** The router's timers *)

Module RouterTimers.

Import DeadlineProcessor.

(** A producer either refuses before it reaches the queue, or makes its
    one request. *)
Lemma scheduleDeadline_cases (env : Env) (input : DeadlineJob) (log : Log) :
  (exists e, scheduleDeadline env input log = (Throw e, log))
  \/ exists delay,
       0 <= delay
       /\ scheduleDeadline env input log
          = (queue_add env (log ++ [QueueAdd (mkAddRequest "deadlines" "deadlines"
                                               (JDeadline input) (jobIdForDeadline input)
                                               (Some delay))])%list,
             (log ++ [QueueAdd (mkAddRequest "deadlines" "deadlines" (JDeadline input)
                                  (jobIdForDeadline input) (Some delay))])%list).
Proof.
  unfold scheduleDeadline, getDeadlinesQueue, getQueue. run_m.
  destruct (DeadlineJobSchema input); [| left; eexists; reflexivity].
  destruct (processEnv env "REDIS_URL") as [[|a url]|]; cbn [Str.truthy];
    [left; eexists; reflexivity | | left; eexists; reflexivity].
  right. eexists. split; [| reflexivity]. lia.
Qed.

Lemma scheduleReminder_cases (env : Env) (input : ReminderJob) (log : Log) :
  (exists e, scheduleReminder env input log = (Throw e, log))
  \/ exists delay,
       0 <= delay
       /\ scheduleReminder env input log
          = (queue_add env (log ++ [QueueAdd (mkAddRequest "reminders" "reminders"
                                               (JReminder input) (jobIdForReminder input)
                                               (Some delay))])%list,
             (log ++ [QueueAdd (mkAddRequest "reminders" "reminders" (JReminder input)
                                  (jobIdForReminder input) (Some delay))])%list).
Proof.
  unfold scheduleReminder, getRemindersQueue, getQueue. run_m.
  destruct (ReminderJobSchema input); [| left; eexists; reflexivity].
  destruct (processEnv env "REDIS_URL") as [[|a url]|]; cbn [Str.truthy];
    [left; eexists; reflexivity | | left; eexists; reflexivity].
  right. eexists. split; [| reflexivity]. lia.
Qed.

(** The deadline job and its reminder, as the router schedules them for a
    deadline [t] that lies ahead. *)
Lemma timer_pair (env : Env) (nowSec : Z) (id : string) (t : Z) (kind : DeadlineKind)
    (lead : Z) (reason : ReminderReason) (log : Log) :
  nowSec < t ->
  exists new,
    snd ((scheduleDeadline env (mkDeadlineJob id t kind 0) ;;;
          (if t - lead >? nowSec
           then scheduleReminder env (mkReminderJob id (t - lead) both reason)
           else ret tt)) log)
    = (log ++ map QueueAdd new)%list
    /\ routedTimers nowSec kind lead reason new.
Proof.
  intros Hfuture. unfold bind.
  destruct (scheduleDeadline_cases env (mkDeadlineJob id t kind 0) log)
    as [(e & ->) | (delay & Hdelay & ->)].
  - exists []. split; [cbn; now rewrite app_nil_r | now left].
  - destruct (queue_add env _) as [[]|e].
    + destruct (t - lead >? nowSec) eqn:Hlead.
      * apply Z.gtb_lt in Hlead.
        match goal with
        | |- context [scheduleReminder env ?j ?l] =>
            destruct (scheduleReminder_cases env j l) as [(e & ->) | (delay' & Hdelay' & ->)]
        end.
        -- exists [routerDeadline id t kind delay]. split; [reflexivity |].
           right. exists id, t, delay. split; [exact Hfuture |]. split; [exact Hdelay |].
           now left.
        -- exists [routerDeadline id t kind delay; routerReminder id t lead reason delay'].
           split; [cbn [snd map]; rewrite <- app_assoc; reflexivity |].
           right. exists id, t, delay. split; [exact Hfuture |]. split; [exact Hdelay |].
           right. exists delay'. split; [exact Hlead |]. split; [exact Hdelay' | reflexivity].
      * exists [routerDeadline id t kind delay]. split; [reflexivity |].
        right. exists id, t, delay. split; [exact Hfuture |]. split; [exact Hdelay |].
        now left.
    + exists [routerDeadline id t kind delay]. split; [reflexivity |].
      right. exists id, t, delay. split; [exact Hfuture |]. split; [exact Hdelay |].
      now left.
Qed.

Lemma addRequests_map_QueueAdd (requests : list AddRequest) :
  addRequests (map QueueAdd requests) = requests.
Proof. induction requests as [|r rest IH]; [reflexivity | cbn; now rewrite IH]. Qed.

(** The log of an isolated turn is the log of its port calls: counting
    and catching add nothing. *)
Lemma snd_isolated_call {A B : Type} (m : M A) (f : A -> M B) (x : A -> Counts) (y : Counts)
    (l : Log) :
  snd (tryCatch (a <- m ;; (f a ;;; ret (x a))) (fun _ => ret y) l)
  = snd ((a <- m ;; f a) l).
Proof.
  unfold tryCatch, bind, ret.
  destruct (m l) as [[a|e] l1]; [destruct (f a l1) as [[b|e] l2] |]; reflexivity.
Qed.

Lemma snd_after_call {A B : Type} (request : Event) (oracle : Log -> Outcome A)
    (f : A -> M B) (l : Log) :
  snd ((a <- call request oracle ;; f a) l)
  = match oracle (l ++ [request])%list with
    | Ok a => snd (f a (l ++ [request])%list)
    | Throw _ => (l ++ [request])%list
    end.
Proof. unfold bind, call. destruct (oracle _); reflexivity. Qed.

(** X13. One routed event leaves at most two requests in the queues, and
    only timers that lie ahead. A funded event fetches the snapshot and
    may schedule the delivery deadline, and after it the reminder a day
    before; a delivered event fetches the snapshot and may schedule the
    dispute deadline, and after it the reminder two hours before. The
    jobs carry the snapshot's own id and nonce 0, the reminder is for both
    parties, no target time is at or before the router's [nowSec], no
    delay is negative, and a reminder is never scheduled without its
    deadline. Disputed, released and refunded events call no port. All
    this whatever the ports answer. *)
Theorem router_schedules_future_timers (env : Env) (nowSec : Z) (e : WebhookEvent)
    (c : Counts) (log : Log) :
  exists fetches requests,
    logAfter (routeEventIsolated env nowSec e c) log
    = (log ++ fetches ++ map QueueAdd requests)%list
    /\ match ev_effect e with
       | deal_funded d =>
           fetches = [GetDealSnapshot d]
           /\ routedTimers nowSec delivery 86400 deadline_upcoming requests
       | deal_delivered d =>
           fetches = [GetDealSnapshot d]
           /\ routedTimers nowSec dispute 7200 dispute_window_closing requests
       | _ => fetches = [] /\ requests = []
       end.
Proof.
  unfold logAfter, routeEventIsolated, routeEvent.
  destruct (ev_effect e) as [d|d|d|d|d];
    try (exists [], []; split; [cbn; rewrite ?app_nil_r; reflexivity | now split]);
    rewrite (snd_isolated_call _ _ (fun _ => mkCounts (accepted c + 1) (ignored c)));
    rewrite snd_after_call; exists [GetDealSnapshot d];
    (destruct (api_getDealSnapshot env _) as [snap|err];
     [| exists []; split; [cbn; rewrite ?app_nil_r; reflexivity | split; [reflexivity | now left]]]).
  - destruct (snap_deliveryBy snap) as [t|];
      [| exists []; split; [cbn; rewrite ?app_nil_r; reflexivity | split; [reflexivity | now left]]].
    destruct (t >? nowSec) eqn:Hfuture;
      [| exists []; split; [cbn; rewrite ?app_nil_r; reflexivity | split; [reflexivity | now left]]].
    apply Z.gtb_lt in Hfuture.
    destruct (timer_pair env nowSec (snap_id snap) t delivery 86400 deadline_upcoming
                (log ++ [GetDealSnapshot d])%list Hfuture) as (new & Hnew & Hshape).
    exists new. split; [| split; [reflexivity | exact Hshape]].
    change REMINDER_BEFORE_DELIVERY_SEC with 86400.
    rewrite Hnew, <- app_assoc. reflexivity.
  - destruct (snap_disputeUntil snap) as [t|];
      [| exists []; split; [cbn; rewrite ?app_nil_r; reflexivity | split; [reflexivity | now left]]].
    destruct (t >? nowSec) eqn:Hfuture;
      [| exists []; split; [cbn; rewrite ?app_nil_r; reflexivity | split; [reflexivity | now left]]].
    apply Z.gtb_lt in Hfuture.
    destruct (timer_pair env nowSec (snap_id snap) t dispute 7200 dispute_window_closing
                (log ++ [GetDealSnapshot d])%list Hfuture) as (new & Hnew & Hshape).
    exists new. split; [| split; [reflexivity | exact Hshape]].
    change REMINDER_BEFORE_DISPUTE_SEC with 7200.
    rewrite Hnew, <- app_assoc. reflexivity.
Qed.

(** X14. What the router counts without scheduling anything. A
    disputed, released or refunded event adds one to [ignored] and calls
    no port. A funded event whose snapshot holds no [deliveryBy], or one
    that is not after [nowSec] (the bound itself included), adds one to
    [accepted] after the fetch alone; likewise a delivered event and
    [disputeUntil]. A snapshot fetch that throws adds one to [ignored]. *)
Theorem router_counts_without_scheduling (env : Env) (nowSec : Z) (e : WebhookEvent)
    (c : Counts) (log : Log) :
  let run := routeEventIsolated env nowSec e c log in
  let counted := mkCounts (accepted c + 1) (ignored c) in
  let skipped := mkCounts (accepted c) (ignored c + 1) in
  (forall d, ev_effect e = deal_disputed d \/ ev_effect e = deal_released d
             \/ ev_effect e = deal_refunded d ->
     run = (Ok skipped, log))
  /\ (forall d snap, ev_effect e = deal_funded d ->
        api_getDealSnapshot env (log ++ [GetDealSnapshot d])%list = Ok snap ->
        (forall t, snap_deliveryBy snap = Some t -> t <= nowSec) ->
        run = (Ok counted, (log ++ [GetDealSnapshot d])%list))
  /\ (forall d snap, ev_effect e = deal_delivered d ->
        api_getDealSnapshot env (log ++ [GetDealSnapshot d])%list = Ok snap ->
        (forall t, snap_disputeUntil snap = Some t -> t <= nowSec) ->
        run = (Ok counted, (log ++ [GetDealSnapshot d])%list))
  /\ (forall d err, ev_effect e = deal_funded d \/ ev_effect e = deal_delivered d ->
        api_getDealSnapshot env (log ++ [GetDealSnapshot d])%list = Throw err ->
        run = (Ok skipped, (log ++ [GetDealSnapshot d])%list)).
Proof.
  intros run counted skipped. subst run counted skipped.
  unfold routeEventIsolated, routeEvent.
  split; [| split; [| split]].
  - intros d [-> | [-> | ->]]; reflexivity.
  - intros d snap -> Hsnap Hpast. unfold tryCatch. run_m. rewrite Hsnap.
    destruct (snap_deliveryBy snap) as [t|]; [| reflexivity].
    destruct (t >? nowSec) eqn:Hfuture; [| reflexivity].
    apply Z.gtb_lt in Hfuture. specialize (Hpast t eq_refl). lia.
  - intros d snap -> Hsnap Hpast. unfold tryCatch. run_m. rewrite Hsnap.
    destruct (snap_disputeUntil snap) as [t|]; [| reflexivity].
    destruct (t >? nowSec) eqn:Hfuture; [| reflexivity].
    apply Z.gtb_lt in Hfuture. specialize (Hpast t eq_refl). lia.
  - intros d err [-> | ->] Hsnap; unfold tryCatch; run_m; rewrite Hsnap; reflexivity.
Qed.

(** A funded event whose delivery deadline is the current second. *)
Lemma router_counts_without_scheduling_witness :
  routeEventIsolated
    (mockEnv testVars 1700000000000 (Some (mkMockSnapshot FUNDED (Some 1700000000) None)))
    1700000000
    (mkWebhookEvent "0123456789abcdef" "5sigsigsig" 1 1700000000 (deal_funded "D-1"))
    (mkCounts 0 0) []
  = (Ok (mkCounts 1 0), [GetDealSnapshot "D-1"]).
Proof.
  destruct (router_counts_without_scheduling
              (mockEnv testVars 1700000000000
                 (Some (mkMockSnapshot FUNDED (Some 1700000000) None)))
              1700000000
              (mkWebhookEvent "0123456789abcdef" "5sigsigsig" 1 1700000000 (deal_funded "D-1"))
              (mkCounts 0 0) []) as (_ & Hfunded & _).
  apply (Hfunded "D-1" (mkDealSnapshot "D-1" FUNDED (Some 1700000000) None));
    [reflexivity | reflexivity |].
  intros t E. injection E as <-. lia.
Defined.

End RouterTimers.

(* ------------------------------------------------------------------ *)
(** ** The reminder planner *)

Module PlannerFacts.

Lemma ReminderChannel_eqb_eq (a b : Planner.ReminderChannel) :
  Planner.ReminderChannel_eqb a b = true <-> a = b.
Proof. destruct a, b; simpl; split; congruence. Qed.

Lemma existsb_channel (c : Planner.ReminderChannel) (set : list Planner.ReminderChannel) :
  existsb (Planner.ReminderChannel_eqb c) set = true <-> In c set.
Proof.
  rewrite existsb_exists. split.
  - intros (x & Hx & E). apply ReminderChannel_eqb_eq in E. now subst.
  - intros H. exists c. split; [exact H | now apply ReminderChannel_eqb_eq].
Qed.

Lemma setFrom_NoDup (set channels : list Planner.ReminderChannel) :
  NoDup set -> NoDup (Planner.setFrom set channels).
Proof.
  revert set. induction channels as [|c rest IH]; intros set Hset; [exact Hset |].
  cbn [Planner.setFrom].
  destruct (existsb (Planner.ReminderChannel_eqb c) set) eqn:Hc; [now apply IH |].
  apply IH. apply NoDup_app; [exact Hset | repeat constructor; intros [] |].
  intros x Hx [<- | []].
  apply existsb_channel in Hx. congruence.
Qed.

Lemma setFrom_In (set channels : list Planner.ReminderChannel) (x : Planner.ReminderChannel) :
  In x (Planner.setFrom set channels) <-> In x set \/ In x channels.
Proof.
  revert set. induction channels as [|c rest IH]; intros set; [cbn; tauto |].
  cbn [Planner.setFrom In].
  destruct (existsb (Planner.ReminderChannel_eqb c) set) eqn:Hc; rewrite IH.
  - apply existsb_channel in Hc. split; [tauto |].
    intros [H | [<- | H]]; tauto.
  - rewrite in_app_iff. cbn [In]. tauto.
Qed.

(** A set that holds every element of the list is left as it is. *)
Lemma setFrom_absorbs (set channels : list Planner.ReminderChannel) :
  incl channels set -> Planner.setFrom set channels = set.
Proof.
  induction channels as [|c rest IH]; intros Hincl; [reflexivity |].
  cbn [Planner.setFrom].
  assert (Hc : existsb (Planner.ReminderChannel_eqb c) set = true)
    by (apply existsb_channel, Hincl; now left).
  rewrite Hc. apply IH. intros x Hx. apply Hincl. now right.
Qed.

(** A list without repetitions enters the set as it is. *)
Lemma setFrom_fresh (set channels : list Planner.ReminderChannel) :
  NoDup (set ++ channels) -> Planner.setFrom set channels = (set ++ channels)%list.
Proof.
  revert set. induction channels as [|c rest IH]; intros set Hnodup.
  - cbn. now rewrite app_nil_r.
  - cbn [Planner.setFrom].
    assert (Hc : existsb (Planner.ReminderChannel_eqb c) set = false).
    { destruct (existsb _ set) eqn:E; [| reflexivity].
      apply existsb_channel in E. apply NoDup_remove_2 in Hnodup.
      exfalso. apply Hnodup, in_or_app. now left. }
    rewrite Hc.
    replace (set ++ c :: rest)%list with ((set ++ [c]) ++ rest)%list in *
      by (rewrite <- app_assoc; reflexivity).
    now apply IH.
Qed.

Lemma NoDup_channels_length (l : list Planner.ReminderChannel) :
  NoDup l -> (List.length l <= 4)%nat.
Proof.
  intros Hnodup.
  apply (NoDup_incl_length Hnodup
           (l' := [Planner.email; Planner.sms; Planner.push; Planner.webhook])).
  intros []; cbn; tauto.
Qed.

(** X15. The channels of a plan: [email] when the configuration names
    none (absent or empty); otherwise the channels named, each once, in
    the order of their first appearance. The result is never empty, holds
    no channel twice and at most four, contains exactly the channels
    named, keeps a list without repetitions as it is, and is a fixed point
    of the function. *)
Theorem channels_deduplicated (channels : option (list Planner.ReminderChannel)) :
  let result := Planner.dedupeChannels channels in
  result <> []
  /\ NoDup result
  /\ (List.length result <= 4)%nat
  /\ (forall cs, channels = Some cs -> cs <> [] ->
        (forall c, In c result <-> In c cs)
        /\ hd_error result = hd_error cs
        /\ (NoDup cs -> result = cs))
  /\ ((channels = None \/ channels = Some []) -> result = [Planner.email])
  /\ Planner.dedupeChannels (Some result) = result.
Proof.
  intros result.
  assert (Hnodup : NoDup result).
  { subst result. destruct channels as [[|c cs]|]; cbn [Planner.dedupeChannels];
      [repeat constructor; intros [] | apply setFrom_NoDup; constructor
      | repeat constructor; intros []]. }
  assert (Hne : result <> []).
  { subst result. destruct channels as [[|c cs]|]; cbn [Planner.dedupeChannels];
      [discriminate | | discriminate].
    intros E. assert (Hin : In c (Planner.setFrom [] (c :: cs)))
      by (apply setFrom_In; right; now left).
    rewrite E in Hin. destruct Hin. }
  split; [exact Hne |]. split; [exact Hnodup |].
  split; [now apply NoDup_channels_length |]. split; [| split].
  - intros cs -> Hcs. subst result. destruct cs as [|c cs]; [congruence |].
    cbn [Planner.dedupeChannels]. split; [| split].
    + intros x. rewrite setFrom_In. cbn [In]. tauto.
    + cbn [Planner.setFrom existsb app hd_error].
      assert (Hhead : forall set rest, hd_error (Planner.setFrom (c :: set) rest) = Some c).
      { intros set rest. revert set. induction rest as [|x rest IH]; intros set; [reflexivity |].
        cbn [Planner.setFrom]. destruct (existsb _ (c :: set)); [apply IH |].
        cbn [app]. apply IH. }
      apply Hhead.
    + intros Hcs'. now apply (setFrom_fresh [] (c :: cs)).
  - intros [-> | ->]; reflexivity.
  - destruct result as [|c rest] eqn:E; [congruence |].
    cbn [Planner.dedupeChannels]. apply (setFrom_fresh [] (c :: rest)). exact Hnodup.
Qed.

(** Four entries naming two channels. *)
Lemma channels_deduplicated_witness :
  Planner.dedupeChannels (Some [Planner.sms; Planner.email; Planner.sms; Planner.email])
  = [Planner.sms; Planner.email]
  /\ (forall c, In c (Planner.dedupeChannels
                        (Some [Planner.sms; Planner.email; Planner.sms; Planner.email]))
                <-> In c [Planner.sms; Planner.email; Planner.sms; Planner.email]).
Proof.
  split; [reflexivity |].
  destruct (channels_deduplicated
              (Some [Planner.sms; Planner.email; Planner.sms; Planner.email]))
    as (_ & _ & _ & Hnamed & _).
  apply (Hnamed [Planner.sms; Planner.email; Planner.sms; Planner.email] eq_refl).
  discriminate.
Defined.

(** X16. A plan always holds six jobs, in this order: the pre-deadline
    reminder to the buyer, the deadline notices to buyer and seller, the
    overdue notices to buyer and seller, and the escalation, addressed to
    the seller. All carry the deal id and the same channels. The
    escalation runs [escalateAfterHours] after the overdue notices, that
    is [overdueAfterHours + escalateAfterHours] after the deadline (96
    hours with the defaults and not 72). With hours that are not negative
    the plan is in time order. *)
Theorem plan_is_six_jobs_in_time_order (config : Planner.EscrowReminderConfig) :
  let jobs := Planner.planReminderJobs config in
  let deadlineAt := Planner.rc_deadlineAtMs config in
  let pre := Planner.orDefault (Planner.rc_preDeadlineHours config) 24 in
  let over := Planner.orDefault (Planner.rc_overdueAfterHours config) 24 in
  let esc := Planner.orDefault (Planner.rc_escalateAfterHours config) 72 in
  map Planner.pj_kind jobs
  = [Planner.pre_deadline; Planner.deadline; Planner.deadline; Planner.overdue;
     Planner.overdue; Planner.escalation]
  /\ map Planner.pj_targetUserId jobs
     = [Planner.rc_buyerId config; Planner.rc_buyerId config; Planner.rc_sellerId config;
        Planner.rc_buyerId config; Planner.rc_sellerId config; Planner.rc_sellerId config]
  /\ map Planner.pj_runAtMs jobs
     = [deadlineAt - pre * 3600000; deadlineAt; deadlineAt;
        deadlineAt + over * 3600000; deadlineAt + over * 3600000;
        deadlineAt + (over + esc) * 3600000]
  /\ Forall (fun job =>
               Planner.pj_dealId job = Planner.rc_dealId config
               /\ Planner.pj_channels job = Planner.dedupeChannels (Planner.rc_channels config))
            jobs
  /\ (0 <= pre -> 0 <= over -> 0 <= esc ->
      StronglySorted Z.le (map Planner.pj_runAtMs jobs)).
Proof.
  intros jobs deadlineAt pre over esc.
  assert (Htimes : map Planner.pj_runAtMs jobs
                   = [deadlineAt - pre * 3600000; deadlineAt; deadlineAt;
                      deadlineAt + over * 3600000; deadlineAt + over * 3600000;
                      deadlineAt + (over + esc) * 3600000]).
  { subst jobs. unfold Planner.planReminderJobs, Planner.hoursToMs.
    cbn [map Planner.pj_runAtMs]. fold deadlineAt.
    change Planner.DEFAULT_PRE_DEADLINE_HOURS with 24.
    change Planner.DEFAULT_OVERDUE_AFTER_HOURS with 24.
    change Planner.DEFAULT_ESCALATE_AFTER_HOURS with 72.
    fold pre over esc. repeat (apply (f_equal2 cons); [lia |]). reflexivity. }
  split; [reflexivity |]. split; [reflexivity |]. split; [exact Htimes |]. split.
  - subst jobs. unfold Planner.planReminderJobs. repeat constructor.
  - intros Hpre Hover Hesc. rewrite Htimes.
    repeat (constructor; [| repeat constructor; lia]). constructor.
Qed.

(** The defaults, for a deadline at 1700000000000: the escalation is due
    96 hours after the deadline. *)
Lemma plan_is_six_jobs_in_time_order_witness :
  map Planner.pj_runAtMs
    (Planner.planReminderJobs
       (Planner.mkEscrowReminderConfig "D-1" "buyer-1" "seller-1" 1700000000000
          None None None None))
  = [1699913600000; 1700000000000; 1700000000000; 1700086400000; 1700086400000;
     1700345600000]
  /\ StronglySorted Z.le
       (map Planner.pj_runAtMs
          (Planner.planReminderJobs
             (Planner.mkEscrowReminderConfig "D-1" "buyer-1" "seller-1" 1700000000000
                None None None None))).
Proof.
  destruct (plan_is_six_jobs_in_time_order
              (Planner.mkEscrowReminderConfig "D-1" "buyer-1" "seller-1" 1700000000000
                 None None None None)) as (_ & _ & Htimes & _ & Hsorted).
  split; [exact Htimes |]. apply Hsorted; simpl; lia.
Defined.

Lemma getDueReminderJobs_earlier (jobs : list Planner.ReminderJob) (now1 now2 : Z) :
  now1 <= now2 ->
  Planner.getDueReminderJobs (Planner.getDueReminderJobs jobs now2) now1
  = Planner.getDueReminderJobs jobs now1.
Proof.
  intros Hle. unfold Planner.getDueReminderJobs.
  induction jobs as [|job rest IH]; [reflexivity |]. cbn [filter].
  destruct (Planner.pj_runAtMs job <=? now2) eqn:H2;
    destruct (Planner.pj_runAtMs job <=? now1) eqn:H1; cbn [filter]; rewrite ?H1, ?IH;
    try reflexivity.
  apply Z.leb_le in H1. apply Z.leb_gt in H2. lia.
Qed.

(** X17. The due jobs are those whose run time is not after [nowMs], in
    the order of the list; what is due at one time is still due later.
    For a plan with hours that are not negative the due jobs are a prefix
    of the plan, of length 0, 1, 3, 5 or 6: nothing before the
    pre-deadline time, everything from the escalation time on, and the
    two notices of a pair always together. *)
Theorem due_jobs_are_a_prefix_of_the_plan (config : Planner.EscrowReminderConfig)
    (nowMs : Z) :
  let jobs := Planner.planReminderJobs config in
  let deadlineAt := Planner.rc_deadlineAtMs config in
  let pre := Planner.orDefault (Planner.rc_preDeadlineHours config) 24 in
  let over := Planner.orDefault (Planner.rc_overdueAfterHours config) 24 in
  let esc := Planner.orDefault (Planner.rc_escalateAfterHours config) 72 in
  0 <= pre -> 0 <= over -> 0 <= esc ->
  (exists k, In k [0; 1; 3; 5; 6]%nat /\ Planner.getDueReminderJobs jobs nowMs = firstn k jobs)
  /\ (nowMs < deadlineAt - pre * 3600000 -> Planner.getDueReminderJobs jobs nowMs = [])
  /\ (deadlineAt + (over + esc) * 3600000 <= nowMs ->
      Planner.getDueReminderJobs jobs nowMs = jobs)
  /\ (forall earlier, earlier <= nowMs ->
        incl (Planner.getDueReminderJobs jobs earlier) (Planner.getDueReminderJobs jobs nowMs)).
Proof.
  intros jobs deadlineAt pre over esc Hpre Hover Hesc.
  assert (Hshape :
            Planner.getDueReminderJobs jobs nowMs
            = firstn (if deadlineAt + (over + esc) * 3600000 <=? nowMs then 6%nat
                      else if deadlineAt + over * 3600000 <=? nowMs then 5%nat
                      else if deadlineAt <=? nowMs then 3%nat
                      else if deadlineAt - pre * 3600000 <=? nowMs then 1%nat
                      else 0%nat) jobs).
  { subst jobs. unfold Planner.getDueReminderJobs, Planner.planReminderJobs, Planner.hoursToMs.
    cbn [filter Planner.pj_runAtMs]. fold deadlineAt.
    change Planner.DEFAULT_PRE_DEADLINE_HOURS with 24.
    change Planner.DEFAULT_OVERDUE_AFTER_HOURS with 24.
    change Planner.DEFAULT_ESCALATE_AFTER_HOURS with 72.
    fold pre over esc.
    destruct (Z.leb_spec (deadlineAt + (over + esc) * 3600000) nowMs);
      destruct (Z.leb_spec (deadlineAt + over * 3600000) nowMs);
      destruct (Z.leb_spec deadlineAt nowMs);
      destruct (Z.leb_spec (deadlineAt - pre * 3600000) nowMs);
      try lia;
      repeat match goal with
             | |- context [?a <=? nowMs] =>
                 destruct (Z.leb_spec a nowMs); try lia
             end;
      reflexivity. }
  split; [| split; [| split]].
  - rewrite Hshape. eexists. split; [| reflexivity].
    destruct (_ <=? nowMs); [cbn; tauto |].
    destruct (_ <=? nowMs); [cbn; tauto |].
    destruct (_ <=? nowMs); [cbn; tauto |].
    destruct (_ <=? nowMs); cbn; tauto.
  - intros Hearly. rewrite Hshape.
    repeat match goal with
           | |- context [?a <=? nowMs] => destruct (Z.leb_spec a nowMs); try lia
           end.
    reflexivity.
  - intros Hlate. rewrite Hshape.
    destruct (Z.leb_spec (deadlineAt + (over + esc) * 3600000) nowMs); [reflexivity | lia].
  - intros earlier Hle job Hjob.
    rewrite <- (getDueReminderJobs_earlier jobs earlier nowMs Hle) in Hjob.
    unfold Planner.getDueReminderJobs in Hjob at 1. apply filter_In in Hjob. tauto.
Qed.

(** The default plan one hour after the deadline: the reminder and the
    two deadline notices are due. *)
Lemma due_jobs_are_a_prefix_of_the_plan_witness :
  Planner.getDueReminderJobs
    (Planner.planReminderJobs
       (Planner.mkEscrowReminderConfig "D-1" "buyer-1" "seller-1" 1700000000000
          None None None (Some [Planner.sms; Planner.sms])))
    1700003600000
  = [ Planner.mkReminderJob Planner.pre_deadline "D-1" "buyer-1" [Planner.sms] 1699913600000;
      Planner.mkReminderJob Planner.deadline "D-1" "buyer-1" [Planner.sms] 1700000000000;
      Planner.mkReminderJob Planner.deadline "D-1" "seller-1" [Planner.sms] 1700000000000 ]
  /\ Planner.getDueReminderJobs
       (Planner.planReminderJobs
          (Planner.mkEscrowReminderConfig "D-1" "buyer-1" "seller-1" 1700000000000
             None None None (Some [Planner.sms; Planner.sms])))
       1699913599999
     = [].
Proof.
  split; [reflexivity |].
  destruct (due_jobs_are_a_prefix_of_the_plan
              (Planner.mkEscrowReminderConfig "D-1" "buyer-1" "seller-1" 1700000000000
                 None None None (Some [Planner.sms; Planner.sms]))
              1699913599999) as (_ & Hearly & _); try (simpl; lia).
  apply Hearly. simpl. lia.
Defined.

End PlannerFacts.

(* ------------------------------------------------------------------ *)
(** ** Car-escrow planning *)

Module CarEscrowFacts.

(** Test vectors of the date rendering: the epoch and the millisecond
    before it, leap days, the ends of the four-digit years and of the
    range of [Date]. *)
Example toISOString_vectors :
  map CarEscrow.toISOString
    [0; -1; 1700000000000; 1709164800000; 951868799999; 4107542399999; 68256000000;
     253402300799999; 253402300800000; -62167219200000; -62167219200001;
     8640000000000000; -8640000000000000; 8640000000000001]
  = [Some "1970-01-01T00:00:00.000Z"; Some "1969-12-31T23:59:59.999Z";
     Some "2023-11-14T22:13:20.000Z"; Some "2024-02-29T00:00:00.000Z";
     Some "2000-02-29T23:59:59.999Z"; Some "2100-02-28T23:59:59.999Z";
     Some "1972-03-01T00:00:00.000Z"; Some "9999-12-31T23:59:59.999Z";
     Some "+010000-01-01T00:00:00.000Z"; Some "0000-01-01T00:00:00.000Z";
     Some "-000001-12-31T23:59:59.999Z"; Some "+275760-09-13T00:00:00.000Z";
     Some "-271821-04-20T00:00:00.000Z"; None].
Proof. vm_compute. reflexivity. Qed.

(** The risk computation, one branch at a time: the outcome of each
    test is all that the result depends on. *)
Ltac risk_cases input :=
  destruct input as [price delivery title odometer modelYear salvage];
  unfold CarEscrow.computeCarRisk;
  cbn [CarEscrow.priceUsd CarEscrow.deliveryType CarEscrow.hasTitleInHand
       CarEscrow.odometerMiles CarEscrow.year CarEscrow.isSalvageTitle];
  match goal with
  | |- context [Z.max 0 ?age >=? 15] =>
      generalize (price >=? 20000), (price >=? 10000), (Z.max 0 age >=? 15),
                 (odometer >=? 150000)
  end;
  intros expensive costly old worn;
  destruct delivery, title, salvage as [[]|], expensive, costly, old, worn;
  cbv - [Z.le Z.lt Nat.le].

Ltac settle := repeat split; intros; try reflexivity; try discriminate; try lia.

(** X18. The risk score of a car sale lies between 1 and 10 (the sum of
    the weights can reach 13 and is cut at 10); the level is low up to 3,
    medium up to 6 and high from 7 on; between one and six reasons are
    given, the delivery type always among them; the score is 1 exactly
    when the only reason is a local pickup; and a cross-country delivery
    is never low risk. *)
Theorem risk_score_and_level (nowYear : Z) (input : CarEscrow.CarSaleInput) :
  let risk := CarEscrow.computeCarRisk nowYear input in
  1 <= CarEscrow.score risk <= 10
  /\ (CarEscrow.level risk = CarEscrow.low <-> CarEscrow.score risk <= 3)
  /\ (CarEscrow.level risk = CarEscrow.medium <-> 4 <= CarEscrow.score risk <= 6)
  /\ (CarEscrow.level risk = CarEscrow.high <-> 7 <= CarEscrow.score risk)
  /\ (1 <= List.length (CarEscrow.reasons risk) <= 6)%nat
  /\ (CarEscrow.score risk = 1
      <-> CarEscrow.reasons risk = ["Local pickup (in-person)"])
  /\ (CarEscrow.deliveryType input = CarEscrow.cross_country_carrier ->
      CarEscrow.level risk <> CarEscrow.low).
Proof.
  intros risk. subst risk. risk_cases input; settle.
Qed.

(** A salvage car sold across the country without a title: every weight
    applies and the score is cut at 10. *)
Lemma risk_score_and_level_witness :
  CarEscrow.computeCarRisk 2026
    (CarEscrow.mkCarSaleInput 25000 CarEscrow.cross_country_carrier false 180000 2005
       (Some true))
  = CarEscrow.mkCarRisk 10 CarEscrow.high
      ["High-value vehicle (>= $20k)"; "Cross-country / remote delivery";
       "Seller does not have clear title in hand"; "Salvage / rebuilt title";
       "Older vehicle (>= 15 years)"; "High mileage (>= 150k miles)"]
  /\ CarEscrow.level
       (CarEscrow.computeCarRisk 2026
          (CarEscrow.mkCarSaleInput 25000 CarEscrow.cross_country_carrier false 180000 2005
             (Some true)))
     <> CarEscrow.low.
Proof.
  split; [reflexivity |].
  apply (risk_score_and_level 2026
           (CarEscrow.mkCarSaleInput 25000 CarEscrow.cross_country_carrier false 180000 2005
              (Some true))).
  reflexivity.
Defined.

(** The level is read off the final score. *)
Lemma computeCarRisk_level (nowYear : Z) (input : CarEscrow.CarSaleInput) :
  CarEscrow.level (CarEscrow.computeCarRisk nowYear input)
  = if CarEscrow.score (CarEscrow.computeCarRisk nowYear input) <=? 3 then CarEscrow.low
    else if CarEscrow.score (CarEscrow.computeCarRisk nowYear input) <=? 6
    then CarEscrow.medium
    else CarEscrow.high.
Proof.
  unfold CarEscrow.computeCarRisk.
  repeat match goal with
         | |- context [let '(s, r) := ?X in _] => destruct X as [? ?]
         end.
  reflexivity.
Qed.

Lemma toISOString_in_range (ms : Z) :
  -8640000000000000 <= ms <= 8640000000000000 ->
  exists iso, CarEscrow.toISOString ms = Some iso.
Proof.
  intros Hrange. unfold CarEscrow.toISOString.
  destruct (ms <? -8640000000000000) eqn:Hlow; [apply Z.ltb_lt in Hlow; lia |].
  destruct (8640000000000000 <? ms) eqn:Hhigh; [apply Z.ltb_lt in Hhigh; lia |].
  cbn [orb]. destruct (CarEscrow.civilFromDays _) as [[y m] d]. eexists. reflexivity.
Qed.

(** What a plan holds, field by field. *)
Lemma computeCarEscrowPlan_fields (nowYear now : Z) (input : CarEscrow.CarSaleInput)
    (plan : CarEscrow.CarEscrowPlan) :
  let risk := CarEscrow.computeCarRisk nowYear input in
  let hours :=
    match CarEscrow.deliveryType input with
    | CarEscrow.local_pickup => 24
    | CarEscrow.same_city_carrier => 72
    | CarEscrow.cross_country_carrier => 168
    end in
  let window :=
    match CarEscrow.level risk with
    | CarEscrow.low => 48
    | CarEscrow.medium => 72
    | CarEscrow.high => 168
    end in
  CarEscrow.computeCarEscrowPlan nowYear now input = Some plan ->
  plan = CarEscrow.mkCarEscrowPlan (CarEscrow.score risk) (CarEscrow.level risk)
           (CarEscrow.reasons risk) hours window
           (match CarEscrow.deliveryType input with
            | CarEscrow.local_pickup => [360; 60]
            | _ => [1440; 360; 60]
            end)
           (CarEscrow.deliveryDeadlineAtIso plan) (CarEscrow.disputeWindowEndsAtIso plan)
  /\ CarEscrow.toISOString (now + hours * 3600000)
     = Some (CarEscrow.deliveryDeadlineAtIso plan)
  /\ CarEscrow.toISOString (now + (hours + window) * 3600000)
     = Some (CarEscrow.disputeWindowEndsAtIso plan).
Proof.
  intros risk hours window. unfold CarEscrow.computeCarEscrowPlan. fold risk.
  assert (Hwindow : (if CarEscrow.score risk >=? 7 then 7 * 24
                     else if CarEscrow.score risk >=? 4 then 3 * 24 else 48) = window).
  { subst window. unfold risk at 3. rewrite computeCarRisk_level. fold risk.
    rewrite !Z.geb_leb.
    destruct (Z.leb_spec 7 (CarEscrow.score risk)), (Z.leb_spec 4 (CarEscrow.score risk)),
      (Z.leb_spec (CarEscrow.score risk) 3), (Z.leb_spec (CarEscrow.score risk) 6);
      try lia; reflexivity. }
  rewrite Hwindow.
  assert (Hhours : match CarEscrow.deliveryType input with
                   | CarEscrow.same_city_carrier => 72
                   | CarEscrow.cross_country_carrier => 7 * 24
                   | CarEscrow.local_pickup => 24
                   end = hours)
    by (subst hours; destruct (CarEscrow.deliveryType input); reflexivity).
  rewrite Hhours.
  replace (now + hours * 60 * 60 * 1000) with (now + hours * 3600000) by lia.
  replace (now + hours * 3600000 + window * 60 * 60 * 1000)
    with (now + (hours + window) * 3600000) by lia.
  destruct (CarEscrow.toISOString (now + hours * 3600000)) as [iso1|]; [| discriminate].
  destruct (CarEscrow.toISOString (now + (hours + window) * 3600000)) as [iso2|];
    [| discriminate].
  intros E. injection E as <-. cbn [CarEscrow.deliveryDeadlineAtIso CarEscrow.disputeWindowEndsAtIso].
  split; [| split; reflexivity].
  subst hours. destruct (CarEscrow.deliveryType input); reflexivity.
Qed.

(** A plan exists whenever both of its dates can be rendered. *)
Lemma computeCarEscrowPlan_total (nowYear now : Z) (input : CarEscrow.CarSaleInput) :
  -8640000000000000 <= now <= 8640000000000000 - 336 * 3600000 ->
  exists plan, CarEscrow.computeCarEscrowPlan nowYear now input = Some plan.
Proof.
  intros Hrange.
  set (hours := match CarEscrow.deliveryType input with
                | CarEscrow.local_pickup => 24
                | CarEscrow.same_city_carrier => 72
                | CarEscrow.cross_country_carrier => 168
                end).
  assert (Hhours : 24 <= hours <= 168)
    by (subst hours; destruct (CarEscrow.deliveryType input); lia).
  destruct (toISOString_in_range (now + hours * 3600000)) as (iso1 & E1); [lia |].
  unfold CarEscrow.computeCarEscrowPlan.
  replace (now + match CarEscrow.deliveryType input with
                 | CarEscrow.same_city_carrier => 72
                 | CarEscrow.cross_country_carrier => 7 * 24
                 | CarEscrow.local_pickup => 24
                 end * 60 * 60 * 1000)
    with (now + hours * 3600000)
    by (subst hours; destruct (CarEscrow.deliveryType input); lia).
  rewrite E1.
  match goal with
  | |- context [CarEscrow.toISOString ?ms] =>
      destruct (toISOString_in_range ms) as (iso & ->)
  end.
  - destruct (_ >=? 7); [| destruct (_ >=? 4)]; lia.
  - eexists. reflexivity.
Qed.

(** X19. The timing plan of a car sale. The delivery deadline is 24, 72 or
    168 hours ahead for a local pickup, a same-city carrier and a
    cross-country carrier; the dispute window is 48, 72 or 168 hours for
    low, medium and high risk; the reminders are 6 hours and 1 hour before
    the deadline for a local pickup and 24 hours, 6 hours and 1 hour
    before it otherwise (the 6-hour reminder is never left out), each of
    them after the time of planning; the two dates are the renderings of
    the deadline and of the end of the dispute window that follows it.
    A plan exists for every time from which the end of the longest window
    can still be rendered as a date. *)
Theorem plan_follows_delivery_and_risk (nowYear now : Z) (input : CarEscrow.CarSaleInput) :
  let risk := CarEscrow.computeCarRisk nowYear input in
  let hours :=
    match CarEscrow.deliveryType input with
    | CarEscrow.local_pickup => 24
    | CarEscrow.same_city_carrier => 72
    | CarEscrow.cross_country_carrier => 168
    end in
  let window :=
    match CarEscrow.level risk with
    | CarEscrow.low => 48
    | CarEscrow.medium => 72
    | CarEscrow.high => 168
    end in
  (forall plan, CarEscrow.computeCarEscrowPlan nowYear now input = Some plan ->
     CarEscrow.riskScore plan = CarEscrow.score risk
     /\ CarEscrow.riskLevel plan = CarEscrow.level risk
     /\ CarEscrow.plan_reasons plan = CarEscrow.reasons risk
     /\ CarEscrow.deliveryDeadlineHoursFromNow plan = hours
     /\ CarEscrow.disputeWindowHours plan = window
     /\ CarEscrow.reminderMinutesBefore plan
        = match CarEscrow.deliveryType input with
          | CarEscrow.local_pickup => [360; 60]
          | _ => [1440; 360; 60]
          end
     /\ Forall (fun m => 0 < m /\ m * 60 * 1000 < hours * 3600000)
               (CarEscrow.reminderMinutesBefore plan)
     /\ CarEscrow.toISOString (now + hours * 3600000)
        = Some (CarEscrow.deliveryDeadlineAtIso plan)
     /\ CarEscrow.toISOString (now + (hours + window) * 3600000)
        = Some (CarEscrow.disputeWindowEndsAtIso plan))
  /\ (-8640000000000000 <= now <= 8640000000000000 - 336 * 3600000 ->
      exists plan, CarEscrow.computeCarEscrowPlan nowYear now input = Some plan).
Proof.
  intros risk hours window. split.
  - intros plan Hplan.
    destruct (computeCarEscrowPlan_fields nowYear now input plan Hplan)
      as (Hfields & Hdelivery & Hdispute).
    fold risk hours window in Hfields, Hdelivery, Hdispute.
    rewrite Hfields. cbn [CarEscrow.riskScore CarEscrow.riskLevel CarEscrow.plan_reasons
                          CarEscrow.deliveryDeadlineHoursFromNow CarEscrow.disputeWindowHours
                          CarEscrow.reminderMinutesBefore CarEscrow.deliveryDeadlineAtIso
                          CarEscrow.disputeWindowEndsAtIso].
    repeat (split; [reflexivity |]). split; [| split; assumption].
    subst hours. destruct (CarEscrow.deliveryType input); repeat constructor; lia.
  - apply computeCarEscrowPlan_total.
Qed.

(** A cheap local pickup planned at 1700000000000. *)
Lemma plan_follows_delivery_and_risk_witness :
  CarEscrow.computeCarEscrowPlan 2026 1700000000000
    (CarEscrow.mkCarSaleInput 8000 CarEscrow.local_pickup true 60000 2019 None)
  = Some (CarEscrow.mkCarEscrowPlan 1 CarEscrow.low ["Local pickup (in-person)"]
            24 48 [360; 60] "2023-11-15T22:13:20.000Z" "2023-11-17T22:13:20.000Z")
  /\ exists plan,
       CarEscrow.computeCarEscrowPlan 2026 1700000000000
         (CarEscrow.mkCarSaleInput 8000 CarEscrow.local_pickup true 60000 2019 None)
       = Some plan.
Proof.
  split; [vm_compute; reflexivity |].
  apply (plan_follows_delivery_and_risk 2026 1700000000000
           (CarEscrow.mkCarSaleInput 8000 CarEscrow.local_pickup true 60000 2019 None)).
  lia.
Defined.

(** X20. The manual-schedule route and the full-plan producer together:
    the route turns a plan into a schedule relative to its own reading of
    the clock, and the producer reads the clock again. As long as less
    than 18 hours pass between the two readings and the queue accepts the
    requests, every reminder of the plan is enqueued (none is skipped as
    past), between the deadline job and the escalation job, and the
    escalation is delayed by the dispute window beyond the deadline. *)
Theorem manual_schedule_enqueues_every_reminder (env : Env) (nowYear planNow now : Z)
    (input : CarEscrow.CarSaleInput) (plan : CarEscrow.CarEscrowPlan) (escrowPubkey : string)
    (log : Log) :
  let schedule := CarEscrow.manualSchedule escrowPubkey plan now in
  let deliveryAt := now + CarEscrow.deliveryDeadlineHoursFromNow plan * 3600000 in
  let deadlineDelay := deliveryAt - clock env log in
  let deadline :=
    mkAddRequest "escrow:deadline" "deadline" (JEscrowDeadline escrowPubkey deliveryAt)
      (escrowDeadlineJobId escrowPubkey) (Some deadlineDelay) in
  let reminder m :=
    mkAddRequest "escrow:reminder" "reminder" (JEscrowReminder escrowPubkey deliveryAt m)
      (escrowReminderJobId escrowPubkey m) (Some (deadlineDelay - m * 60000)) in
  let escalation :=
    mkAddRequest "escrow:escalation" "escalation"
      (JEscrowEscalation escrowPubkey deliveryAt (CarEscrow.disputeWindowHours plan * 3600))
      (escrowEscalationJobId escrowPubkey)
      (Some (deadlineDelay + CarEscrow.disputeWindowHours plan * 3600000)) in
  CarEscrow.computeCarEscrowPlan nowYear planNow input = Some plan ->
  (forall l, queue_add env l = Ok tt) ->
  clock env log - now < 18 * 3600000 ->
  scheduleEscrowJobs env carEscrowQueues schedule log
  = (Ok tt,
     (log ++ map QueueAdd
               (deadline :: map reminder (CarEscrow.reminderMinutesBefore plan)
                  ++ [escalation]))%list).
Proof.
  intros schedule deliveryAt deadlineDelay deadline reminder escalation Hplan Hadd Hsoon.
  destruct (computeCarEscrowPlan_fields nowYear planNow input plan Hplan) as (Hfields & _ & _).
  assert (Hhours : 24 <= CarEscrow.deliveryDeadlineHoursFromNow plan
                   /\ Forall (fun m => m * 60000
                                       <= CarEscrow.deliveryDeadlineHoursFromNow plan * 3600000
                                          - 18 * 3600000)
                        (CarEscrow.reminderMinutesBefore plan)).
  { rewrite Hfields. cbn [CarEscrow.deliveryDeadlineHoursFromNow CarEscrow.reminderMinutesBefore].
    destruct (CarEscrow.deliveryType input); split; try lia; repeat constructor; lia. }
  destruct Hhours as (Hhours & Hreminders).
  assert (Hdue : filter (fun m => 0 <? deliveryAt - clock env log - m * 60 * 1000)
                        (CarEscrow.reminderMinutesBefore plan)
                 = CarEscrow.reminderMinutesBefore plan).
  { induction Hreminders as [|m rest Hm _ IH]; [reflexivity |].
    cbn [filter]. rewrite IH.
    destruct (Z.ltb_spec 0 (deliveryAt - clock env log - m * 60 * 1000)); [reflexivity |].
    subst deliveryAt. lia. }
  unfold scheduleEscrowJobs. DeadlineProcessor.run_m.
  subst schedule. unfold CarEscrow.manualSchedule.
  cbn [es_deliveryAtMs es_escrowPubkey es_reminderMinutesBefore es_disputeWindowSeconds
       carEscrowQueues eq_deadlineQueue eq_reminderQueue eq_escalationQueue].
  replace (now + CarEscrow.deliveryDeadlineHoursFromNow plan * 60 * 60 * 1000)
    with deliveryAt by (subst deliveryAt; lia).
  destruct (Z.leb_spec deliveryAt (clock env log)); [subst deliveryAt; lia |].
  rewrite Hadd.
  rewrite (Producers.scheduleEscrowReminders_run env _ escrowPubkey deliveryAt (clock env log)
             _ _ Hadd).
  rewrite Hadd, Hdue.
  replace (CarEscrow.disputeWindowHours plan * 60 * 60)
    with (CarEscrow.disputeWindowHours plan * 3600) by lia.
  replace (deliveryAt - clock env log + CarEscrow.disputeWindowHours plan * 3600 * 1000)
    with (deadlineDelay + CarEscrow.disputeWindowHours plan * 3600000)
    by (subst deadlineDelay; lia).
  fold deadline escalation.
  rewrite (map_ext _ (fun m => QueueAdd (reminder m))).
  - cbn [map]. rewrite map_app, map_map. cbn [map].
    rewrite <- !app_assoc. reflexivity.
  - intros m. subst reminder deadlineDelay. cbn beta. cbn [carEscrowQueues eq_reminderQueue].
    do 3 f_equal. lia.
Qed.

(** A cheap local pickup, scheduled by a producer that reads the clock
    five seconds after the route did. *)
Lemma manual_schedule_enqueues_every_reminder_witness :
  scheduleEscrowJobs (mockEnv testVars 1700000005000 None) carEscrowQueues
    (CarEscrow.manualSchedule "CAR-1"
       (CarEscrow.mkCarEscrowPlan 1 CarEscrow.low ["Local pickup (in-person)"]
          24 48 [360; 60] "2023-11-15T22:13:20.000Z" "2023-11-17T22:13:20.000Z")
       1700000000000) []
  = (Ok tt,
     [ QueueAdd (mkAddRequest "escrow:deadline" "deadline"
                   (JEscrowDeadline "CAR-1" 1700086400000)
                   "escrow:CAR-1:deadline" (Some 86395000));
       QueueAdd (mkAddRequest "escrow:reminder" "reminder"
                   (JEscrowReminder "CAR-1" 1700086400000 360)
                   "escrow:CAR-1:reminder:360m" (Some 64795000));
       QueueAdd (mkAddRequest "escrow:reminder" "reminder"
                   (JEscrowReminder "CAR-1" 1700086400000 60)
                   "escrow:CAR-1:reminder:60m" (Some 82795000));
       QueueAdd (mkAddRequest "escrow:escalation" "escalation"
                   (JEscrowEscalation "CAR-1" 1700086400000 172800)
                   "escrow:CAR-1:escalation" (Some 259195000)) ]).
Proof.
  apply (manual_schedule_enqueues_every_reminder (mockEnv testVars 1700000005000 None)
           2026 1700000000000 1700000000000
           (CarEscrow.mkCarSaleInput 8000 CarEscrow.local_pickup true 60000 2019 None)
           (CarEscrow.mkCarEscrowPlan 1 CarEscrow.low ["Local pickup (in-person)"]
              24 48 [360; 60] "2023-11-15T22:13:20.000Z" "2023-11-17T22:13:20.000Z")
           "CAR-1" []).
  - vm_compute. reflexivity.
  - reflexivity.
  - simpl. lia.
Defined.

(** A truthy salvage flag always shows among the reasons. *)
Lemma salvage_reason (nowYear : Z) (input : CarEscrow.CarSaleInput) :
  CarEscrow.isSalvageTitle input = Some true ->
  In "Salvage / rebuilt title" (CarEscrow.reasons (CarEscrow.computeCarRisk nowYear input)).
Proof.
  intros Hsalvage. unfold CarEscrow.computeCarRisk. rewrite Hsalvage.
  do 3 match goal with
       | |- context [let '(s, r) := ?X in _] => destruct X as [? ?]
       end.
  destruct (_ >=? 15); destruct (_ >=? 150000); cbn [CarEscrow.reasons];
    rewrite ?in_app_iff; cbn [In]; tauto.
Qed.

(** X28. The plan route checks the types of five fields and the name of
    the delivery type, and nothing else. It answers 400 with the
    invalid-payload message exactly when [priceUsd], [odometerMiles] or
    [year] is not a number, [deliveryType] is not a string or
    [hasTitleInHand] is not a boolean (a body that is no object included);
    with the types in place it answers 400 with the delivery-type message
    exactly when the name is none of the three; otherwise it answers with
    the plan computed from those fields. [isSalvageTitle] is taken as it
    comes and read for its truthiness, so any truthy value (the string
    [false], say) counts as a salvage title. *)
Theorem plan_route_checks_types_only (nowYear now : Z) (body : Json) :
  let response := CarRoutes.planRoute nowYear now body in
  let typed p t h m y :=
    CarRoutes.field body "priceUsd" = Some (JNumber p)
    /\ CarRoutes.field body "deliveryType" = Some (JString t)
    /\ CarRoutes.field body "hasTitleInHand" = Some (JBool h)
    /\ CarRoutes.field body "odometerMiles" = Some (JNumber m)
    /\ CarRoutes.field body "year" = Some (JNumber y) in
  (response = CarRoutes.BadRequest CarRoutes.INVALID_PAYLOAD
   <-> ~ exists p t h m y, typed p t h m y)
  /\ (forall p t h m y, typed p t h m y ->
        (response = CarRoutes.BadRequest CarRoutes.INVALID_DELIVERY
         <-> ~ In t ["local_pickup"; "same_city_carrier"; "cross_country_carrier"])
        /\ (forall carrier, CarRoutes.deliveryTypeOf t = Some carrier ->
              response
              = match CarEscrow.computeCarEscrowPlan nowYear now
                        (CarEscrow.mkCarSaleInput p carrier h m y
                           (option_map CarRoutes.truthyJson
                              (CarRoutes.field body "isSalvageTitle"))) with
                | Some plan => CarRoutes.PlanComputed plan
                | None => CarRoutes.Uncaught
                end))
  /\ (forall plan flag,
        response = CarRoutes.PlanComputed plan ->
        CarRoutes.field body "isSalvageTitle" = Some flag ->
        CarRoutes.truthyJson flag = true ->
        In "Salvage / rebuilt title" (CarEscrow.plan_reasons plan))
  /\ (-8640000000000000 <= now <= 8640000000000000 - 336 * 3600000 ->
      response <> CarRoutes.Uncaught).
Proof.
  intros response typed.
  assert (Htyped : forall p t h m y, typed p t h m y ->
            response
            = match CarRoutes.deliveryTypeOf t with
              | None => CarRoutes.BadRequest CarRoutes.INVALID_DELIVERY
              | Some carrier =>
                  match CarEscrow.computeCarEscrowPlan nowYear now
                          (CarEscrow.mkCarSaleInput p carrier h m y
                             (option_map CarRoutes.truthyJson
                                (CarRoutes.field body "isSalvageTitle"))) with
                  | Some plan => CarRoutes.PlanComputed plan
                  | None => CarRoutes.Uncaught
                  end
              end).
  { intros p t h m y (E1 & E2 & E3 & E4 & E5). subst response.
    unfold CarRoutes.planRoute. rewrite E1, E2, E3, E4, E5. reflexivity. }
  assert (Hdec : (exists p t h m y, typed p t h m y)
                 \/ response = CarRoutes.BadRequest CarRoutes.INVALID_PAYLOAD).
  { subst response typed. cbn beta. unfold CarRoutes.planRoute.
    destruct (CarRoutes.field body "priceUsd") as [[| | p | | |]|];
      try (right; reflexivity).
    destruct (CarRoutes.field body "deliveryType") as [[| | | t | |]|];
      try (right; reflexivity).
    destruct (CarRoutes.field body "hasTitleInHand") as [[| h | | | |]|];
      try (right; reflexivity).
    destruct (CarRoutes.field body "odometerMiles") as [[| | m | | |]|];
      try (right; reflexivity).
    destruct (CarRoutes.field body "year") as [[| | y | | |]|];
      try (right; reflexivity).
    left. exists p, t, h, m, y. repeat split; reflexivity. }
  assert (Huntyped : (~ exists p t h m y, typed p t h m y) ->
            response = CarRoutes.BadRequest CarRoutes.INVALID_PAYLOAD)
    by (intros Hno; destruct Hdec as [H | H]; [contradiction | exact H]).
  assert (Hdelivery : forall t,
            CarRoutes.deliveryTypeOf t = None
            <-> ~ In t ["local_pickup"; "same_city_carrier"; "cross_country_carrier"]).
  { intros t. unfold CarRoutes.deliveryTypeOf. cbn [In].
    destruct (t =? "local_pickup")%string eqn:E1;
      [apply String.eqb_eq in E1; split; [discriminate | intros H; exfalso; apply H; auto] |].
    destruct (t =? "same_city_carrier")%string eqn:E2;
      [apply String.eqb_eq in E2; split; [discriminate | intros H; exfalso; apply H; auto] |].
    destruct (t =? "cross_country_carrier")%string eqn:E3;
      [apply String.eqb_eq in E3; split; [discriminate | intros H; exfalso; apply H; auto] |].
    apply String.eqb_neq in E1, E2, E3. split; [| reflexivity].
    intros _ [H | [H | [H | []]]]; congruence. }
  split; [| split; [| split]].
  - split; [| exact Huntyped].
    intros E (p & t & h & m & y & H). rewrite (Htyped p t h m y H) in E.
    destruct (CarRoutes.deliveryTypeOf t); [| discriminate E].
    destruct (CarEscrow.computeCarEscrowPlan _ _ _); discriminate E.
  - intros p t h m y H. rewrite (Htyped p t h m y H). split.
    + rewrite <- Hdelivery. destruct (CarRoutes.deliveryTypeOf t) as [carrier|].
      * destruct (CarEscrow.computeCarEscrowPlan _ _ _); split; discriminate.
      * split; reflexivity.
    + intros carrier ->. reflexivity.
  - intros plan flag Hplan Hflag Htruthy.
    destruct Hdec as [Hex | E]; [| rewrite E in Hplan; discriminate Hplan].
    destruct Hex as (p & t & h & m & y & H). rewrite (Htyped p t h m y H) in Hplan.
    destruct (CarRoutes.deliveryTypeOf t) as [carrier|]; [| discriminate Hplan].
    destruct (CarEscrow.computeCarEscrowPlan _ _ _) as [plan'|] eqn:Ecompute;
      [| discriminate Hplan].
    injection Hplan as <-.
    destruct (computeCarEscrowPlan_fields _ _ _ _ Ecompute) as (Hfields & _).
    rewrite Hfields. cbn [CarEscrow.plan_reasons]. apply salvage_reason.
    cbn [CarEscrow.isSalvageTitle]. rewrite Hflag. cbn [option_map]. now rewrite Htruthy.
  - intros Hrange E.
    destruct Hdec as [(p & t & h & m & y & H) | E']; [| rewrite E' in E; discriminate E].
    rewrite (Htyped p t h m y H) in E.
    destruct (CarRoutes.deliveryTypeOf t) as [carrier|]; [| discriminate E].
    match type of E with
    | context [CarEscrow.computeCarEscrowPlan ?ny ?n ?sale] =>
        destruct (computeCarEscrowPlan_total ny n sale Hrange) as (plan & Eplan)
    end.
    rewrite Eplan in E. discriminate E.
Qed.

(** A body whose salvage flag is the string [false], and a body whose
    year is a string. *)
Lemma plan_route_checks_types_only_witness :
  CarRoutes.planRoute 2026 1700000000000
    (JObject [("priceUsd", JNumber 8000); ("deliveryType", JString "local_pickup");
              ("hasTitleInHand", JBool true); ("odometerMiles", JNumber 60000);
              ("year", JNumber 2019); ("isSalvageTitle", JString "false")])
  = CarRoutes.PlanComputed
      (CarEscrow.mkCarEscrowPlan 3 CarEscrow.low
         ["Local pickup (in-person)"; "Salvage / rebuilt title"]
         24 48 [360; 60] "2023-11-15T22:13:20.000Z" "2023-11-17T22:13:20.000Z")
  /\ CarRoutes.planRoute 2026 1700000000000
       (JObject [("priceUsd", JNumber 8000); ("deliveryType", JString "local_pickup");
                 ("hasTitleInHand", JBool true); ("odometerMiles", JNumber 60000);
                 ("year", JString "2019")])
     = CarRoutes.BadRequest CarRoutes.INVALID_PAYLOAD.
Proof.
  split.
  - destruct (plan_route_checks_types_only 2026 1700000000000
                (JObject [("priceUsd", JNumber 8000); ("deliveryType", JString "local_pickup");
                          ("hasTitleInHand", JBool true); ("odometerMiles", JNumber 60000);
                          ("year", JNumber 2019); ("isSalvageTitle", JString "false")]))
      as (_ & Htyped & _).
    destruct (Htyped 8000 "local_pickup" true 60000 2019) as (_ & Hplan);
      [repeat split; reflexivity |].
    rewrite (Hplan CarEscrow.local_pickup eq_refl). vm_compute. reflexivity.
  - apply (plan_route_checks_types_only 2026 1700000000000
             (JObject [("priceUsd", JNumber 8000); ("deliveryType", JString "local_pickup");
                       ("hasTitleInHand", JBool true); ("odometerMiles", JNumber 60000);
                       ("year", JString "2019")])).
    intros (p & t & h & m & y & _ & _ & _ & _ & E). discriminate E.
Defined.

End CarEscrowFacts.

(* ------------------------------------------------------------------ *)
(** ** Account-update webhooks *)

Module AccountUpdateFacts.

Import DeadlineProcessor.

Section Handler.

Variable cancelEscrowJobs : EscrowQueues -> string -> M unit.








(** X23. One account update, by what the chain says about its escrow.
    An unknown escrow is skipped, and an error of the chain read is
    counted as an error; neither reaches a queue. An escrow that is
    released, cancelled or refunded has its jobs cancelled and nothing
    scheduled; an escrow in any other status, a disputed one included, is
    handed to the full-plan producer with the delivery time and dispute
    window read from the chain and the handler's reminder offsets. The
    update counts as processed when that call returns and as an error when
    it throws; so an active escrow whose delivery time has passed counts
    as processed although nothing is enqueued. *)
Theorem each_update_by_escrow_status (env : Env) (deps : AccountUpdates.HeliusHandlerDeps)
    (reminders : list Z) (update : AccountUpdates.HeliusAccountUpdate)
    (t : AccountUpdates.Tally) (log : Log) :
  let escrowPubkey := AccountUpdates.account update in
  let answer := AccountUpdates.chainPort_getEscrowState deps log escrowPubkey in
  let counted :=
    AccountUpdates.mkTally (AccountUpdates.t_processed t + 1) (AccountUpdates.t_skipped t)
      (AccountUpdates.t_errors t) in
  let passed :=
    AccountUpdates.mkTally (AccountUpdates.t_processed t) (AccountUpdates.t_skipped t + 1)
      (AccountUpdates.t_errors t) in
  let failed :=
    AccountUpdates.mkTally (AccountUpdates.t_processed t) (AccountUpdates.t_skipped t)
      (AccountUpdates.t_errors t + 1) in
  let settle (r : Outcome unit * Log) :=
    match r with
    | (Ok _, l) => (Ok counted, l)
    | (Throw _, l) => (Ok failed, l)
    end in
  let run := AccountUpdates.processUpdate cancelEscrowJobs env deps reminders update t log in
  (answer = Ok None -> run = (Ok passed, log))
  /\ (forall e, answer = Throw e -> run = (Ok failed, log))
  /\ (forall escrow, answer = Ok (Some escrow) ->
        In (AccountUpdates.status escrow)
           [AccountUpdates.RELEASED; AccountUpdates.CANCELLED; AccountUpdates.REFUNDED] ->
        run = settle (cancelEscrowJobs (AccountUpdates.queues deps) escrowPubkey log))
  /\ (forall escrow, answer = Ok (Some escrow) ->
        In (AccountUpdates.status escrow)
           [AccountUpdates.PENDING; AccountUpdates.FUNDED; AccountUpdates.SHIPPED;
            AccountUpdates.DISPUTED] ->
        run = settle (scheduleEscrowJobs env (AccountUpdates.queues deps)
                        (mkEscrowSchedule escrowPubkey (AccountUpdates.deliveryAtMs escrow)
                           reminders (AccountUpdates.disputeWindowSeconds escrow)) log)
        /\ (AccountUpdates.deliveryAtMs escrow <= clock env log -> run = (Ok counted, log))).
Proof.
  intros escrowPubkey answer counted passed failed settle run.
  assert (Hrun : run
                 = match answer with
                   | Ok None => (Ok passed, log)
                   | Ok (Some escrow) =>
                       settle
                         ((if AccountUpdates.isTerminalStatus (AccountUpdates.status escrow)
                           then cancelEscrowJobs (AccountUpdates.queues deps) escrowPubkey
                           else scheduleEscrowJobs env (AccountUpdates.queues deps)
                                  (mkEscrowSchedule escrowPubkey
                                     (AccountUpdates.deliveryAtMs escrow) reminders
                                     (AccountUpdates.disputeWindowSeconds escrow))) log)
                   | Throw _ => (Ok failed, log)
                   end).
  { subst run. unfold AccountUpdates.processUpdate, AccountUpdates.fetchEscrowState. run_m.
    fold escrowPubkey answer.
    destruct answer as [[escrow|]|e]; [| reflexivity | reflexivity].
    destruct (if AccountUpdates.isTerminalStatus (AccountUpdates.status escrow) then _ else _)
      as [[[]|e] l]; reflexivity. }
  rewrite Hrun. split; [| split; [| split]].
  - intros ->. reflexivity.
  - intros e ->. reflexivity.
  - intros escrow -> Hterminal.
    destruct (AccountUpdates.status escrow); cbn in Hterminal;
      try reflexivity; exfalso; intuition discriminate.
  - intros escrow -> Hactive.
    assert (E : AccountUpdates.isTerminalStatus (AccountUpdates.status escrow) = false)
      by (destruct (AccountUpdates.status escrow); cbn in Hactive;
          try reflexivity; exfalso; intuition discriminate).
    rewrite E. split; [reflexivity |].
    intros Hpast. unfold scheduleEscrowJobs. run_m. cbn [es_deliveryAtMs].
    destruct (Z.leb_spec (AccountUpdates.deliveryAtMs escrow) (clock env log)); [reflexivity | lia].
Qed.

End Handler.



(** An active escrow whose delivery time lies ten seconds back. *)
Lemma each_update_by_escrow_status_witness :
  AccountUpdates.processUpdate AccountUpdates.standInCancel
    (mockEnv testVars 1700007210000 None) AccountUpdates.standInDeps [1440; 60]
    (AccountUpdates.mkHeliusAccountUpdate "ESCROW-ACTIVE" 1 None)
    (AccountUpdates.mkTally 0 0 0) []
  = (Ok (AccountUpdates.mkTally 1 0 0), []).
Proof.
  destruct (each_update_by_escrow_status AccountUpdates.standInCancel
              (mockEnv testVars 1700007210000 None) AccountUpdates.standInDeps [1440; 60]
              (AccountUpdates.mkHeliusAccountUpdate "ESCROW-ACTIVE" 1 None)
              (AccountUpdates.mkTally 0 0 0) []) as (_ & _ & _ & Hactive).
  destruct (Hactive (AccountUpdates.mkEscrowState AccountUpdates.FUNDED 1700007200000 172800)
              eq_refl) as (_ & Hpast).
  - cbn. tauto.
  - apply Hpast. simpl. lia.
Defined.

End AccountUpdateFacts.


(* ------------------------------------------------------------------ *)
(** ** The notifier: redaction, log threshold, choice of the driver *)

Module NotifierFacts.

Lemma setField_keys (fields : list (string * Json)) (key : string) (x v : Json) :
  lookupField fields key = Some x ->
  map fst (Notifier.setField fields key v) = map fst fields.
Proof.
  induction fields as [|[k y] rest IH]; [discriminate |].
  cbn [lookupField Notifier.setField].
  destruct (k =? key)%string; [reflexivity |].
  intros H. cbn [map fst]. now rewrite IH.
Qed.

Lemma lookup_setField (fields : list (string * Json)) (key k : string) (v : Json) :
  lookupField (Notifier.setField fields key v) k
  = if (key =? k)%string then Some v else lookupField fields k.
Proof.
  induction fields as [|[k0 y] rest IH]; cbn [Notifier.setField lookupField].
  - reflexivity.
  - destruct (k0 =? key)%string eqn:E0; cbn [lookupField].
    + apply String.eqb_eq in E0. subst k0.
      destruct (key =? k)%string; reflexivity.
    + rewrite IH. destruct (k0 =? k)%string eqn:E1; [| reflexivity].
      apply String.eqb_eq in E1. subst k0. rewrite String.eqb_sym, E0. reflexivity.
Qed.

Lemma redactContext_keys (ctx : list (string * Json)) :
  map fst (Notifier.redactContext ctx) = map fst ctx.
Proof.
  unfold Notifier.redactContext. rewrite map_map. apply map_ext.
  intros [k v]. cbn [fst]. destruct (Notifier.redactsKey k); reflexivity.
Qed.

(** X24. Redaction before logging. Within the [context] of a logged
    object the keys, their order and their number stay as they are, and a
    value either stays or becomes [<redacted>]; outside the context
    nothing changes, and doing it twice changes nothing more. A key is
    redacted when its lower-cased name contains [token] or [key], unless
    it contains [url] or [cid]: those are passed on even when they also
    contain [token] or [key]. None of the keys that the processors put
    into a context is redacted. *)
Theorem redaction_spares_urls (obj ctx : list (string * Json)) :
  map fst (Notifier.redactContext ctx) = map fst ctx
  /\ (forall k v, In (k, v) (Notifier.redactContext ctx) ->
        (In (k, v) ctx /\ Notifier.redactsKey k = false)
        \/ (v = JString "<redacted>" /\ Notifier.redactsKey k = true))
  /\ Notifier.redactContext (Notifier.redactContext ctx) = Notifier.redactContext ctx
  /\ (forall k,
        Notifier.includes (Str.toLowerCase k) "url" = true
        \/ Notifier.includes (Str.toLowerCase k) "cid" = true ->
        Notifier.redactsKey k = false)
  /\ (forall k,
        Notifier.includes (Str.toLowerCase k) "url" = false ->
        Notifier.includes (Str.toLowerCase k) "cid" = false ->
        Notifier.includes (Str.toLowerCase k) "token" = true
        \/ Notifier.includes (Str.toLowerCase k) "key" = true ->
        Notifier.redactsKey k = true)
  /\ (forall c, Forall (fun k => Notifier.redactsKey k = false) (Notifier.contextKeys c))
  /\ map fst (Notifier.redact obj) = map fst obj
  /\ (forall k, k <> "context" ->
        lookupField (Notifier.redact obj) k = lookupField obj k)
  /\ (lookupField obj "context" = Some (JObject ctx) ->
      lookupField (Notifier.redact obj) "context"
      = Some (JObject (Notifier.redactContext ctx))).
Proof.
  split; [apply redactContext_keys |]. split; [| split; [| split; [| split; [| split]]]].
  - intros k v Hin. unfold Notifier.redactContext in Hin. apply in_map_iff in Hin.
    destruct Hin as ([k0 v0] & E & Hin). cbn [fst] in E.
    destruct (Notifier.redactsKey k0) eqn:Hk; injection E as <- <-.
    + right. now split.
    + left. now split.
  - unfold Notifier.redactContext. rewrite map_map. apply map_ext.
    intros [k v]. cbn [fst]. destruct (Notifier.redactsKey k) eqn:Hk; cbn [fst]; now rewrite Hk.
  - intros k [H | H]; unfold Notifier.redactsKey; rewrite H; [reflexivity |].
    destruct (Notifier.includes _ "url"); reflexivity.
  - intros k Hurl Hcid H. unfold Notifier.redactsKey. rewrite Hurl, Hcid.
    destruct H as [-> | ->]; [reflexivity | apply orb_true_r].
  - intros []; repeat constructor.
  - split; [| split].
    + unfold Notifier.redact.
      destruct (lookupField obj "context") as [[| | | |items|fields]|] eqn:E;
        try reflexivity; eapply setField_keys; exact E.
    + intros k Hk. unfold Notifier.redact.
      destruct (lookupField obj "context") as [[| | | |items|fields]|] eqn:E;
        try reflexivity; rewrite lookup_setField;
        (destruct ("context" =? k)%string eqn:Ek;
         [apply String.eqb_eq in Ek; congruence | reflexivity]).
    + intros E. unfold Notifier.redact. rewrite E, lookup_setField. reflexivity.
Qed.

(** A reviewer notice whose context holds a link, a session token and an
    API key. *)
Lemma redaction_spares_urls_witness :
  Notifier.redact
    [("dealId", JString "D-1");
     ("context", JObject [("approvalUrl", JString "https://approve.example/D-1");
                          ("sessionToken", JString "s3cr3t");
                          ("tokenUrl", JString "https://auth.example/t0k3n");
                          ("apiKey", JString "k3y")])]
  = [("dealId", JString "D-1");
     ("context", JObject [("approvalUrl", JString "https://approve.example/D-1");
                          ("sessionToken", JString "<redacted>");
                          ("tokenUrl", JString "https://auth.example/t0k3n");
                          ("apiKey", JString "<redacted>")])]
  /\ Notifier.redactsKey "tokenUrl" = false.
Proof.
  split; [reflexivity |].
  destruct (redaction_spares_urls [] []) as (_ & _ & _ & Hspared & _).
  apply Hspared. left. reflexivity.
Defined.

Lemma order_cases (name : string) :
  (name = "debug" /\ Notifier.order name = Some 10)
  \/ (name = "info" /\ Notifier.order name = Some 20)
  \/ (name = "warn" /\ Notifier.order name = Some 30)
  \/ (name = "error" /\ Notifier.order name = Some 40)
  \/ Notifier.order name = None.
Proof.
  unfold Notifier.order.
  destruct (name =? "debug")%string eqn:E1;
    [apply String.eqb_eq in E1; left; now split |].
  destruct (name =? "info")%string eqn:E2;
    [apply String.eqb_eq in E2; right; left; now split |].
  destruct (name =? "warn")%string eqn:E3;
    [apply String.eqb_eq in E3; do 2 right; left; now split |].
  destruct (name =? "error")%string eqn:E4;
    [apply String.eqb_eq in E4; do 3 right; left; now split |].
  do 4 right. reflexivity.
Qed.

(** X25. The log threshold. A message is dropped exactly when
    [LOG_LEVEL] names one of the four levels and the message's level
    ranks below it; the threshold is [info] when the variable is unset or
    empty. So errors are always printed, and a [LOG_LEVEL] that is none
    of [debug], [info], [warn], [error] (a level in capitals, say) drops
    nothing, debug messages included. The noop notifier logs at [info]:
    it is silent exactly under the thresholds [warn] and [error]. *)
Theorem log_threshold (env : Env) :
  (forall level,
     Notifier.belowThreshold env level = true
     <-> exists a b, Notifier.order (Notifier.Level_str level) = Some a
                     /\ Notifier.order (Notifier.LOG_LEVEL env) = Some b /\ a < b)
  /\ ((processEnv env "LOG_LEVEL" = None \/ processEnv env "LOG_LEVEL" = Some "") ->
      forall level, Notifier.belowThreshold env level = true <-> level = Notifier.debug)
  /\ Notifier.belowThreshold env Notifier.error = false
  /\ (Notifier.order (Notifier.LOG_LEVEL env) = None ->
      forall level, Notifier.belowThreshold env level = false)
  /\ (forall ts method input,
        Notifier.noopNotify env ts method input = None
        <-> Notifier.LOG_LEVEL env = "warn" \/ Notifier.LOG_LEVEL env = "error").
Proof.
  assert (Hspec : forall level,
             Notifier.belowThreshold env level = true
             <-> exists a b, Notifier.order (Notifier.Level_str level) = Some a
                             /\ Notifier.order (Notifier.LOG_LEVEL env) = Some b /\ a < b).
  { intros level. unfold Notifier.belowThreshold.
    destruct (Notifier.order (Notifier.Level_str level)) as [a|];
      [| split; [discriminate | intros (a & b & E & _); discriminate E]].
    destruct (Notifier.order (Notifier.LOG_LEVEL env)) as [b|];
      [| split; [discriminate | intros (a' & b & _ & E & _); discriminate E]].
    rewrite Z.ltb_lt. split.
    - intros H. now exists a, b.
    - intros (a' & b' & Ea & Eb & H). injection Ea as <-. injection Eb as <-. exact H. }
  split; [exact Hspec |]. split; [| split; [| split]].
  - intros Hunset level.
    assert (E : Notifier.LOG_LEVEL env = "info")
      by (unfold Notifier.LOG_LEVEL; destruct Hunset as [-> | ->]; reflexivity).
    unfold Notifier.belowThreshold. rewrite E.
    destruct level; cbn; split; congruence.
  - unfold Notifier.belowThreshold. cbn [Notifier.Level_str].
    change (Notifier.order "error") with (Some 40).
    destruct (order_cases (Notifier.LOG_LEVEL env))
      as [[_ ->] | [[_ ->] | [[_ ->] | [[_ ->] | ->]]]]; reflexivity.
  - intros Hunknown level. unfold Notifier.belowThreshold. rewrite Hunknown.
    destruct (Notifier.order (Notifier.Level_str level)); reflexivity.
  - intros ts method input. unfold Notifier.noopNotify, Notifier.log, Notifier.belowThreshold.
    cbn [Notifier.Level_str]. change (Notifier.order "info") with (Some 20).
    destruct (order_cases (Notifier.LOG_LEVEL env))
      as [[E H] | [[E H] | [[E H] | [[E H] | H]]]]; rewrite H; cbn;
      try rewrite E; split; try discriminate; try tauto;
      intros [E' | E']; try discriminate E';
      rewrite E' in H; discriminate H.
Qed.

(** A threshold written in capitals lets a debug message through. *)
Lemma log_threshold_witness :
  Notifier.belowThreshold
    (mockEnv (fun name => if (name =? "LOG_LEVEL")%string then Some "ERROR" else None)
       1700000000000 None)
    Notifier.debug
  = false.
Proof.
  destruct (log_threshold
              (mockEnv (fun name => if (name =? "LOG_LEVEL")%string then Some "ERROR" else None)
                 1700000000000 None)) as (_ & _ & _ & Hunknown & _).
  apply Hunknown. reflexivity.
Defined.

Lemma trim_empty : trim "" = "".
Proof. reflexivity. Qed.



(** The same configuration with the slash in place. *)
Example dialect_notifier_chosen :
  Notifier.getNotifyPort
    (mockEnv (fun name =>
                if (name =? "NOTIFY_DRIVER")%string then Some "dialect"
                else if (name =? "NOTIFY_DIALECT_BASEURL")%string
                then Some "https://api.dialect.example.com/"
                else if (name =? "NOTIFY_DIALECT_KEY")%string then Some "k3y"
                else None)
       1700000000000 None)
  = Notifier.DialectNotifier "https://api.dialect.example.com/" "k3y".
Proof. reflexivity. Qed.

(** The form of a base URL: a scheme, at least one character, a slash at
    the end. *)
Example baseUrlMatches_vectors :
  map Notifier.baseUrlMatches
    ["https://api.dialect.example.com/"; "http://a/"; "https://a/b/c/";
     "https://api.dialect.example.com"; "https:///"; "http://"; "ftp://a/";
     "HTTPS://a/"; "https://a/ "; ""]
  = [true; true; true; false; false; false; false; false; false; false].
Proof. reflexivity. Qed.

End NotifierFacts.

(* ------------------------------------------------------------------ *)
(** ** Idempotency keys *)

Module IdempotencyFacts.






















(** The text that is hashed for both. *)
Example stableStringify_ex :
  Idempotency.stableStringify Idempotency.standInStringify
    (JObject [("dealId", JString "D-1");
              ("context", JObject [("suggested", JString "REVIEW"); ("kind", JNull)])])
  = "{" ++ quoted "context" ++ ":{" ++ quoted "kind" ++ ":null," ++ quoted "suggested" ++ ":"
        ++ quoted "REVIEW" ++ "}," ++ quoted "dealId" ++ ":" ++ quoted "D-1" ++ "}".
Proof. reflexivity. Qed.

End IdempotencyFacts.

(* ------------------------------------------------------------------ *)
(** ** Car-escrow notifications *)

Module CarNotificationFacts.

(** The price in dollars, digits in groups of three. *)
Example formatUsd_vectors :
  map CarNotifications.formatUsd [0; 5; 999; 1000; 12500; 1234567; -12500]
  = ["$0"; "$5"; "$999"; "$1,000"; "$12,500"; "$1,234,567"; "-$12,500"].
Proof. vm_compute. reflexivity. Qed.

Example formatCarLabel_ex :
  CarNotifications.formatCarLabel
    (CarNotifications.mkCarSummary (Some "Honda") (Some "Civic") (Some 2018) (Some "1234")
       12500 None)
  = "2018 Honda Civic (…1234), $12,500".
Proof. vm_compute. reflexivity. Qed.





End CarNotificationFacts.
